(** * aws_finops_dashboard.helpers: report export and configuration loading

    A shallow embedding of [aws_finops_dashboard/helpers.py].

    Python strings are Rocq strings (a character is a code point below 256),
    Python [int]s are [Z], [Optional[T]] is [option T], and a [dict] whose
    iteration order matters is an association list.  Functions that touch
    the console, the filesystem or the object store are computations in a
    state-and-exception monad over an explicit [world]. *)

From Stdlib Require Import String Ascii List ZArith NArith Lia Bool Arith.
From Stdlib Require Import DecimalString DecimalZ DecimalN.
From Stdlib Require Import Floats.SpecFloat.
From Equations Require Import Equations.
Import ListNotations.

Local Open Scope list_scope.
Local Open Scope string_scope.

(* ===================================================================== *)
(** * Python strings *)
(* ===================================================================== *)

(** [s.startswith(p)] *)
Definition startswith (p s : string) : bool := String.prefix p s.

(** [s.lstrip("/")]: every leading slash is removed. *)
Fixpoint lstrip_slash (s : string) : string :=
  match s with
  | String c s' => if Ascii.eqb c "/" then lstrip_slash s' else s
  | EmptyString => EmptyString
  end.

(** [s.rstrip("/")] *)
Fixpoint rstrip_slash (s : string) : string :=
  match s with
  | String c s' =>
      match rstrip_slash s' with
      | EmptyString => if Ascii.eqb c "/" then EmptyString else String c EmptyString
      | r => String c r
      end
  | EmptyString => EmptyString
  end.

(** [s.endswith(suffix)] *)
Fixpoint endswith (suffix s : string) : bool :=
  if String.eqb suffix s then true
  else match s with
       | String _ s' => endswith suffix s'
       | EmptyString => false
       end.

(** [s.split(sep)] for a one-character separator: never returns [[]]. *)
Fixpoint split_on (sep : ascii) (s : string) : list string :=
  match s with
  | EmptyString => [EmptyString]
  | String c s' =>
      if Ascii.eqb c sep then EmptyString :: split_on sep s'
      else match split_on sep s' with
           | w :: ws => String c w :: ws
           | [] => [String c EmptyString]
           end
  end.

(** ASCII lower-casing of one character, and [s.lower()]. *)
Definition lower_ascii (c : ascii) : ascii :=
  let n := nat_of_ascii c in
  if (65 <=? n)%nat && (n <=? 90)%nat then ascii_of_nat (n + 32) else c.

Fixpoint lower (s : string) : string :=
  match s with
  | EmptyString => EmptyString
  | String c s' => String (lower_ascii c) (lower s')
  end.

(** [yes(o) if o else no] for an [Optional[str]]: [None] and the empty
    string are falsy. *)
Definition if_truthy {A : Type} (o : option string) (yes : string -> A) (no : A) : A :=
  match o with
  | Some s => if String.eqb s "" then no else yes s
  | None => no
  end.

(** [str(n)] for an [int]. *)
Definition str_int (z : Z) : string := NilZero.string_of_int (Z.to_int z).

(** A non-negative number written with at least [width] digits, zero padded
    on the left, as [strftime] writes the fields of a date. *)
Fixpoint zero_pad (width : nat) (s : string) : string :=
  match width with
  | O => s
  | S w => if (String.length s <=? w)%nat then String "0" (zero_pad w s) else s
  end.

Definition pad_int (width : nat) (z : Z) : string := zero_pad width (str_int z).


(* ===================================================================== *)
(** * [os.path] on POSIX *)
(* ===================================================================== *)

(** Split at the last occurrence of [c]: [Some (before, after)]. *)
Fixpoint rsplit_char (c : ascii) (s : string) : option (string * string) :=
  match s with
  | EmptyString => None
  | String a s' =>
      match rsplit_char c s' with
      | Some (b, t) => Some (String a b, t)
      | None => if Ascii.eqb a c then Some (EmptyString, s') else None
      end
  end.

Fixpoint all_char (c : ascii) (s : string) : bool :=
  match s with
  | EmptyString => true
  | String a s' => Ascii.eqb a c && all_char c s'
  end.

(** [os.path.isabs] *)
Definition isabs (p : string) : bool := startswith "/" p.

(** [os.path.join(a, b)] *)
Definition path_join (a b : string) : string :=
  if startswith "/" b then b
  else if String.eqb a "" || endswith "/" a then a ++ b
  else a ++ "/" ++ b.

(** [os.path.dirname] *)
Definition dirname (p : string) : string :=
  match rsplit_char "/" p with
  | None => ""
  | Some (b, _) =>
      let head := b ++ "/" in
      if all_char "/" head then head else rstrip_slash head
  end.

(** [os.path.splitext]: the extension starts at the last dot of the last
    path component, leading dots of that component not counted. *)
Definition splitext (p : string) : string * string :=
  let '(head, base) :=
    match rsplit_char "/" p with
    | None => ("", p)
    | Some (b, t) => (b ++ "/", t)
    end in
  match rsplit_char "." base with
  | None => (p, "")
  | Some (pre, ext) =>
      if all_char "." pre then (p, "") else (head ++ pre, String "." ext)
  end.

(** One step of the loop of [os.path.normpath]; [new_comps] is kept with its
    last component first. *)
Definition normpath_step (initial_slashes : nat) (new_comps : list string)
    (comp : string) : list string :=
  if String.eqb comp "" || String.eqb comp "." then new_comps
  else if negb (String.eqb comp "..")
          || (Nat.eqb initial_slashes 0 && match new_comps with [] => true | _ => false end)
          || match new_comps with c :: _ => String.eqb c ".." | [] => false end
       then comp :: new_comps
       else match new_comps with
            | _ :: rest => rest
            | [] => []
            end.

Fixpoint repeat_slash (n : nat) : string :=
  match n with
  | O => ""
  | S k => String "/" (repeat_slash k)
  end.

(** [os.path.normpath] *)
Definition normpath (path : string) : string :=
  if String.eqb path "" then "."
  else
    let initial_slashes :=
      if startswith "/" path
      then if startswith "//" path && negb (startswith "///" path) then 2%nat else 1%nat
      else 0%nat in
    let comps := rev (fold_left (normpath_step initial_slashes) (split_on "/" path) []) in
    let p := repeat_slash initial_slashes ++ String.concat "/" comps in
    if String.eqb p "" then "." else p.

(** [os.path.abspath], given the current working directory. *)
Definition abspath (cwd path : string) : string :=
  normpath (if isabs path then path else path_join cwd path).

(* ===================================================================== *)
(** * Exceptions *)
(* ===================================================================== *)

(** The classes of [Exception] that the module and its collaborators raise. *)
Inductive exn_class : Type :=
| Exception
| OSError
| FileNotFoundError
| FileExistsError
| IsADirectoryError
| NotADirectoryError
| PermissionError
| ValueError
| UnicodeDecodeError
| TOMLDecodeError
| JSONDecodeError
| YAMLError
| KeyError
| TypeError
| AttributeError
| ClientError
| LayoutError.

Scheme Equality for exn_class.

(** The class and its base classes, most specific first. *)
Definition mro (c : exn_class) : list exn_class :=
  match c with
  | Exception => [Exception]
  | OSError => [OSError; Exception]
  | FileNotFoundError | FileExistsError | IsADirectoryError
  | NotADirectoryError | PermissionError => [c; OSError; Exception]
  | ValueError => [ValueError; Exception]
  | UnicodeDecodeError | TOMLDecodeError | JSONDecodeError => [c; ValueError; Exception]
  | _ => [c; Exception]
  end.

Record exn : Type := mkExn { exn_cls : exn_class; exn_str : string }.

(** [isinstance(e, c)] *)
Definition isinstance (e : exn) (c : exn_class) : bool :=
  existsb (exn_class_beq c) (mro (exn_cls e)).

Inductive result (A : Type) : Type :=
| Ok (a : A)
| Raise (e : exn).
Arguments Ok {A} a.
Arguments Raise {A} e.


(* ===================================================================== *)
(** * Data model *)
(* ===================================================================== *)

(** A Python [float]: an IEEE 754 binary64 value, by its sign, mantissa and
    exponent. *)
Definition pyfloat : Type := spec_float.

(** [Dict[str, str]]: an audit row. *)
Definition audit_row : Type := list (string * string).

Fixpoint dict_find {V : Type} (key : string) (d : list (string * V)) : option V :=
  match d with
  | [] => None
  | (k, v) :: d' => if String.eqb k key then Some v else dict_find key d'
  end.

(** [d.get(key, default)] *)
Definition dict_get {V : Type} (d : list (string * V)) (key : string) (default : V) : V :=
  match dict_find key d with
  | Some v => v
  | None => default
  end.

(** [repr(s)] of a key, as [str(KeyError(key))] shows it. *)
Definition repr_key (key : string) : string := "'" ++ key ++ "'".

(** [d[key]] *)
Definition dict_item {V : Type} (d : list (string * V)) (key : string) : result V :=
  match dict_find key d with
  | Some v => Ok v
  | None => Raise (mkExn KeyError (repr_key key))
  end.

(** [ProfileData], the row of the cost report ([aws_finops_dashboard.types]),
    with the fields the export reads. *)
Record ProfileData : Type := mkProfileData {
  profile : string;
  account_id : string;
  last_month : pyfloat;
  current_month : pyfloat;
  service_costs : list (string * pyfloat);
  budget_info : list string;
  ec2_summary : list (string * Z)
}.

(** A [boto3] session handle. *)
Record Session : Type := mkSession { session_profile : string }.

(* ===================================================================== *)
(** * ReportLab documents *)
(* ===================================================================== *)

Inductive para_style : Type :=
| style_Title
| pdf_footer_style.

(** The flowables the reports are built from.  [paragraphStyling],
    [miniHeader], [keyValueTable] and [bulletList] are the constructors of
    [aws_finops_dashboard.pdf_utils]; a flowable records the call and its
    arguments. *)
Inductive Flowable : Type :=
| Paragraph (text : string) (style : para_style)
| Spacer (width height : Z)
| Table (cell : Flowable)
| paragraphStyling (text : string)
| miniHeader (title : string)
| keyValueTable (rows : list (string * string))
| bulletList (items : list string).

(** Where a [SimpleDocTemplate] writes: an in-memory [BytesIO] or a file. *)
Inductive doc_target : Type :=
| BytesIO
| Filename (name : string).

(** What a file or an object holds: text (a [str], or its UTF-8 bytes), or
    the PDF rendering of a list of flowables. *)
Inductive content : Type :=
| Text (s : string)
| Pdf (elements : list Flowable).

(* ===================================================================== *)
(** * The world: console, filesystem, object store, clock *)
(* ===================================================================== *)

Record datetime : Type := mkDatetime {
  year : Z; month : Z; day : Z; hour : Z; minute : Z; second : Z
}.

Record s3_object : Type := mkObject {
  Bucket : string;
  Key : string;
  Body : content;
  ContentType : option string
}.

(** The calls into the operating system and the libraries that can fail for
    reasons outside the program. *)
Inductive syscall : Type :=
| Sys_makedirs (path : string)
| Sys_open (path mode : string)
| Sys_build (target : doc_target) (elements : list Flowable)
| Sys_client (session : Session)
| Sys_put_object (bucket key : string).

Record world : Type := mkWorld {
  fs_dirs : list string;               (* directories, as absolute normal paths *)
  fs_files : list (string * content);  (* files, as absolute normal paths *)
  fs_cwd : string;                     (* [os.getcwd()] *)
  s3_puts : list s3_object;            (* objects put so far, latest first *)
  console : list string;               (* lines printed, latest first *)
  clock : datetime;                    (* [datetime.now()] *)
  faults : syscall -> option exn       (* failures injected by the environment *)
}.

(** A computation: from a world to a value or a raised exception, and the
    world it leaves. *)
Definition M (A : Type) : Type := world -> result A * world.

Definition ret {A : Type} (a : A) : M A := fun w => (Ok a, w).

Definition raise {A : Type} (e : exn) : M A := fun w => (Raise e, w).

Definition bind {A B : Type} (c : M A) (k : A -> M B) : M B :=
  fun w =>
    match c w with
    | (Ok a, w') => k a w'
    | (Raise e, w') => (Raise e, w')
    end.

Declare Scope py_scope.
Delimit Scope py_scope with py.
Notation "x <- c1 ;; c2" := (bind c1 (fun x => c2))
  (at level 61, c1 at next level, right associativity) : py_scope.
Notation "c1 ;; c2" := (bind c1 (fun _ => c2))
  (at level 61, right associativity) : py_scope.
Local Open Scope py_scope.

(** A pure step that can raise. *)
Definition lift {A : Type} (r : result A) : M A :=
  match r with
  | Ok a => ret a
  | Raise e => raise e
  end.

(** One [except] clause: the class expression, whose evaluation can itself
    raise, and the handler. *)
Inductive except_clause (A : Type) : Type :=
| Except (cls : result exn_class) (handler : exn -> M A).
Arguments Except {A} cls handler.

(** The clauses are tried in order; a class expression is evaluated only when
    its clause is reached, and an exception raised by that evaluation leaves
    the [try] statement. *)
Fixpoint dispatch {A : Type} (clauses : list (except_clause A)) (e : exn) : M A :=
  match clauses with
  | [] => raise e
  | Except cls handler :: rest =>
      match cls with
      | Raise e' => raise e'
      | Ok c => if isinstance e c then handler e else dispatch rest e
      end
  end.

(** [try: body  except ...: ...] *)
Definition try_except {A : Type} (body : M A) (clauses : list (except_clause A)) : M A :=
  fun w =>
    match body w with
    | (Ok a, w') => (Ok a, w')
    | (Raise e, w') => dispatch clauses e w'
    end.

(** The world with one more line on the console. *)
Definition add_console (msg : string) (w : world) : world :=
  mkWorld (fs_dirs w) (fs_files w) (fs_cwd w) (s3_puts w) (msg :: console w)
          (clock w) (faults w).

(** The world with one more object in the store. *)
Definition add_put (obj : s3_object) (w : world) : world :=
  mkWorld (fs_dirs w) (fs_files w) (fs_cwd w) (obj :: s3_puts w) (console w)
          (clock w) (faults w).

(** [console.print(msg)] *)
Definition console_print (msg : string) : M unit :=
  fun w => (Ok tt, add_console msg w).

(** [datetime.now()] *)
Definition datetime_now : M datetime := fun w => (Ok (clock w), w).

(** [dt.strftime("%Y%m%d_%H%M")] *)
Definition strftime_stamp (dt : datetime) : string :=
  pad_int 4 (year dt) ++ pad_int 2 (month dt) ++ pad_int 2 (day dt) ++ "_"
  ++ pad_int 2 (hour dt) ++ pad_int 2 (minute dt).

(** [f"{dt:%Y-%m-%d %H:%M:%S}"] *)
Definition strftime_full (dt : datetime) : string :=
  pad_int 4 (year dt) ++ "-" ++ pad_int 2 (month dt) ++ "-" ++ pad_int 2 (day dt)
  ++ " " ++ pad_int 2 (hour dt) ++ ":" ++ pad_int 2 (minute dt) ++ ":"
  ++ pad_int 2 (second dt).

(** ** Filesystem *)

Definition set_fs (dirs : list string) (files : list (string * content)) (w : world) : world :=
  mkWorld dirs files (fs_cwd w) (s3_puts w) (console w) (clock w) (faults w).

Fixpoint file_find (p : string) (files : list (string * content)) : option content :=
  match files with
  | [] => None
  | (q, c) :: rest => if String.eqb q p then Some c else file_find p rest
  end.

Definition is_file (w : world) (p : string) : bool :=
  match file_find p (fs_files w) with Some _ => true | None => false end.

(** The root always exists. *)
Definition is_dir (w : world) (p : string) : bool :=
  all_char "/" p || existsb (String.eqb p) (fs_dirs w).

(** A path and the directories above it, the root left out. *)
Fixpoint ancestors (fuel : nat) (p : string) : list string :=
  match fuel with
  | O => []
  | S f => if all_char "/" p then [] else p :: ancestors f (dirname p)
  end.

(** [os.makedirs(path, exist_ok=True)] *)
Definition os_makedirs (path : string) : M unit :=
  fun w =>
    match faults w (Sys_makedirs path) with
    | Some e => (Raise e, w)
    | None =>
        let p := abspath (fs_cwd w) path in
        let chain := ancestors (String.length p) p in
        if is_file w p then (Raise (mkExn FileExistsError path), w)
        else if existsb (is_file w) chain then (Raise (mkExn NotADirectoryError path), w)
        else (Ok tt, set_fs (chain ++ fs_dirs w)%list (fs_files w) w)
    end.

(** Creating or truncating the file at [path] and writing [data] to it. *)
Definition write_file (mode path : string) (data : content) : M unit :=
  fun w =>
    match faults w (Sys_open path mode) with
    | Some e => (Raise e, w)
    | None =>
        let p := abspath (fs_cwd w) path in
        if is_dir w p then (Raise (mkExn IsADirectoryError path), w)
        else if is_file w (dirname p) then (Raise (mkExn NotADirectoryError path), w)
        else if negb (is_dir w (dirname p)) then (Raise (mkExn FileNotFoundError path), w)
        else (Ok tt, set_fs (fs_dirs w)
                       ((p, data) :: filter (fun e => negb (String.eqb (fst e) p)) (fs_files w)) w)
    end.

(** [open(path, mode)] for reading, then reading it whole: the text of the
    file. *)
Definition read_file (mode path : string) : M content :=
  fun w =>
    match faults w (Sys_open path mode) with
    | Some e => (Raise e, w)
    | None =>
        let p := abspath (fs_cwd w) path in
        if is_dir w p then (Raise (mkExn IsADirectoryError path), w)
        else match file_find p (fs_files w) with
             | Some c => (Ok c, w)
             | None => (Raise (mkExn FileNotFoundError path), w)
             end
    end.

(** [SimpleDocTemplate(target, ...).build(elements)]: lays the flowables out
    and writes the PDF to the target; the value is the bytes written. *)
Definition doc_build (target : doc_target) (elements : list Flowable) : M content :=
  fun w =>
    match faults w (Sys_build target elements) with
    | Some e => (Raise e, w)
    | None =>
        match target with
        | BytesIO => (Ok (Pdf elements), w)
        | Filename name =>
            match write_file "wb" name (Pdf elements) w with
            | (Ok _, w') => (Ok (Pdf elements), w')
            | (Raise e, w') => (Raise e, w')
            end
        end
    end.

(** ** Object store *)

(** [session.client("s3")] *)
Definition session_client (session : Session) : M unit :=
  fun w =>
    match faults w (Sys_client session) with
    | Some e => (Raise e, w)
    | None => (Ok tt, w)
    end.

(** [s3_client.put_object(Bucket=..., Key=..., Body=..., ContentType=...)].
    The client checks the parameters before it sends anything: a
    [ContentType] that is [None] is refused with a [ParamValidationError]. *)
Definition put_object (bucket key : string) (body : content)
    (content_type : option string) : M unit :=
  fun w =>
    match content_type with
    | None =>
        (Raise (mkExn Exception "Parameter validation failed: Invalid type for parameter ContentType"), w)
    | Some _ =>
        match faults w (Sys_put_object bucket key) with
        | Some e => (Raise e, w)
        | None => (Ok tt, add_put (mkObject bucket key body content_type) w)
        end
    end.

(* ===================================================================== *)
(** * [csv.writer] with the default (excel) dialect *)
(* ===================================================================== *)

Definition LF : ascii := "010"%char.
Definition CR : ascii := "013"%char.
Definition DQUOTE : ascii := "034"%char.
Definition CRLF : string := String CR (String LF EmptyString).

(** The characters that force a field into quotes under [QUOTE_MINIMAL]: the
    delimiter, the quote character and the characters of the line
    terminator. *)
Definition csv_special (c : ascii) : bool :=
  Ascii.eqb c "," || Ascii.eqb c DQUOTE || Ascii.eqb c CR || Ascii.eqb c LF.

Fixpoint csv_needs_quotes (s : string) : bool :=
  match s with
  | EmptyString => false
  | String c s' => csv_special c || csv_needs_quotes s'
  end.

(** A quote character inside a field is doubled. *)
Fixpoint csv_double_quotes (s : string) : string :=
  match s with
  | EmptyString => EmptyString
  | String c s' =>
      if Ascii.eqb c DQUOTE then String DQUOTE (String DQUOTE (csv_double_quotes s'))
      else String c (csv_double_quotes s')
  end.

Definition csv_field (s : string) : string :=
  if csv_needs_quotes s
  then String DQUOTE (csv_double_quotes s ++ String DQUOTE EmptyString)
  else s.

(** [writer.writerow(fields)]: the text appended to the buffer.  A record
    made of one empty field is written as a pair of quotes. *)
Definition csv_writerow (fields : list string) : string :=
  match fields with
  | [EmptyString] => String DQUOTE (String DQUOTE CRLF)
  | _ => String.concat "," (map csv_field fields) ++ CRLF
  end.

(* ===================================================================== *)
(** * Formatting a float with [:.2f] *)
(* ===================================================================== *)

(** The value [m * 2^e * 100] rounded to the nearest integer, ties to
    even: the digits of the correctly rounded two-decimal rendering. *)
Definition round_cents (m : positive) (e : Z) : Z :=
  if (0 <=? e)%Z then (Zpos m * 2 ^ e * 100)%Z
  else
    let num := (Zpos m * 100)%Z in
    let den := (2 ^ (- e))%Z in
    let q := (num / den)%Z in
    let r := (num mod den)%Z in
    if (2 * r <? den)%Z then q
    else if (den <? 2 * r)%Z then (q + 1)%Z
    else if Z.even q then q else (q + 1)%Z.

Definition fixed2 (cents : Z) : string :=
  str_int (cents / 100) ++ "." ++ pad_int 2 (cents mod 100).

Definition sign_str (s : bool) : string := if s then "-" else "".

(** [f"{x:.2f}"] *)
Definition format_2f (x : pyfloat) : string :=
  match x with
  | S754_zero s => sign_str s ++ "0.00"
  | S754_infinity s => sign_str s ++ "inf"
  | S754_nan => "nan"
  | S754_finite s m e => sign_str s ++ fixed2 (round_cents m e)
  end.

(* ===================================================================== *)
(** * [json.dumps(obj, indent=4)] and [json.loads] *)
(* ===================================================================== *)

(** The values of the JSON data model as Python objects: [None], [bool],
    [int], [str], [list], and [dict] with [str] keys in insertion order. *)
#[warnings="-register-all"]
Inductive pyvalue : Type :=
| PyNone
| PyBool (b : bool)
| PyInt (z : Z)
| PyStr (s : string)
| PyList (items : list pyvalue)
| PyDict (items : list (string * pyvalue)).

Definition hex_digit (n : N) : ascii :=
  if (n <? 10)%N then ascii_of_N (48 + n) else ascii_of_N (87 + n).

(** [r"\u00xx"] for a code point below 256. *)
Definition escape_u (c : ascii) : string :=
  let n := N_of_ascii c in
  String "\" (String "u" (String "0" (String "0"
    (String (hex_digit (n / 16)) (String (hex_digit (n mod 16)) EmptyString))))).

(** The replacement of one character by [py_encode_basestring_ascii]. *)
Definition escape_char (c : ascii) : string :=
  let n := N_of_ascii c in
  if Ascii.eqb c DQUOTE then String "\" (String DQUOTE EmptyString)
  else if Ascii.eqb c "\" then "\\"
  else if (n =? 10)%N then "\n"
  else if (n =? 13)%N then "\r"
  else if (n =? 9)%N then "\t"
  else if (n =? 8)%N then "\b"
  else if (n =? 12)%N then "\f"
  else if (n <? 32)%N || (126 <? n)%N then escape_u c
  else String c EmptyString.

Fixpoint escape_string (s : string) : string :=
  match s with
  | EmptyString => EmptyString
  | String c s' => escape_char c ++ escape_string s'
  end.

(** [encode_basestring_ascii(s)] *)
Definition encode_basestring_ascii (s : string) : string :=
  String DQUOTE (escape_string s ++ String DQUOTE EmptyString).

Fixpoint spaces (n : nat) : string :=
  match n with
  | O => EmptyString
  | S k => String " " (spaces k)
  end.

(** A newline followed by the indentation of [level], four spaces a level. *)
Definition newline_indent (level : nat) : string := String LF (spaces (4 * level)).

(** The encoder at nesting depth [level]. *)
Fixpoint iterencode (level : nat) (o : pyvalue) : string :=
  match o with
  | PyNone => "null"
  | PyBool true => "true"
  | PyBool false => "false"
  | PyInt z => str_int z
  | PyStr s => encode_basestring_ascii s
  | PyList [] => "[]"
  | PyList (first :: rest) =>
      "[" ++ newline_indent (S level) ++ iterencode (S level) first
      ++ (fix items (l : list pyvalue) : string :=
            match l with
            | [] => EmptyString
            | v :: l' => "," ++ newline_indent (S level) ++ iterencode (S level) v ++ items l'
            end) rest
      ++ newline_indent level ++ "]"
  | PyDict [] => "{}"
  | PyDict ((k, first) :: rest) =>
      "{" ++ newline_indent (S level) ++ encode_basestring_ascii k ++ ": "
      ++ iterencode (S level) first
      ++ (fix items (l : list (string * pyvalue)) : string :=
            match l with
            | [] => EmptyString
            | (k', v) :: l' =>
                "," ++ newline_indent (S level) ++ encode_basestring_ascii k' ++ ": "
                ++ iterencode (S level) v ++ items l'
            end) rest
      ++ newline_indent level ++ "}"
  end.

(** [json.dumps(obj, indent=4)] *)
Definition json_dumps (obj : pyvalue) : string := iterencode 0 obj.

(** JSON whitespace. *)
Definition is_ws (c : ascii) : bool :=
  Ascii.eqb c " " || Ascii.eqb c "009" || Ascii.eqb c LF || Ascii.eqb c CR.

Fixpoint skip_ws (s : string) : string :=
  match s with
  | String c s' => if is_ws c then skip_ws s' else s
  | EmptyString => EmptyString
  end.

Definition hex_value (c : ascii) : option N :=
  let n := N_of_ascii c in
  if (48 <=? n)%N && (n <=? 57)%N then Some (n - 48)%N
  else if (97 <=? n)%N && (n <=? 102)%N then Some (n - 87)%N
  else if (65 <=? n)%N && (n <=? 70)%N then Some (n - 55)%N
  else None.

(** [int(s[pos + 1:pos + 5], 16)] *)
Definition decode_uXXXX (h1 h2 h3 h4 : ascii) : option N :=
  match hex_value h1, hex_value h2, hex_value h3, hex_value h4 with
  | Some a, Some b, Some c, Some d => Some (((a * 16 + b) * 16 + c) * 16 + d)%N
  | _, _, _, _ => None
  end.

(** The table [BACKSLASH] of the one-letter escapes. *)
Definition BACKSLASH (esc : ascii) : option ascii :=
  if Ascii.eqb esc DQUOTE then Some DQUOTE
  else if Ascii.eqb esc "\" then Some "\"%char
  else if Ascii.eqb esc "/" then Some "/"%char
  else if Ascii.eqb esc "b" then Some "008"%char
  else if Ascii.eqb esc "f" then Some "012"%char
  else if Ascii.eqb esc "n" then Some LF
  else if Ascii.eqb esc "r" then Some CR
  else if Ascii.eqb esc "t" then Some "009"%char
  else None.

Definition prepend (c : ascii) (r : option (string * string)) : option (string * string) :=
  match r with
  | Some (str, rest) => Some (String c str, rest)
  | None => None
  end.

(** [scanstring(s, end, strict=True)], [s] starting behind the opening quote:
    the string and what follows the closing quote.  [None] stands for a
    [JSONDecodeError], and for an escape of a code point above 255, which a
    string of this model does not hold. *)
Fixpoint scanstring (s : string) : option (string * string) :=
  match s with
  | EmptyString => None
  | String c r =>
      if Ascii.eqb c DQUOTE then Some (EmptyString, r)
      else if Ascii.eqb c "\" then
        match r with
        | EmptyString => None
        | String esc r1 =>
            if Ascii.eqb esc "u" then
              match r1 with
              | String h1 (String h2 (String h3 (String h4 r2))) =>
                  match decode_uXXXX h1 h2 h3 h4 with
                  | Some n => if (n <? 256)%N then prepend (ascii_of_N n) (scanstring r2) else None
                  | None => None
                  end
              | _ => None
              end
            else
              match BACKSLASH esc with
              | Some ch => prepend ch (scanstring r1)
              | None => None
              end
        end
      else if (N_of_ascii c <? 32)%N then None
      else prepend c (scanstring r)
  end.

Definition is_digit (c : ascii) : bool :=
  let n := N_of_ascii c in (48 <=? n)%N && (n <=? 57)%N.

Fixpoint span_digits (s : string) : string * string :=
  match s with
  | String c s' =>
      if is_digit c then let (d, r) := span_digits s' in (String c d, r)
      else (EmptyString, s)
  | EmptyString => (EmptyString, EmptyString)
  end.

(** The integer group of [NUMBER_RE]: an optional minus sign, then either a
    single zero or a digit from 1 to 9 with the digits that follow it.  The
    value is the text matched and what follows it. *)
Definition match_integer (s : string) : option (string * string) :=
  let '(sign, body) :=
    match s with
    | String c s' => if Ascii.eqb c "-" then ("-", s') else ("", s)
    | EmptyString => ("", s)
    end in
  match body with
  | String c r =>
      if Ascii.eqb c "0" then Some (sign ++ "0", r)
      else if is_digit c then let (d, rest) := span_digits body in Some (sign ++ d, rest)
      else None
  | EmptyString => None
  end.

(** A fraction or an exponent can only start with one of these. *)
Definition starts_fraction (s : string) : bool :=
  match s with
  | String c _ => Ascii.eqb c "." || Ascii.eqb c "e" || Ascii.eqb c "E"
  | EmptyString => false
  end.

(** [d[k] = v] on a [dict]: a key already there keeps its place. *)
Fixpoint dict_set {V : Type} (k : string) (v : V) (d : list (string * V)) : list (string * V) :=
  match d with
  | [] => [(k, v)]
  | (k', v') :: d' => if String.eqb k' k then (k, v) :: d' else (k', v') :: dict_set k v d'
  end.

(** [dict(pairs)] *)
Definition dict_of_pairs {V : Type} (pairs : list (string * V)) : list (string * V) :=
  fold_left (fun d kv => dict_set (fst kv) (snd kv) d) pairs [].

Definition drop4 (s : string) : string :=
  match s with
  | String _ (String _ (String _ (String _ r))) => r
  | _ => EmptyString
  end.

Definition drop5 (s : string) : string :=
  match s with
  | String _ r => drop4 r
  | EmptyString => EmptyString
  end.

(** The scanner [scan_once] with the array and object parsers, [s] at the
    first character of the value.  [None] stands for a [JSONDecodeError],
    and for a number with a fraction or an exponent or one of the constants
    [NaN], [Infinity], which decode to a [float].  [fuel] bounds the depth of
    the calls. *)
Fixpoint scan_once (fuel : nat) (s : string) : option (pyvalue * string) :=
  match fuel with
  | O => None
  | S f =>
      match s with
      | EmptyString => None
      | String c r =>
          if Ascii.eqb c DQUOTE then
            match scanstring r with
            | Some (str, rest) => Some (PyStr str, rest)
            | None => None
            end
          else if Ascii.eqb c "{" then
            match skip_ws r with
            | String c1 r1 =>
                if Ascii.eqb c1 "}" then Some (PyDict [], r1)
                else if Ascii.eqb c1 DQUOTE then
                  match parse_pairs f r1 with
                  | Some (pairs, rest) => Some (PyDict (dict_of_pairs pairs), rest)
                  | None => None
                  end
                else None
            | EmptyString => None
            end
          else if Ascii.eqb c "[" then
            match skip_ws r with
            | String c1 r1 =>
                if Ascii.eqb c1 "]" then Some (PyList [], r1)
                else
                  match parse_values f (String c1 r1) with
                  | Some (values, rest) => Some (PyList values, rest)
                  | None => None
                  end
            | EmptyString => None
            end
          else if startswith "null" s then Some (PyNone, drop4 s)
          else if startswith "true" s then Some (PyBool true, drop4 s)
          else if startswith "false" s then Some (PyBool false, drop5 s)
          else
            match match_integer s with
            | Some (integer, rest) =>
                if starts_fraction rest then None
                else match NilZero.int_of_string integer with
                     | Some d => Some (PyInt (Z.of_int d), rest)
                     | None => None
                     end
            | None => None
            end
      end
  end

(** The loop of [JSONArray]: a value, then [","] and the next value, or
    ["]"]. *)
with parse_values (fuel : nat) (s : string) : option (list pyvalue * string) :=
  match fuel with
  | O => None
  | S f =>
      match scan_once f s with
      | Some (value, r) =>
          match skip_ws r with
          | String c r1 =>
              if Ascii.eqb c "]" then Some ([value], r1)
              else if Ascii.eqb c "," then
                match parse_values f (skip_ws r1) with
                | Some (values, rest) => Some (value :: values, rest)
                | None => None
                end
              else None
          | EmptyString => None
          end
      | None => None
      end
  end

(** The loop of [JSONObject], [s] behind the opening quote of a key: the
    key, [":"], a value, then [","] and the next pair, or ["}"]. *)
with parse_pairs (fuel : nat) (s : string) : option (list (string * pyvalue) * string) :=
  match fuel with
  | O => None
  | S f =>
      match scanstring s with
      | Some (key, r) =>
          match skip_ws r with
          | String c r1 =>
              if Ascii.eqb c ":" then
                match scan_once f (skip_ws r1) with
                | Some (value, r2) =>
                    match skip_ws r2 with
                    | String c2 r3 =>
                        if Ascii.eqb c2 "}" then Some ([(key, value)], r3)
                        else if Ascii.eqb c2 "," then
                          match skip_ws r3 with
                          | String c3 r4 =>
                              if Ascii.eqb c3 DQUOTE then
                                match parse_pairs f r4 with
                                | Some (pairs, rest) => Some ((key, value) :: pairs, rest)
                                | None => None
                                end
                              else None
                          | EmptyString => None
                          end
                        else None
                    | EmptyString => None
                    end
                | None => None
                end
              else None
          | EmptyString => None
          end
      | None => None
      end
  end.

(** [json.loads(s)]: leading whitespace, one value, trailing whitespace. *)
Definition json_loads (s : string) : option pyvalue :=
  match scan_once (S (String.length s)) (skip_ws s) with
  | Some (obj, rest) =>
      match skip_ws rest with
      | EmptyString => Some obj
      | String _ _ => None
      end
  | None => None
  end.

(** The keys of every [dict] inside the value are pairwise different, as
    they are in a Python [dict]. *)
Fixpoint keys_distinct (l : list string) : bool :=
  match l with
  | [] => true
  | k :: l' => negb (existsb (String.eqb k) l') && keys_distinct l'
  end.

Fixpoint well_formed (o : pyvalue) : bool :=
  match o with
  | PyList items =>
      (fix all (l : list pyvalue) : bool :=
         match l with
         | [] => true
         | v :: l' => well_formed v && all l'
         end) items
  | PyDict items =>
      keys_distinct (map fst items)
      && (fix all (l : list (string * pyvalue)) : bool :=
            match l with
            | [] => true
            | (_, v) :: l' => well_formed v && all l'
            end) items
  | _ => true
  end.


(* ===================================================================== *)
(** * The module [helpers] *)
(* ===================================================================== *)

(** The pair the test [if s3_bucket and session] lets through. *)
Definition s3_destination (s3_bucket : option string) (session : option Session)
  : option (string * Session) :=
  match s3_bucket, session with
  | Some b, Some sess => if String.eqb b "" then None else Some (b, sess)
  | _, _ => None
  end.

(** [upload_to_s3(content, bucket, key, session, content_type)] *)
Definition upload_to_s3 (body : content) (bucket key : string) (session : Session)
    (content_type : option string) : M (option string) :=
  let report (e : exn) : M (option string) :=
    console_print ("[bold red]Error uploading to S3: " ++ exn_str e ++ "[/]") ;;
    ret None in
  try_except
    (session_client session ;;
     let content_type :=
       if_truthy content_type (fun _ => content_type)
         (if endswith ".pdf" key then Some "application/pdf"
          else if endswith ".csv" key then Some "text/csv"
          else if endswith ".json" key then Some "application/json"
          else content_type) in
     put_object bucket key body content_type ;;
     let s3_path := "s3://" ++ bucket ++ "/" ++ key in
     ret (Some s3_path))
    [Except (Ok ClientError) report; Except (Ok Exception) report].

(** The header card of a row, shared by both PDF reports. *)
Definition header_card (profile_name account : string) : Flowable :=
  Table (paragraphStyling ("<b>Profile:</b> " ++ profile_name ++ "  &nbsp;&nbsp;&nbsp; "
                           ++ "<b>Account:</b> " ++ account)).

(** The character class [[a-zA-Z0-9#_]]. *)
Definition tag_char (c : ascii) : bool :=
  let n := nat_of_ascii c in
  ((97 <=? n)%nat && (n <=? 122)%nat) || ((65 <=? n)%nat && (n <=? 90)%nat)
  || ((48 <=? n)%nat && (n <=? 57)%nat) || Ascii.eqb c "#" || Ascii.eqb c "_".

(** A match of [[a-zA-Z0-9#_]*\]] at the start of [s]: what follows it. *)
Fixpoint match_tag_body (s : string) : option string :=
  match s with
  | EmptyString => None
  | String c s' =>
      if Ascii.eqb c "]" then Some s'
      else if tag_char c then match_tag_body s'
      else None
  end.

(** A match of the pattern [\[/?[a-zA-Z0-9#_]*\]] at the start of [s]: what
    follows it.  The optional slash is tried first, then left out. *)
Definition match_tag (s : string) : option string :=
  match s with
  | EmptyString => None
  | String c s' =>
      if Ascii.eqb c "["
      then match s' with
           | EmptyString => match_tag_body s'
           | String d s'' =>
               if Ascii.eqb d "/"
               then match match_tag_body s'' with
                    | Some rest => Some rest
                    | None => match_tag_body s'
                    end
               else match_tag_body s'
           end
      else None
  end.

Definition inspect {A : Type} (a : A) : {b : A | a = b} := exist _ a eq_refl.

(** [re.sub(pattern, "", s)]: from left to right, a match is dropped and the
    scan goes on behind it; where nothing matches, one character is kept. *)
Equations? sub_tags (s : string) : string by wf (String.length s) lt :=
  sub_tags s with inspect (match_tag s) := {
    | exist _ (Some rest) _ => sub_tags rest
    | exist _ None _ with s := {
        | EmptyString => EmptyString
        | String c s' => String c (sub_tags s') } }.
Proof.
  assert (body : forall t r, match_tag_body t = Some r ->
                             (String.length r < String.length t)%nat).
  { induction t as [|c t IH]; intros r; simpl; [discriminate|].
    destruct (Ascii.eqb c "]").
    - intros [= <-]. lia.
    - destruct (tag_char c); [|discriminate]. intros H. apply IH in H. lia. }
  unfold match_tag in e.
  destruct s as [|c s]; [discriminate|].
  destruct (Ascii.eqb c "["); [|discriminate].
  destruct s as [|d s'].
  - discriminate.
  - destruct (Ascii.eqb d "/").
    + destruct (match_tag_body s') eqn:E.
      * injection e as <-. apply body in E. simpl. lia.
      * apply body in e. simpl in *. lia.
    + apply body in e. simpl in *. lia.
Qed.

(** [clean_rich_tags(text)] *)
Definition clean_rich_tags (text : string) : string := sub_tags text.

Definition csv_headers : list string :=
  ["Profile"; "Account ID"; "Untagged Resources"; "Stopped EC2 Instances";
   "Unused Volumes"; "Unused EIPs"; "Budget Alerts"].

Definition csv_data_keys : list string :=
  ["profile"; "account_id"; "untagged_resources"; "stopped_instances";
   "unused_volumes"; "unused_eips"; "budget_alerts"].

(** The fields of one data record: [[item.get(key, "") for key in data_keys]] *)
Definition csv_row_fields (item : audit_row) : list string :=
  map (fun key => dict_get item key "") csv_data_keys.

(** What [csv_buffer.getvalue()] holds after the header and the rows are
    written. *)
Definition csv_serialize (audit_data_list : list audit_row) : string :=
  csv_writerow csv_headers
  ++ String.concat "" (map (fun item => csv_writerow (csv_row_fields item)) audit_data_list).

(** [export_audit_report_to_csv] *)
Definition export_audit_report_to_csv (audit_data_list : list audit_row)
    (file_name : string) (path s3_bucket s3_prefix : option string)
    (session : option Session) : M (option string) :=
  try_except
    (now <- datetime_now ;;
     let timestamp := strftime_stamp now in
     let base_filename := file_name ++ "_" ++ timestamp ++ ".csv" in
     let csv_buffer := csv_serialize audit_data_list in
     match s3_destination s3_bucket session with
     | Some (bucket, sess) =>
         let s3_key :=
           if_truthy s3_prefix (fun pre => pre ++ "/" ++ base_filename) base_filename in
         let s3_key := lstrip_slash s3_key in
         s3_path <- upload_to_s3 (Text csv_buffer) bucket s3_key sess (Some "text/csv") ;;
         if_truthy s3_path
           (fun loc =>
              console_print ("[bright_green]Successfully exported to S3: " ++ loc ++ "[/]"))
           (ret tt) ;;
         ret s3_path
     | None =>
         output_filename <-
           if_truthy path
             (fun dir => os_makedirs dir ;; ret (path_join dir base_filename))
             (ret base_filename) ;;
         write_file "w" output_filename (Text csv_buffer) ;;
         ret (Some output_filename)
     end)
    [Except (Ok Exception) (fun e =>
       console_print ("[bold red]Error exporting audit report to CSV: " ++ exn_str e ++ "[/]") ;;
       ret None)].

(** [export_audit_report_to_json] *)
Definition export_audit_report_to_json (raw_audit_data : pyvalue)
    (file_name : string) (path s3_bucket s3_prefix : option string)
    (session : option Session) : M (option string) :=
  try_except
    (now <- datetime_now ;;
     let timestamp := strftime_stamp now in
     let base_filename := file_name ++ "_" ++ timestamp ++ ".json" in
     let json_content := json_dumps raw_audit_data in
     match s3_destination s3_bucket session with
     | Some (bucket, sess) =>
         let s3_key :=
           if_truthy s3_prefix (fun pre => pre ++ "/" ++ base_filename) base_filename in
         let s3_key := lstrip_slash s3_key in
         s3_path <- upload_to_s3 (Text json_content) bucket s3_key sess (Some "application/json") ;;
         if_truthy s3_path
           (fun loc =>
              console_print ("[bright_green]Successfully exported to S3: " ++ loc ++ "[/]"))
           (ret tt) ;;
         ret s3_path
     | None =>
         output_filename <-
           if_truthy path
             (fun dir => os_makedirs dir ;; ret (path_join dir base_filename))
             (ret base_filename) ;;
         write_file "w" output_filename (Text json_content) ;;
         ret (Some output_filename)
     end)
    [Except (Ok Exception) (fun e =>
       console_print ("[bold red]Error exporting audit report to JSON: " ++ exn_str e ++ "[/]") ;;
       ret None)].

(** [export_trend_data_to_json] *)
Definition export_trend_data_to_json (trend_data : pyvalue)
    (file_name : string) (path s3_bucket s3_prefix : option string)
    (session : option Session) : M (option string) :=
  try_except
    (now <- datetime_now ;;
     let timestamp := strftime_stamp now in
     let base_filename := file_name ++ "_" ++ timestamp ++ ".json" in
     let json_content := json_dumps trend_data in
     match s3_destination s3_bucket session with
     | Some (bucket, sess) =>
         let s3_key :=
           if_truthy s3_prefix (fun pre => pre ++ "/" ++ base_filename) base_filename in
         let s3_key := lstrip_slash s3_key in
         s3_path <- upload_to_s3 (Text json_content) bucket s3_key sess (Some "application/json") ;;
         if_truthy s3_path
           (fun loc =>
              console_print ("[bright_green]Successfully exported to S3: " ++ loc ++ "[/]"))
           (ret tt) ;;
         ret s3_path
     | None =>
         output_filename <-
           if_truthy path
             (fun dir => os_makedirs dir ;; ret (path_join dir base_filename))
             (ret base_filename) ;;
         write_file "w" output_filename (Text json_content) ;;
         ret (Some output_filename)
     end)
    [Except (Ok Exception) (fun e =>
       console_print ("[bold red]Error exporting trend data to JSON: " ++ exn_str e ++ "[/]") ;;
       ret None)].

Definition COPYRIGHT : string := String "169"%char EmptyString.

Section PdfReports.

(** The two helpers of [aws_finops_dashboard.pdf_utils] that turn row data
    into bullet items. *)
Variable split_to_items : string -> list string.
Variable formatServicesForList : list (string * pyfloat) -> list string.

(** The five bulleted sections of an audit row. *)
Definition audit_sections (row : audit_row) : list (string * list string) :=
  [("Untagged Resources", split_to_items (dict_get row "untagged_resources" ""));
   ("Stopped EC2 Instances", split_to_items (dict_get row "stopped_instances" ""));
   ("Unused Volumes", split_to_items (dict_get row "unused_volumes" ""));
   ("Unused EIPs", split_to_items (dict_get row "unused_eips" ""));
   ("Budget Alerts", split_to_items (dict_get row "budget_alerts" ""))].

(** The flowables one pass of the loop over the audit rows appends;
    [remaining] is the number of rows after this one. *)
Definition audit_row_elements (row : audit_row) (remaining : nat)
  : result (list Flowable) :=
  match dict_item row "profile" with
  | Raise e => Raise e
  | Ok profile_name =>
      match dict_item row "account_id" with
      | Raise e => Raise e
      | Ok account =>
          Ok ([header_card profile_name account; Spacer 1 6]
              ++ flat_map (fun '(title, items) =>
                             [miniHeader title; bulletList items; Spacer 1 6])
                          (audit_sections row)
              ++ match remaining with O => [] | S _ => [Spacer 1 10] end)%list
      end
  end.

Fixpoint audit_rows_elements (rows : list audit_row) : result (list Flowable) :=
  match rows with
  | [] => Ok []
  | row :: rest =>
      match audit_row_elements row (List.length rest) with
      | Raise e => Raise e
      | Ok here =>
          match audit_rows_elements rest with
          | Raise e => Raise e
          | Ok there => Ok (here ++ there)%list
          end
      end
  end.

(** The flowables of the audit report, from the title to the footer;
    [stamp] is the time the footer shows. *)
Definition audit_report_elements (audit_data_list : list audit_row) (stamp : datetime)
  : result (list Flowable) :=
  match audit_rows_elements audit_data_list with
  | Raise e => Raise e
  | Ok body =>
      let footer_note := "Note: This report lists untagged EC2, RDS, Lambda, ELBv2 only." in
      let footer_text :=
        "This audit report is generated using AWS FinOps Dashboard (CLI) " ++ COPYRIGHT
        ++ " 2025 on " ++ strftime_full stamp in
      Ok ([Paragraph "AWS FinOps Dashboard (Audit Report)" style_Title; Spacer 1 8]
          ++ body
          ++ [Spacer 1 8; Paragraph footer_note pdf_footer_style;
              Paragraph footer_text pdf_footer_style])%list
  end.

(** [export_audit_report_to_pdf].  The local branch joins [path] and the
    file name and hands the result to [SimpleDocTemplate]; it does not
    call [os.makedirs]. *)
Definition export_audit_report_to_pdf (audit_data_list : list audit_row)
    (file_name : string) (path s3_bucket s3_prefix : option string)
    (session : option Session) : M (option string) :=
  try_except
    (now <- datetime_now ;;
     let timestamp := strftime_stamp now in
     let base_filename := file_name ++ "_" ++ timestamp ++ ".pdf" in
     let output_filename :=
       if_truthy path (fun dir => path_join dir base_filename) base_filename in
     let target :=
       match s3_destination s3_bucket session with
       | Some _ => BytesIO
       | None => Filename output_filename
       end in
     stamp <- datetime_now ;;
     elements <- lift (audit_report_elements audit_data_list stamp) ;;
     pdf_content <- doc_build target elements ;;
     match s3_destination s3_bucket session with
     | Some (bucket, sess) =>
         let s3_key :=
           if_truthy s3_prefix (fun pre => pre ++ "/" ++ base_filename) base_filename in
         let s3_key := lstrip_slash s3_key in
         s3_path <- upload_to_s3 pdf_content bucket s3_key sess (Some "application/pdf") ;;
         if_truthy s3_path
           (fun loc =>
              console_print ("[bright_green]Successfully exported to S3: " ++ loc ++ "[/]"))
           (ret tt) ;;
         ret s3_path
     | None =>
         fun w => (Ok (Some (abspath (fs_cwd w) output_filename)), w)
     end)
    [Except (Ok Exception) (fun e =>
       console_print ("[bold red]Error exporting audit report to PDF: " ++ exn_str e ++ "[/]") ;;
       ret None)].

(** The bullets of the "Budget Status" section. *)
Definition budget_items (row : ProfileData) : list string :=
  match budget_info row with
  | [] => ["No budgets"]
  | _ => budget_info row
  end.

(** The bullets of the "EC2 Instances" section. *)
Definition ec2_items (row : ProfileData) : list string :=
  match map (fun '(state, count) => state ++ ": " ++ str_int count)
            (filter (fun '(_, count) => (0 <? count)%Z) (ec2_summary row)) with
  | [] => ["No instances"]
  | items => items
  end.

(** The rows of the key/value table. *)
Definition kv_rows (row : ProfileData) : list (string * string) :=
  [("Previous Period Cost", "<b>$" ++ format_2f (last_month row) ++ "</b>");
   ("Current Period Cost", "<b>$" ++ format_2f (current_month row) ++ "</b>")].

(** The flowables one pass of the loop over the cost rows appends. *)
Definition cost_row_elements (row : ProfileData) (remaining : nat) : list Flowable :=
  ([header_card (profile row) (account_id row); Spacer 1 6;
    keyValueTable (kv_rows row); Spacer 1 6;
    miniHeader "Cost By Service";
    bulletList (formatServicesForList (service_costs row)); Spacer 1 6;
    miniHeader "Budget Status"; bulletList (budget_items row); Spacer 1 6;
    miniHeader "EC2 Instances"; bulletList (ec2_items row)]
   ++ match remaining with O => [] | S _ => [Spacer 1 14] end)%list.

Fixpoint cost_rows_elements (data : list ProfileData) : list Flowable :=
  match data with
  | [] => []
  | row :: rest => (cost_row_elements row (List.length rest) ++ cost_rows_elements rest)%list
  end.

(** The flowables of the cost report, from the title to the footer. *)
Definition cost_report_elements (data : list ProfileData)
    (previous_period_dates current_period_dates : string) (stamp : datetime)
  : list Flowable :=
  let footer_text :=
    "This report is generated using AWS FinOps Dashboard (CLI) " ++ COPYRIGHT
    ++ " 2025 on " ++ strftime_full stamp in
  ([Paragraph "AWS FinOps Dashboard (Cost Report)" style_Title; Spacer 1 10;
    paragraphStyling ("<b>Previous Period:</b> " ++ previous_period_dates
                      ++ "<br/><b>Current Period:</b> " ++ current_period_dates);
    Spacer 1 6]
   ++ cost_rows_elements data
   ++ [Spacer 1 8; Paragraph footer_text pdf_footer_style])%list.

(** [export_cost_dashboard_to_pdf].  In the remote branch the source leaves
    [output_filename] unbound and does not read it; here it holds the bare
    file name there. *)
Definition export_cost_dashboard_to_pdf (data : list ProfileData) (filename : string)
    (output_dir : option string) (previous_period_dates current_period_dates : string)
    (s3_bucket s3_prefix : option string) (session : option Session)
  : M (option string) :=
  try_except
    (now <- datetime_now ;;
     let timestamp := strftime_stamp now in
     let base_filename := filename ++ "_" ++ timestamp ++ ".pdf" in
     output_filename <-
       match s3_destination s3_bucket session with
       | Some _ => ret base_filename
       | None =>
           if_truthy output_dir
             (fun dir => os_makedirs dir ;; ret (path_join dir base_filename))
             (ret base_filename)
       end ;;
     let target :=
       match s3_destination s3_bucket session with
       | Some _ => BytesIO
       | None => Filename output_filename
       end in
     stamp <- datetime_now ;;
     let elements :=
       cost_report_elements data previous_period_dates current_period_dates stamp in
     pdf_content <- doc_build target elements ;;
     match s3_destination s3_bucket session with
     | Some (bucket, sess) =>
         let s3_key :=
           if_truthy s3_prefix (fun pre => pre ++ "/" ++ base_filename) base_filename in
         let s3_key := lstrip_slash s3_key in
         s3_path <- upload_to_s3 pdf_content bucket s3_key sess (Some "application/pdf") ;;
         if_truthy s3_path
           (fun loc =>
              console_print ("[bright_green]Successfully exported to S3: " ++ loc ++ "[/]"))
           (ret tt) ;;
         ret s3_path
     | None =>
         fun w => (Ok (Some (abspath (fs_cwd w) output_filename)), w)
     end)
    [Except (Ok Exception) (fun e =>
       console_print ("[bold red]Error exporting to PDF: " ++ exn_str e ++ "[/]") ;;
       ret None)].

(** ** The five export functions as one family *)

(** A call of an export function, the destination arguments left out. *)
Inductive export_call : Type :=
| AuditPdf (audit_data_list : list audit_row) (file_name : string)
| AuditCsv (audit_data_list : list audit_row) (file_name : string)
| AuditJson (raw_audit_data : pyvalue) (file_name : string)
| TrendJson (trend_data : pyvalue) (file_name : string)
| CostPdf (data : list ProfileData) (filename : string)
          (previous_period_dates current_period_dates : string).

(** The call with its destination: the local directory ([path], or
    [output_dir] for the cost report), the bucket, the key prefix and the
    session. *)
Definition run_export (call : export_call) (path s3_bucket s3_prefix : option string)
    (session : option Session) : M (option string) :=
  match call with
  | AuditPdf rows file_name =>
      export_audit_report_to_pdf rows file_name path s3_bucket s3_prefix session
  | AuditCsv rows file_name =>
      export_audit_report_to_csv rows file_name path s3_bucket s3_prefix session
  | AuditJson raw file_name =>
      export_audit_report_to_json raw file_name path s3_bucket s3_prefix session
  | TrendJson trend file_name =>
      export_trend_data_to_json trend file_name path s3_bucket s3_prefix session
  | CostPdf data filename previous current =>
      export_cost_dashboard_to_pdf data filename path previous current
                                   s3_bucket s3_prefix session
  end.

(** The name the call gives its file: [f"{name}_{timestamp}.{ext}"]. *)
Definition base_filename_of (call : export_call) (now : datetime) : string :=
  match call with
  | AuditPdf _ name | CostPdf _ name _ _ => name ++ "_" ++ strftime_stamp now ++ ".pdf"
  | AuditCsv _ name => name ++ "_" ++ strftime_stamp now ++ ".csv"
  | AuditJson _ name | TrendJson _ name => name ++ "_" ++ strftime_stamp now ++ ".json"
  end.

End PdfReports.


(* ===================================================================== *)
(** * [load_config_file] *)
(* ===================================================================== *)

Section ConfigLoader.

(** The values the three parsers produce, and [isinstance(v, dict)]. *)
Variable V : Type.
Variable is_dict : V -> bool.

(** [tomllib.load]; [None] when neither [tomllib] nor [tomli] could be
    imported and the module set [tomllib = None]. *)
Variable tomllib : option (string -> result V).
Variable yaml_safe_load : string -> result V.
Variable json_load : string -> result V.

(** Reading the open file as text. *)
Definition read_text (f : content) : result string :=
  match f with
  | Text s => Ok s
  | Pdf _ => Raise (mkExn UnicodeDecodeError "'utf-8' codec can't decode byte")
  end.

Definition load_with (parser : string -> result V) (f : content) : result V :=
  match read_text f with
  | Ok s => parser s
  | Raise e => Raise e
  end.

(** The attribute [tomllib.TOMLDecodeError]: of a module, a class; of [None],
    an [AttributeError]. *)
Definition tomllib_TOMLDecodeError : result exn_class :=
  match tomllib with
  | Some _ => Ok TOMLDecodeError
  | None => Raise (mkExn AttributeError "'NoneType' object has no attribute 'TOMLDecodeError'")
  end.

(** [load_config_file(file_path)] *)
Definition load_config_file (file_path : string) : M (option V) :=
  let file_extension := lower (snd (splitext file_path)) in
  let keep (what : string) (loaded_data : V) : M (option V) :=
    if is_dict loaded_data then ret (Some loaded_data)
    else console_print ("[bold red]Error: " ++ what ++ " file " ++ file_path
                        ++ " did not load as a dictionary.[/]") ;;
         ret None in
  try_except
    (f <- read_file (if String.eqb file_extension ".toml" then "rb" else "r") file_path ;;
     if String.eqb file_extension ".toml" then
       match tomllib with
       | None =>
           console_print "[bold red]Error: TOML library (tomli) not installed for Python < 3.11. Please install it.[/]" ;;
           ret None
       | Some tomllib_load =>
           loaded_data <- lift (load_with tomllib_load f) ;;
           keep "TOML" loaded_data
       end
     else if String.eqb file_extension ".yaml" || String.eqb file_extension ".yml" then
       loaded_data <- lift (load_with yaml_safe_load f) ;;
       keep "YAML" loaded_data
     else if String.eqb file_extension ".json" then
       loaded_data <- lift (load_with json_load f) ;;
       keep "JSON" loaded_data
     else
       console_print ("[bold red]Error: Unsupported configuration file format: "
                      ++ file_extension ++ "[/]") ;;
       ret None)
    [Except (Ok FileNotFoundError) (fun _ =>
       console_print ("[bold red]Error: Configuration file not found: " ++ file_path ++ "[/]") ;;
       ret None);
     Except tomllib_TOMLDecodeError (fun e =>
       console_print ("[bold red]Error decoding TOML file " ++ file_path ++ ": "
                      ++ exn_str e ++ "[/]") ;;
       ret None);
     Except (Ok YAMLError) (fun e =>
       console_print ("[bold red]Error decoding YAML file " ++ file_path ++ ": "
                      ++ exn_str e ++ "[/]") ;;
       ret None);
     Except (Ok JSONDecodeError) (fun e =>
       console_print ("[bold red]Error decoding JSON file " ++ file_path ++ ": "
                      ++ exn_str e ++ "[/]") ;;
       ret None);
     Except (Ok Exception) (fun e =>
       console_print ("[bold red]Error loading configuration file " ++ file_path ++ ": "
                      ++ exn_str e ++ "[/]") ;;
       ret None)].

End ConfigLoader.


(* ===================================================================== *)
(** * Predicates the properties are stated with *)
(* ===================================================================== *)

(* --------------------------------------------------------------------- *)
(** ** For the CSV serialization *)



(** A record without its line end: the fields, quoted where needed, with
    commas between them. *)
Definition csv_line (fields : list string) : string :=
  String.concat "," (map csv_field fields).


(* --------------------------------------------------------------------- *)
(** ** For the markup filter *)

(** Does a tag (a match of the pattern) start somewhere in [s]? *)
Fixpoint contains_tag (s : string) : bool :=
  match match_tag s with
  | Some _ => true
  | None =>
      match s with
      | EmptyString => false
      | String _ s' => contains_tag s'
      end
  end.

(** Square brackets are not nested: after an opening bracket a closing one
    comes before the next opening one.  [inside] tells whether a bracket is
    open. *)
Fixpoint brackets_flat (inside : bool) (s : string) : bool :=
  match s with
  | EmptyString => true
  | String c s' =>
      if Ascii.eqb c "[" then negb inside && brackets_flat true s'
      else if Ascii.eqb c "]" then brackets_flat false s'
      else brackets_flat inside s'
  end.

(* --------------------------------------------------------------------- *)
(** ** For the cost report *)

(** The float is finite and its value is the fraction [n / d]. *)
Definition float_is (x : pyfloat) (n d : Z) : bool :=
  match x with
  | S754_zero _ => (n =? 0)%Z
  | S754_finite s m e =>
      let sm := if s then Z.neg m else Z.pos m in
      if (0 <=? e)%Z then (sm * 2 ^ e * d =? n)%Z
      else (sm * d =? n * 2 ^ (- e))%Z
  | _ => false
  end.


Fixpoint digits_only (s : string) : bool :=
  match s with
  | EmptyString => true
  | String c s' => is_digit c && digits_only s'
  end.



(* --------------------------------------------------------------------- *)
(** ** For the effects of the export functions *)

(** The key of the object, as the remote branch of every export function
    computes it. *)
Definition s3_key_of (s3_prefix : option string) (base_filename : string) : string :=
  lstrip_slash (if_truthy s3_prefix (fun pre => pre ++ "/" ++ base_filename) base_filename).

(** The local branch of the CSV and JSON exports. *)
Definition write_local (path : option string) (base_filename data : string)
  : M (option string) :=
  bind (if_truthy path
          (fun dir => bind (os_makedirs dir) (fun _ => ret (path_join dir base_filename)))
          (ret base_filename))
       (fun output_filename =>
          bind (write_file "w" output_filename (Text data))
               (fun _ => ret (Some output_filename))).

(** A date of the years 1000 to 9999 with a time of day. *)
Definition valid_datetime (dt : datetime) : bool :=
  (1000 <=? year dt)%Z && (year dt <=? 9999)%Z
  && (1 <=? month dt)%Z && (month dt <=? 12)%Z
  && (1 <=? day dt)%Z && (day dt <=? 31)%Z
  && (0 <=? hour dt)%Z && (hour dt <=? 23)%Z
  && (0 <=? minute dt)%Z && (minute dt <=? 59)%Z.


(** The console and the object store are as before. *)
Definition quiet (w w' : world) : Prop :=
  console w' = console w /\ s3_puts w' = s3_puts w.

(** The computation keeps [R], and a value it returns satisfies [good]. *)
Definition yields {A : Type} (R : world -> world -> Prop) (good : A -> Prop) (c : M A) : Prop :=
  forall w r w', c w = (r, w') ->
                 R w w' /\ match r with Ok a => good a | Raise _ => True end.



(** The binary64 values 150.5 and 100.0. *)
Definition float_150_5 : pyfloat := S754_finite false 5295247999369216 (-45).
Definition float_100_0 : pyfloat := S754_finite false 7036874417766400 (-46).

(* --------------------------------------------------------------------- *)
(** ** For the JSON round trip *)

(** What can follow a value in the output of the encoder: nothing, a comma
    or a line feed. *)
Definition follows_value (rest : string) : bool :=
  match rest with
  | EmptyString => true
  | String c _ => Ascii.eqb c "," || Ascii.eqb c LF
  end.

(** The bound on the depth of the scanner's calls for a value. *)
Fixpoint value_size (o : pyvalue) : nat :=
  match o with
  | PyList items =>
      S ((fix size (l : list pyvalue) : nat :=
            match l with
            | [] => O
            | v :: l' => S (value_size v + size l')
            end) items)
  | PyDict items =>
      S ((fix size (l : list (string * pyvalue)) : nat :=
            match l with
            | [] => O
            | (_, v) :: l' => S (value_size v + size l')
            end) items)
  | _ => 1
  end.

Fixpoint values_size (l : list pyvalue) : nat :=
  match l with
  | [] => O
  | v :: l' => S (value_size v + values_size l')
  end.

Fixpoint pairs_size (l : list (string * pyvalue)) : nat :=
  match l with
  | [] => O
  | (_, v) :: l' => S (value_size v + pairs_size l')
  end.

(** The items of a list behind the first, as the encoder writes them. *)
Fixpoint encode_more_values (level : nat) (l : list pyvalue) : string :=
  match l with
  | [] => EmptyString
  | v :: l' =>
      "," ++ newline_indent (S level) ++ iterencode (S level) v
      ++ encode_more_values level l'
  end.

(** The pairs of a dict behind the first, as the encoder writes them. *)
Fixpoint encode_more_pairs (level : nat) (l : list (string * pyvalue)) : string :=
  match l with
  | [] => EmptyString
  | (k, v) :: l' =>
      "," ++ newline_indent (S level) ++ encode_basestring_ascii k ++ ": "
      ++ iterencode (S level) v ++ encode_more_pairs level l'
  end.

Fixpoint all_well_formed (l : list pyvalue) : bool :=
  match l with
  | [] => true
  | v :: l' => well_formed v && all_well_formed l'
  end.

Fixpoint all_values_well_formed (l : list (string * pyvalue)) : bool :=
  match l with
  | [] => true
  | (_, v) :: l' => well_formed v && all_values_well_formed l'
  end.

(** The characters a value's text can start with. *)
Definition value_start (c : ascii) : bool :=
  is_digit c || Ascii.eqb c "-" || Ascii.eqb c DQUOTE || Ascii.eqb c "["
  || Ascii.eqb c "{" || Ascii.eqb c "n" || Ascii.eqb c "t" || Ascii.eqb c "f".

(** The scanner reads back what the encoder wrote for [o], whatever the
    nesting depth, given fuel for the size of [o] and a text behind it that
    can follow a value. *)
Definition scans_back (o : pyvalue) : Prop :=
  well_formed o = true ->
  forall (level fuel : nat) (rest : string),
    (value_size o <= fuel)%nat ->
    follows_value rest = true ->
    scan_once fuel (iterencode level o ++ rest) = Some (o, rest).


(** A value with every kind of item in it. *)
Definition example_audit_data : pyvalue :=
  PyList [PyDict [("profile", PyStr "dev"); ("account_id", PyStr "123456789012");
                  ("untagged_resources",
                   PyDict [("EC2", PyList [PyStr ("i-0a1" ++ String LF "i-0b2")]);
                           ("RDS", PyList [])]);
                  ("stopped_instances", PyInt 0); ("unused_volumes", PyInt (-3));
                  ("note", PyStr (String DQUOTE ("quoted\" ++ String "233" "")));
                  ("ok", PyBool true); ("budget", PyNone)];
          PyDict []].

(* --------------------------------------------------------------------- *)
(** ** For the contents and the diagnostics of the exports *)

Section ExportContents.
Variable split_to_items : string -> list string.
Variable formatServicesForList : list (string * pyfloat) -> list string.

(** What the call serializes: the document or the text that goes to the
    file or to the object store; [stamp] is the time in the footer. *)
Definition export_body (call : export_call) (stamp : datetime) : result content :=
  match call with
  | AuditPdf rows _ =>
      match audit_report_elements split_to_items rows stamp with
      | Ok elements => Ok (Pdf elements)
      | Raise e => Raise e
      end
  | AuditCsv rows _ => Ok (Text (csv_serialize rows))
  | AuditJson raw _ | TrendJson raw _ => Ok (Text (json_dumps raw))
  | CostPdf data _ previous current =>
      Ok (Pdf (cost_report_elements formatServicesForList data previous current stamp))
  end.

(** The content type the call passes to [upload_to_s3]. *)
Definition export_content_type (call : export_call) : string :=
  match call with
  | AuditPdf _ _ | CostPdf _ _ _ _ => "application/pdf"
  | AuditCsv _ _ => "text/csv"
  | AuditJson _ _ | TrendJson _ _ => "application/json"
  end.

End ExportContents.

(** The line an export function prints when its [except Exception] clause
    catches [e]. *)
Definition export_error (call : export_call) (e : exn) : string :=
  "[bold red]"
  ++ match call with
     | AuditPdf _ _ => "Error exporting audit report to PDF: "
     | AuditCsv _ _ => "Error exporting audit report to CSV: "
     | AuditJson _ _ => "Error exporting audit report to JSON: "
     | TrendJson _ _ => "Error exporting trend data to JSON: "
     | CostPdf _ _ _ _ => "Error exporting to PDF: "
     end
  ++ exn_str e ++ "[/]".

(** The failure, if any, of laying a document out into [target]; text is
    not laid out. *)
Definition build_fault (w : world) (target : doc_target) (body : content) : option exn :=
  match body with
  | Pdf elements => faults w (Sys_build target elements)
  | Text _ => None
  end.

(** The line [upload_to_s3] prints when one of its [except] clauses catches
    [e]. *)
Definition upload_error (e : exn) : string :=
  "[bold red]Error uploading to S3: " ++ exn_str e ++ "[/]".

(* --------------------------------------------------------------------- *)
(** ** For the documents *)

(** The header card of a row. *)
Definition is_card (f : Flowable) : bool :=
  match f with
  | Table _ => true
  | _ => false
  end.

(** A bulleted list. *)
Definition is_bullets (f : Flowable) : bool :=
  match f with
  | bulletList _ => true
  | _ => false
  end.

(** [Spacer(1, height)] *)
Definition is_spacer (height : Z) (f : Flowable) : bool :=
  match f with
  | Spacer wd h => Z.eqb wd 1 && Z.eqb h height
  | _ => false
  end.



(* --------------------------------------------------------------------- *)
(** ** A reader of RFC 4180 text *)

(** Where the reader is: at the start of a field, inside an unquoted
    field, inside a quoted field, behind a quote seen inside a quoted
    field, behind the carriage return that ends a record. *)
Inductive csv_state : Type :=
| FieldStart
| InField
| InQuoted
| QuoteSeen
| EatLF.

(** What is left of the record being read: the rest of the current field,
    the fields behind it, and the records behind this one. *)
Definition csv_rest : Type := option (string * list string * list (list string)).

(** One more character in front of the current field. *)
Definition csv_push (c : ascii) (r : csv_rest) : csv_rest :=
  match r with
  | Some (field, fields, records) => Some (String c field, fields, records)
  | None => None
  end.

(** The current field ends here; another one follows. *)
Definition csv_end_field (r : csv_rest) : csv_rest :=
  match r with
  | Some (field, fields, records) => Some (EmptyString, field :: fields, records)
  | None => None
  end.

(** The current record ends here; another one follows. *)
Definition csv_end_record (r : csv_rest) : csv_rest :=
  match r with
  | Some (field, fields, records) => Some (EmptyString, [], (field :: fields) :: records)
  | None => None
  end.

(** One pass over the text: fields are separated by commas, records end
    with CR LF, a field that starts with a quote runs to the next quote that
    is not doubled, and a doubled quote in it stands for one quote. *)
Fixpoint csv_scan (st : csv_state) (s : string) : csv_rest :=
  match s with
  | EmptyString => None
  | String c s' =>
      let end_of_record :=
        match s' with
        | EmptyString => Some (EmptyString, [], [])
        | String _ _ => csv_end_record (csv_scan FieldStart s')
        end in
      let unquoted :=
        if Ascii.eqb c "," then csv_end_field (csv_scan FieldStart s')
        else if Ascii.eqb c CR then csv_scan EatLF s'
        else csv_push c (csv_scan InField s') in
      match st with
      | FieldStart => if Ascii.eqb c DQUOTE then csv_scan InQuoted s' else unquoted
      | InField => unquoted
      | InQuoted =>
          if Ascii.eqb c DQUOTE then csv_scan QuoteSeen s'
          else csv_push c (csv_scan InQuoted s')
      | QuoteSeen =>
          if Ascii.eqb c DQUOTE then csv_push c (csv_scan InQuoted s')
          else if Ascii.eqb c "," then csv_end_field (csv_scan FieldStart s')
          else if Ascii.eqb c CR then csv_scan EatLF s'
          else None
      | EatLF => if Ascii.eqb c LF then end_of_record else None
      end
  end.

(** The records of a text in which every record ends with CR LF. *)
Definition csv_records (s : string) : option (list (list string)) :=
  match s with
  | EmptyString => Some []
  | String _ _ =>
      match csv_scan FieldStart s with
      | Some (field, fields, records) => Some ((field :: fields) :: records)
      | None => None
      end
  end.

(** A whole string in front of the current field. *)
Fixpoint csv_push_string (f : string) (r : csv_rest) : csv_rest :=
  match f with
  | EmptyString => r
  | String c f' => csv_push c (csv_push_string f' r)
  end.

(** What can follow a field: a comma or the end of the record. *)
Definition ends_field (rest : string) : bool :=
  match rest with
  | String c _ => Ascii.eqb c "," || Ascii.eqb c CR
  | EmptyString => false
  end.

(* --------------------------------------------------------------------- *)
(** ** For the markup filter: bracket groups *)

(** Every character is of the class [[a-zA-Z0-9#_]]. *)
Fixpoint all_tag_chars (s : string) : bool :=
  match s with
  | EmptyString => true
  | String c s' => tag_char c && all_tag_chars s'
  end.

(** No character of [s] is [c]. *)
Fixpoint lacks (c : ascii) (s : string) : bool :=
  match s with
  | EmptyString => true
  | String a s' => negb (Ascii.eqb a c) && lacks c s'
  end.

(** The body of a bracket group without the slash it may start with. *)
Definition tag_name (body : string) : string :=
  match body with
  | String c t => if Ascii.eqb c "/" then t else body
  | EmptyString => body
  end.

(* --------------------------------------------------------------------- *)
(** ** For the configuration loader *)





(* ===================================================================== *)
(** * Sample data and stand-ins for the collaborators *)
(* ===================================================================== *)

(** An audit row whose untagged resources are listed one per line. *)
Definition two_resources_row : audit_row :=
  [("profile", "dev"); ("account_id", "123456789012");
   ("untagged_resources", "i-0a1" ++ String LF "i-0b2")].

(** A cost row with the period costs of the example. *)
Definition example_cost_row : ProfileData :=
  mkProfileData "dev" "123456789012" float_100_0 float_150_5
                [("Amazon EC2", float_100_0)] ["Monthly: 80% used"]
                [("running", 2%Z); ("stopped", 0%Z)].

(** Modelled from the spec: [pdf_utils.split_to_items] is not part of the
    sources at hand; the text field is split at line feeds and commas and
    the empty items are dropped. *)
Definition split_to_items_model (text : string) : list string :=
  filter (fun item => negb (String.eqb item ""))
         (flat_map (split_on ",") (split_on LF text)).

(** Modelled from the spec: [pdf_utils.formatServicesForList] is not part of
    the sources at hand; one bullet per service, the cost with two
    decimals. *)
Definition formatServicesForList_model (costs : list (string * pyfloat)) : list string :=
  map (fun '(name, cost) => name ++ ": $" ++ format_2f cost) costs.

Definition is_PyDict (v : pyvalue) : bool :=
  match v with
  | PyDict _ => true
  | _ => false
  end.

(** [json.load] on the values of this model. *)
Definition json_load_model (text : string) : result pyvalue :=
  match json_loads text with
  | Some v => Ok v
  | None => Raise (mkExn JSONDecodeError "Expecting value")
  end.

(** A YAML parser that rejects every text. *)
Definition yaml_load_none (text : string) : result pyvalue :=
  Raise (mkExn YAMLError "could not determine a constructor").

(** An environment in which nothing fails for outside reasons. *)
Definition no_faults : syscall -> option exn := fun _ => None.

(** A home directory, nothing in it, on 31 January 2025 at 09:30. *)
Definition example_world : world :=
  mkWorld ["/home/finops"; "/home"] [] "/home/finops" [] []
          (mkDatetime 2025 1 31 9 30 0) no_faults.

(** The same with a configuration file that is not JSON. *)
Definition config_world : world :=
  mkWorld ["/home/finops"; "/home"]
          [("/home/finops/config.json", Text "{profiles: [dev]}")]
          "/home/finops" [] [] (mkDatetime 2025 1 31 9 30 0) no_faults.

(** A session of the default profile. *)
Definition example_session : Session := mkSession "default".





(* ===================================================================== *)
(** * Basic facts on strings *)
(* ===================================================================== *)

Lemma append_assoc (a b c : string) : (a ++ b) ++ c = a ++ (b ++ c).
Proof. induction a; simpl; congruence. Qed.

Lemma append_empty_r (a : string) : a ++ "" = a.
Proof. induction a; simpl; congruence. Qed.

Lemma length_app (a b : string) :
  String.length (a ++ b) = (String.length a + String.length b)%nat.
Proof. induction a; cbn; congruence. Qed.

Lemma prefix_empty (s : string) : String.prefix "" s = true.
Proof. destruct s; reflexivity. Qed.

(* ===================================================================== *)
(** * Properties of the CSV serialization *)
(* ===================================================================== *)

Lemma concat_empty_cons (x : string) (l : list string) :
  String.concat "" (x :: l) = x ++ String.concat "" l.
Proof.
  destruct l as [|y l]; simpl.
  - now rewrite append_empty_r.
  - reflexivity.
Qed.







(** A row of the report has seven fields, so its record is never the
    one-empty-field record. *)
Lemma csv_writerow_row (item : audit_row) :
  csv_writerow (csv_row_fields item) = csv_line (csv_row_fields item) ++ CRLF.
Proof.
  unfold csv_writerow, csv_line, csv_row_fields, csv_data_keys. cbn [map].
  destruct (dict_get item "profile" ""); reflexivity.
Qed.


(** The serialization is the header record followed by one record per
    row, whatever the rows hold. *)
Lemma csv_serialize_records (rows : list audit_row) :
  csv_serialize rows
  = String.concat "" (map csv_writerow (csv_headers :: map csv_row_fields rows)).
Proof.
  unfold csv_serialize. cbn [map]. rewrite concat_empty_cons, map_map. reflexivity.
Qed.




(* ===================================================================== *)
(** * Properties of [clean_rich_tags] *)
(* ===================================================================== *)

Lemma sub_tags_step (s : string) :
  sub_tags s
  = match match_tag s with
    | Some rest => sub_tags rest
    | None => match s with
              | EmptyString => EmptyString
              | String c s' => String c (sub_tags s')
              end
    end.
Proof.
  funelim (sub_tags s).
  - rewrite e. reflexivity.
  - reflexivity.
  - rewrite e. reflexivity.
Qed.

Lemma match_tag_not_open (c : ascii) (s : string) :
  Ascii.eqb c "[" = false -> match_tag (String c s) = None.
Proof. intros H. simpl. now rewrite H. Qed.

Lemma sub_tags_keep (c : ascii) (s : string) :
  Ascii.eqb c "[" = false -> sub_tags (String c s) = String c (sub_tags s).
Proof.
  intros H. rewrite sub_tags_step, match_tag_not_open by exact H. reflexivity.
Qed.

Lemma tag_char_not_bracket (c : ascii) :
  tag_char c = true -> Ascii.eqb c "[" = false /\ Ascii.eqb c "]" = false.
Proof.
  intros H. split.
  - destruct (Ascii.eqb_spec c "[") as [->|]; [discriminate H|reflexivity].
  - destruct (Ascii.eqb_spec c "]") as [->|]; [discriminate H|reflexivity].
Qed.

(** Behind a matched tag body no bracket is open. *)
Lemma match_tag_body_flat (t rest : string) (inside : bool) :
  match_tag_body t = Some rest ->
  brackets_flat inside t = brackets_flat false rest.
Proof.
  revert inside. induction t as [|c t IH]; intros inside; simpl; [discriminate|].
  destruct (Ascii.eqb_spec c "]") as [->|Hc].
  - intros [= ->]. reflexivity.
  - destruct (tag_char c) eqn:Htag; [|discriminate].
    apply tag_char_not_bracket in Htag as [-> _]. intros H. now apply IH.
Qed.

Lemma match_tag_flat (s rest : string) :
  match_tag s = Some rest ->
  brackets_flat false s = true -> brackets_flat false rest = true.
Proof.
  destruct s as [|c s]; simpl; [discriminate|].
  destruct (Ascii.eqb c "["); [|discriminate]. simpl.
  destruct s as [|d s'].
  - simpl. discriminate.
  - destruct (Ascii.eqb_spec d "/") as [->|Hd].
    + destruct (match_tag_body s') eqn:E.
      * intros [= ->] H. simpl in H.
        now rewrite (match_tag_body_flat _ _ _ E) in H.
      * simpl. discriminate.
    + intros E H. now rewrite (match_tag_body_flat _ _ _ E) in H.
Qed.

(** While a bracket is open, dropping tags changes nothing up to the next
    closing bracket, so a tag body matches after the pass only if it matched
    before. *)
Lemma match_tag_body_sub_tags (t : string) :
  brackets_flat true t = true ->
  match_tag_body t = None -> match_tag_body (sub_tags t) = None.
Proof.
  induction t as [|c t IH]; intros Hflat Hnone.
  - reflexivity.
  - simpl in Hflat. destruct (Ascii.eqb c "[") eqn:Hopen; [discriminate Hflat|].
    rewrite sub_tags_keep by exact Hopen.
    simpl in *. destruct (Ascii.eqb c "]"); [discriminate Hnone|].
    destruct (tag_char c); [|reflexivity]. now apply IH.
Qed.

Lemma match_tag_open_sub_tags (s : string) :
  brackets_flat true s = true ->
  match_tag (String "[" s) = None -> match_tag (String "[" (sub_tags s)) = None.
Proof.
  intros Hflat Hnone. cbn [match_tag] in *.
  change (Ascii.eqb "[" "[") with true in *. cbv iota in *.
  destruct s as [|d s'].
  - reflexivity.
  - assert (Hd : Ascii.eqb d "[" = false).
    { simpl in Hflat. destruct (Ascii.eqb d "["); [discriminate|reflexivity]. }
    rewrite sub_tags_keep by exact Hd.
    rewrite <- (sub_tags_keep d s' Hd).
    destruct (Ascii.eqb_spec d "/") as [->|Hslash].
    + destruct (match_tag_body s') eqn:E; [discriminate|].
      rewrite sub_tags_keep by reflexivity.
      rewrite match_tag_body_sub_tags; [reflexivity| |exact E].
      exact Hflat.
    + now apply match_tag_body_sub_tags.
Qed.

Lemma match_tag_body_shorter (t rest : string) :
  match_tag_body t = Some rest -> (String.length rest < String.length t)%nat.
Proof.
  revert rest. induction t as [|c t IH]; intros rest; simpl; [discriminate|].
  destruct (Ascii.eqb c "]").
  - intros [= <-]. lia.
  - destruct (tag_char c); [|discriminate]. intros H. apply IH in H. lia.
Qed.

Lemma match_tag_shorter (s rest : string) :
  match_tag s = Some rest -> (String.length rest < String.length s)%nat.
Proof.
  destruct s as [|c s]; simpl; [discriminate|].
  destruct (Ascii.eqb c "["); [|discriminate].
  destruct s as [|d s'].
  - simpl. discriminate.
  - destruct (Ascii.eqb d "/").
    + destruct (match_tag_body s') eqn:E.
      * intros [= <-]. apply match_tag_body_shorter in E. simpl. lia.
      * intros H. apply match_tag_body_shorter in H. simpl in *. lia.
    + intros H. apply match_tag_body_shorter in H. simpl in *. lia.
Qed.

Lemma sub_tags_flat (n : nat) :
  forall (s : string) (inside : bool),
    (String.length s <= n)%nat ->
    brackets_flat inside s = true ->
    contains_tag (sub_tags s) = false.
Proof.
  induction n as [|n IH]; intros s inside Hlen Hflat.
  - destruct s; [reflexivity|simpl in Hlen; lia].
  - rewrite sub_tags_step.
    destruct (match_tag s) as [rest|] eqn:Hm.
    + destruct s as [|c s]; [discriminate|].
      assert (Hc : Ascii.eqb c "[" = true).
      { simpl in Hm. destruct (Ascii.eqb c "["); [reflexivity|discriminate]. }
      destruct inside.
      * simpl in Hflat. rewrite Hc in Hflat. discriminate.
      * apply (IH rest false).
        -- apply match_tag_shorter in Hm. lia.
        -- eapply match_tag_flat; eassumption.
    + destruct s as [|c s]; [reflexivity|].
      simpl in Hlen.
      destruct (Ascii.eqb_spec c "[") as [->|Hc].
      * simpl in Hflat. apply andb_prop in Hflat as [_ Hflat].
        cbn [contains_tag].
        rewrite (match_tag_open_sub_tags s Hflat Hm).
        apply (IH s true); [lia|exact Hflat].
      * apply Ascii.eqb_neq in Hc.
        cbn [contains_tag]. rewrite match_tag_not_open by exact Hc.
        simpl in Hflat. rewrite Hc in Hflat.
        destruct (Ascii.eqb c "]").
        -- apply (IH s false); [lia|exact Hflat].
        -- apply (IH s inside); [lia|exact Hflat].
Qed.

(** A string without an opening bracket is returned as it is. *)
Lemma clean_rich_tags_plain (s : string) :
  (forall c, In c (list_ascii_of_string s) -> c <> "["%char) ->
  clean_rich_tags s = s.
Proof.
  unfold clean_rich_tags. induction s as [|c s IH]; intros H.
  - reflexivity.
  - rewrite sub_tags_keep.
    + rewrite IH; [reflexivity|]. intros d Hd. apply H. now right.
    + apply Ascii.eqb_neq. apply H. now left.
Qed.




(* ===================================================================== *)
(** * Properties of the cost report: currency strings *)
(* ===================================================================== *)




(** Accuracy of the rounding. *)
Lemma round_cents_nearest (m : positive) (e : Z) :
  if (0 <=? e)%Z then round_cents m e = (Z.pos m * 2 ^ e * 100)%Z
  else (2 * Z.abs (round_cents m e * 2 ^ (- e) - Z.pos m * 100) <= 2 ^ (- e))%Z.
Proof.
  unfold round_cents. destruct (0 <=? e)%Z eqn:He; [reflexivity|].
  apply Z.leb_gt in He.
  assert (Hpow : (0 < 2 ^ (- e))%Z) by (apply Z.pow_pos_nonneg; lia).
  set (den := (2 ^ (- e))%Z) in *. set (num := (Z.pos m * 100)%Z).
  pose proof (Z.div_mod num den ltac:(lia)) as Hdm.
  pose proof (Z.mod_pos_bound num den Hpow) as Hr.
  set (q := (num / den)%Z) in *. set (r := (num mod den)%Z) in *.
  destruct (2 * r <? den)%Z eqn:E1.
  - apply Z.ltb_lt in E1. nia.
  - apply Z.ltb_ge in E1. destruct (den <? 2 * r)%Z eqn:E2.
    + apply Z.ltb_lt in E2. nia.
    + apply Z.ltb_ge in E2. destruct (Z.even q); nia.
Qed.

Lemma round_cents_nonneg (m : positive) (e : Z) : (0 <= round_cents m e)%Z.
Proof.
  unfold round_cents. destruct (0 <=? e)%Z eqn:He.
  - apply Z.leb_le in He. assert (0 <= 2 ^ e)%Z by (apply Z.pow_nonneg; lia). nia.
  - apply Z.leb_gt in He.
    assert (Hpow : (0 < 2 ^ (- e))%Z) by (apply Z.pow_pos_nonneg; lia).
    assert (0 <= Z.pos m * 100 / 2 ^ (- e))%Z by (apply Z.div_pos; lia).
    repeat match goal with |- context [if ?b then _ else _] => destruct b end; lia.
Qed.

Lemma digits_only_uint (d : Decimal.uint) : digits_only (NilEmpty.string_of_uint d) = true.
Proof. induction d; simpl; auto. Qed.


Lemma pad_int_two_digits (r : Z) :
  (0 <= r < 100)%Z ->
  String.length (pad_int 2 r) = 2%nat /\ digits_only (pad_int 2 r) = true.
Proof.
  intros Hr.
  assert (Hall : forallb (fun n => Nat.eqb (String.length (pad_int 2 (Z.of_nat n))) 2
                                   && digits_only (pad_int 2 (Z.of_nat n)))
                         (seq 0 100) = true) by (vm_compute; reflexivity).
  rewrite forallb_forall in Hall.
  specialize (Hall (Z.to_nat r)). rewrite Z2Nat.id in Hall by lia.
  assert (Hin : In (Z.to_nat r) (seq 0 100)) by (apply in_seq; lia).
  apply Hall in Hin. apply andb_prop in Hin as [Hlen Hdig].
  apply Nat.eqb_eq in Hlen. now split.
Qed.






(** The constants are the fractions 301/2 and 100/1. *)
Lemma float_constants :
  float_is float_150_5 301 2 = true /\ float_is float_100_0 100 1 = true.
Proof. split; reflexivity. Qed.

Lemma example_cost_row_strings :
  kv_rows example_cost_row
  = [("Previous Period Cost", "<b>$100.00</b>"); ("Current Period Cost", "<b>$150.50</b>")].
Proof. reflexivity. Qed.



(* ===================================================================== *)
(** * Properties of the cost report: budget and instance sections *)
(* ===================================================================== *)

Section CostDocument.
Variable formatServicesForList : list (string * pyfloat) -> list string.




End CostDocument.





(* ===================================================================== *)
(** * The stamp in the file names *)
(* ===================================================================== *)

Lemma pad_int_four_digits (y : Z) :
  (1000 <= y <= 9999)%Z ->
  String.length (pad_int 4 y) = 4%nat /\ digits_only (pad_int 4 y) = true.
Proof.
  intros Hy.
  assert (Hall : forallb (fun n => Nat.eqb (String.length (pad_int 4 (1000 + Z.of_nat n))) 4
                                   && digits_only (pad_int 4 (1000 + Z.of_nat n)))
                         (seq 0 (Z.to_nat 9000)) = true) by (vm_compute; reflexivity).
  rewrite forallb_forall in Hall.
  specialize (Hall (Z.to_nat (y - 1000))).
  replace (1000 + Z.of_nat (Z.to_nat (y - 1000)))%Z with y in Hall by lia.
  assert (Hin : In (Z.to_nat (y - 1000)) (seq 0 (Z.to_nat 9000))) by (apply in_seq; lia).
  apply Hall in Hin. apply andb_prop in Hin as [Hlen Hdig].
  apply Nat.eqb_eq in Hlen. now split.
Qed.

Lemma digits_only_app (a b : string) :
  digits_only (a ++ b) = digits_only a && digits_only b.
Proof. induction a as [|c a IH]; cbn; [reflexivity|]. now rewrite IH, andb_assoc. Qed.

(** X1: the stamp in the name of every exported file is thirteen characters
    long, eight digits (the date), an underscore and four digits (the time
    of day), for a date of the years 1000 to 9999. *)
Lemma strftime_stamp_shape (dt : datetime) :
  valid_datetime dt = true ->
  exists date time,
    strftime_stamp dt = date ++ "_" ++ time
    /\ String.length date = 8%nat /\ digits_only date = true
    /\ String.length time = 4%nat /\ digits_only time = true.
Proof.
  unfold valid_datetime. intros H.
  repeat (apply andb_prop in H as [H ?]).
  repeat match goal with
         | Hle : (_ <=? _)%Z = true |- _ => apply Z.leb_le in Hle
         end.
  destruct (pad_int_four_digits (year dt)) as [Ly Dy]; [lia|].
  destruct (pad_int_two_digits (month dt)) as [Lm Dm]; [lia|].
  destruct (pad_int_two_digits (day dt)) as [Ld Dd]; [lia|].
  destruct (pad_int_two_digits (hour dt)) as [Lh Dh]; [lia|].
  destruct (pad_int_two_digits (minute dt)) as [Li Di]; [lia|].
  exists (pad_int 4 (year dt) ++ pad_int 2 (month dt) ++ pad_int 2 (day dt)),
         (pad_int 2 (hour dt) ++ pad_int 2 (minute dt)).
  unfold strftime_stamp. rewrite !append_assoc. split; [reflexivity|].
  rewrite !length_app, !digits_only_app, Ly, Lm, Ld, Lh, Li, Dy, Dm, Dd, Dh, Di.
  repeat split.
Qed.

Lemma strftime_stamp_shape_witness :
  exists date time,
    strftime_stamp (mkDatetime 2025 1 31 9 30 0) = date ++ "_" ++ time
    /\ String.length date = 8%nat /\ digits_only date = true
    /\ String.length time = 4%nat /\ digits_only time = true.
Proof. apply (strftime_stamp_shape (mkDatetime 2025 1 31 9 30 0)). reflexivity. Defined.

(* ===================================================================== *)
(** * The export functions: destinations and failures *)
(* ===================================================================== *)

Lemma isinstance_Exception (e : exn) : isinstance e Exception = true.
Proof. destruct e as [c msg]. destruct c; reflexivity. Qed.

Lemma s3_destination_some (bucket : string) (sess : Session) :
  bucket <> "" -> s3_destination (Some bucket) (Some sess) = Some (bucket, sess).
Proof. intros H. unfold s3_destination. apply String.eqb_neq in H. now rewrite H. Qed.

Ltac unfold_monad :=
  unfold try_except, bind, ret, raise, lift, console_print, datetime_now,
         session_client, put_object, set_fs in *.

(** The remote block: either the object is put and its location returned
    after a success line, or nothing is put and [None] returned after a
    diagnostic. *)
Lemma upload_to_s3_cases (body : content) (bucket key : string) (sess : Session)
    (content_type : string) (w : world) :
  content_type <> "" ->
  (exists diagnostic,
      upload_to_s3 body bucket key sess (Some content_type) w
      = (Ok None, add_console diagnostic w))
  \/ upload_to_s3 body bucket key sess (Some content_type) w
     = (Ok (Some ("s3://" ++ bucket ++ "/" ++ key)),
        add_put (mkObject bucket key body (Some content_type)) w).
Proof.
  intros Hct. unfold upload_to_s3, if_truthy.
  apply String.eqb_neq in Hct. rewrite Hct.
  unfold_monad.
  destruct (faults w (Sys_client sess)) as [e|] eqn:Hc.
  - left. cbn [dispatch]. unfold_monad.
    destruct (isinstance e ClientError); [eexists; reflexivity|].
    rewrite isinstance_Exception. eexists; reflexivity.
  - destruct (faults w (Sys_put_object bucket key)) as [e|] eqn:Hp.
    + left. cbn [dispatch]. unfold_monad.
      destruct (isinstance e ClientError); [eexists; reflexivity|].
      rewrite isinstance_Exception. eexists; reflexivity.
    + right. reflexivity.
Qed.


(** The remote block inside an export function, in a hypothesis that
    gives the outcome of the whole call. *)
Ltac remote_block H :=
  cbv zeta in H;
  match type of H with
  | ?outcome = _ =>
      match type of H with
      | context [upload_to_s3 ?b ?bk ?k ?s (Some ?c) ?w] =>
          destruct (upload_to_s3_cases b bk k s c w ltac:(discriminate)) as [[d E]|E];
          rewrite E in H; subst outcome;
          [left; eexists; reflexivity
          |right; eexists _, _, _; reflexivity]
      end
  end.

Lemma quiet_refl (w : world) : quiet w w.
Proof. split; reflexivity. Qed.

Lemma quiet_trans (w1 w2 w3 : world) : quiet w1 w2 -> quiet w2 w3 -> quiet w1 w3.
Proof. intros [A B] [C D]. split; congruence. Qed.


Section Yields.
Variable R : world -> world -> Prop.
Hypothesis R_refl : forall w, R w w.
Hypothesis R_trans : forall w1 w2 w3, R w1 w2 -> R w2 w3 -> R w1 w3.

Lemma yields_ret {A} (good : A -> Prop) (a : A) : good a -> yields R good (ret a).
Proof. intros Ha w r w' [= <- <-]. split; [apply R_refl|exact Ha]. Qed.

Lemma yields_raise {A} (good : A -> Prop) (e : exn) : yields R good (raise e).
Proof. intros w r w' [= <- <-]. split; [apply R_refl|exact I]. Qed.

Lemma yields_lift {A} (x : result A) : yields R (fun _ => True) (lift x).
Proof. destruct x; [now apply yields_ret|apply yields_raise]. Qed.

Lemma yields_bind {A B} (goodA : A -> Prop) (goodB : B -> Prop) (c : M A) (k : A -> M B) :
  yields R goodA c -> (forall a, goodA a -> yields R goodB (k a)) ->
  yields R goodB (bind c k).
Proof.
  intros Hc Hk w r w' H. unfold bind in H.
  destruct (c w) as [[a|e] w1] eqn:E.
  - destruct (Hc _ _ _ E) as [R1 Ga]. destruct (Hk a Ga _ _ _ H) as [R2 Gb].
    split; [eapply R_trans; eassumption|exact Gb].
  - injection H as <- <-. destruct (Hc _ _ _ E) as [R1 _]. split; [exact R1|exact I].
Qed.

End Yields.

Lemma quiet_datetime_now : yields quiet (fun _ => True) datetime_now.
Proof. intros w r w' [= <- <-]. split; [apply quiet_refl|exact I]. Qed.

Lemma quiet_os_makedirs (path : string) : yields quiet (fun _ => True) (os_makedirs path).
Proof.
  intros w r w' H. unfold os_makedirs in H.
  repeat match type of H with
         | context [match ?x with _ => _ end] => destruct x
         | context [if ?x then _ else _] => destruct x
         end; injection H as <- <-; (split; [split; reflexivity|exact I]).
Qed.

Lemma quiet_write_file (mode path : string) (data : content) :
  yields quiet (fun _ => True) (write_file mode path data).
Proof.
  intros w r w' H. unfold write_file in H.
  repeat match type of H with
         | context [match ?x with _ => _ end] => destruct x
         | context [if ?x then _ else _] => destruct x
         end; injection H as <- <-; (split; [split; reflexivity|exact I]).
Qed.

Lemma quiet_doc_build (target : doc_target) (elements : list Flowable) :
  yields quiet (fun _ => True) (doc_build target elements).
Proof.
  intros w r w' H. unfold doc_build in H.
  destruct (faults w _); [injection H as <- <-; split; [apply quiet_refl|exact I]|].
  destruct target as [|name]; [injection H as <- <-; split; [apply quiet_refl|exact I]|].
  destruct (write_file "wb" name (Pdf elements) w) as [[u|e] w1] eqn:E;
    injection H as <- <-; destruct (quiet_write_file _ _ _ _ _ _ E) as [Q _];
    (split; [exact Q|exact I]).
Qed.

(** A [try] with the one clause [except Exception] that prints a line and
    returns [None], around a quiet body: either the body's value comes out
    and nothing was printed, or [None] comes out behind one line. *)
Lemma try_except_quiet {A} (good : option A -> Prop) (body : M (option A))
    (message : exn -> string) (w : world) :
  yields quiet good body ->
  exists r w',
    try_except body [Except (Ok Exception)
                       (fun e => console_print (message e) ;; ret None)] w = (Ok r, w')
    /\ s3_puts w' = s3_puts w
    /\ ((good r /\ console w' = console w)
        \/ (r = None /\ exists diagnostic, console w' = diagnostic :: console w)).
Proof.
  intros Hb. unfold try_except. destruct (body w) as [[a|e] w1] eqn:E.
  - destruct (Hb _ _ _ E) as [[Hc Hs] Hg]. exists a, w1. auto.
  - destruct (Hb _ _ _ E) as [[Hc Hs] _]. cbn [dispatch].
    rewrite isinstance_Exception. eexists None, _. split; [reflexivity|].
    split; [exact Hs|]. right. split; [reflexivity|]. eexists. cbn. now rewrite Hc.
Qed.


Lemma s3_destination_no_session (bucket : option string) :
  s3_destination bucket None = None.
Proof. destruct bucket; reflexivity. Qed.

Lemma quiet_write_local (path : option string) (base_filename data : string) :
  yields quiet (fun r => r <> None) (write_local path base_filename data).
Proof.
  unfold write_local.
  apply (yields_bind quiet quiet_trans (fun _ => True)).
  - unfold if_truthy.
    destruct path as [dir|]; [|now apply yields_ret; [apply quiet_refl|]].
    destruct (String.eqb dir ""); [now apply yields_ret; [apply quiet_refl|]|].
    apply (yields_bind quiet quiet_trans (fun _ => True)); [apply quiet_os_makedirs|].
    intros _ _. now apply yields_ret; [apply quiet_refl|].
  - intros output_filename _.
    apply (yields_bind quiet quiet_trans (fun _ => True)); [apply quiet_write_file|].
    intros _ _. apply yields_ret; [apply quiet_refl|discriminate].
Qed.

Lemma quiet_abspath_result (output_filename : string) :
  yields quiet (fun r : option string => r <> None)
         (fun w => (Ok (Some (abspath (fs_cwd w) output_filename)), w)).
Proof. intros w r w' [= <- <-]. split; [apply quiet_refl|discriminate]. Qed.

Section Exports.
Variable split_to_items : string -> list string.
Variable formatServicesForList : list (string * pyfloat) -> list string.


Lemma run_export_remote (call : export_call) (path : option string)
    (bucket : string) (prefix : option string) (sess : Session) (w : world) :
  bucket <> "" ->
  let key := s3_key_of prefix (base_filename_of call (clock w)) in
  (exists diagnostic,
      run_export split_to_items formatServicesForList call path (Some bucket) prefix (Some sess) w = (Ok None, add_console diagnostic w))
  \/ (exists line body content_type,
      run_export split_to_items formatServicesForList call path (Some bucket) prefix (Some sess) w
      = (Ok (Some ("s3://" ++ bucket ++ "/" ++ key)),
         add_console line (add_put (mkObject bucket key body content_type) w))).
Proof.
  intros Hb key. subst key.
  remember (run_export split_to_items formatServicesForList call path (Some bucket) prefix (Some sess) w) as outcome eqn:Ho.
  destruct call; cbn [run_export base_filename_of] in *;
    unfold export_audit_report_to_pdf, export_audit_report_to_csv,
           export_audit_report_to_json, export_trend_data_to_json,
           export_cost_dashboard_to_pdf in Ho;
    rewrite !(s3_destination_some _ _ Hb) in Ho;
    unfold try_except, bind, datetime_now, lift, ret, raise, doc_build in Ho.
  - (* audit PDF *)
    destruct (audit_report_elements split_to_items audit_data_list (clock w)) as [els|e].
    + destruct (faults w (Sys_build BytesIO els)) as [e|].
      * left. cbn [dispatch] in Ho. rewrite isinstance_Exception in Ho.
        subst outcome. eexists. reflexivity.
      * remote_block Ho.
    + left. cbn [dispatch] in Ho. rewrite isinstance_Exception in Ho.
      subst outcome. eexists. reflexivity.
  - (* audit CSV *)
    remote_block Ho.
  - remote_block Ho.
  - remote_block Ho.
  - (* cost PDF *)
    match type of Ho with context [faults w ?c] => destruct (faults w c) as [e|] end.
    + left. cbn [dispatch] in Ho. rewrite isinstance_Exception in Ho.
      subst outcome. eexists. reflexivity.
    + remote_block Ho.
Qed.

Lemma run_export_local (call : export_call) (path bucket prefix : option string)
    (session : option Session) (w : world) :
  s3_destination bucket session = None ->
  exists r w',
    run_export split_to_items formatServicesForList call path bucket prefix session w
    = (Ok r, w')
    /\ s3_puts w' = s3_puts w
    /\ ((r <> None /\ console w' = console w)
        \/ (r = None /\ exists diagnostic, console w' = diagnostic :: console w)).
Proof.
  intros Hlocal.
  destruct call; cbn [run_export];
    unfold export_audit_report_to_pdf, export_audit_report_to_csv,
           export_audit_report_to_json, export_trend_data_to_json,
           export_cost_dashboard_to_pdf;
    rewrite !Hlocal;
    apply try_except_quiet;
    (apply (yields_bind quiet quiet_trans (fun _ => True)); [apply quiet_datetime_now|]);
    intros now _; try apply quiet_write_local.
  - apply (yields_bind quiet quiet_trans (fun _ => True)); [apply quiet_datetime_now|].
    intros stamp _.
    apply (yields_bind quiet quiet_trans (fun _ => True));
      [apply yields_lift, quiet_refl|].
    intros elements _.
    apply (yields_bind quiet quiet_trans (fun _ => True)); [apply quiet_doc_build|].
    intros _ _. apply quiet_abspath_result.
  - apply (yields_bind quiet quiet_trans (fun _ => True)).
    + unfold if_truthy.
      destruct path as [dir|]; [|now apply yields_ret; [apply quiet_refl|]].
      destruct (String.eqb dir ""); [now apply yields_ret; [apply quiet_refl|]|].
      apply (yields_bind quiet quiet_trans (fun _ => True)); [apply quiet_os_makedirs|].
      intros _ _. now apply yields_ret; [apply quiet_refl|].
    + intros output_filename _.
      apply (yields_bind quiet quiet_trans (fun _ => True)); [apply quiet_datetime_now|].
      intros stamp _.
      apply (yields_bind quiet quiet_trans (fun _ => True)); [apply quiet_doc_build|].
      intros _ _. apply quiet_abspath_result.
Qed.




Lemma s3_key_of_prefix (prefix : option string) (base_filename : string) :
  s3_key_of prefix base_filename
  = lstrip_slash (match prefix with
                  | Some p => p ++ "/" ++ base_filename
                  | None => base_filename
                  end).
Proof.
  unfold s3_key_of, if_truthy. destruct prefix as [p|]; [|reflexivity].
  destruct (String.eqb_spec p "") as [->|]; reflexivity.
Qed.

Lemma lstrip_slash_stripped (s : string) : startswith "/" (lstrip_slash s) = false.
Proof.
  induction s as [|c s IH]; [reflexivity|]. cbn [lstrip_slash].
  destruct (Ascii.eqb_spec c "/") as [->|Hc]; [exact IH|].
  unfold startswith. cbn [String.prefix].
  destruct (ascii_dec "/" c) as [<-|]; [contradiction|reflexivity].
Qed.

(** C6: a remote export that succeeds has put one object, in the bucket,
    under the key made of the prefix (when given), a slash and the
    timestamped file name, leading slashes stripped; the location it returns
    is the scheme, the bucket, a slash and that key. *)
Theorem C6_remote_key_and_location (call : export_call) (path : option string)
    (bucket : string) (prefix : option string) (sess : Session) (w w' : world)
    (location : string) :
  bucket <> "" ->
  run_export split_to_items formatServicesForList call path (Some bucket) prefix (Some sess) w
  = (Ok (Some location), w') ->
  let f := base_filename_of call (clock w) in
  let key := lstrip_slash (match prefix with
                           | Some p => p ++ "/" ++ f
                           | None => f
                           end) in
  location = "s3://" ++ bucket ++ "/" ++ key
  /\ startswith "/" key = false
  /\ exists body content_type,
       s3_puts w' = mkObject bucket key body content_type :: s3_puts w.
Proof.
  intros Hb Hrun f key. subst f key. rewrite <- s3_key_of_prefix.
  destruct (run_export_remote call path bucket prefix sess w Hb)
    as [[d E]|(line & body & ct & E)]; rewrite E in Hrun.
  - discriminate Hrun.
  - injection Hrun as <- <-. split; [reflexivity|].
    split; [rewrite s3_key_of_prefix; apply lstrip_slash_stripped|].
    now exists body, ct.
Qed.


End Exports.


Lemma C6_remote_key_and_location_witness :
  "s3://finops-reports/audits//audit_report_20250131_0930.csv"
  = "s3://" ++ "finops-reports" ++ "/"
    ++ lstrip_slash ("/audits/" ++ "/" ++ "audit_report_20250131_0930.csv").
Proof.
  apply (C6_remote_key_and_location split_to_items_model formatServicesForList_model
           (AuditCsv [two_resources_row] "audit_report") (Some "reports")
           "finops-reports" (Some "/audits/") (mkSession "default") example_world
           (snd (export_audit_report_to_csv [two_resources_row] "audit_report"
                   (Some "reports") (Some "finops-reports") (Some "/audits/")
                   (Some (mkSession "default")) example_world))
           "s3://finops-reports/audits//audit_report_20250131_0930.csv").
  - discriminate.
  - vm_compute. reflexivity.
Defined.


(* ===================================================================== *)
(** * The configuration loader *)
(* ===================================================================== *)

Section ConfigLoaderFacts.
Variable V : Type.
Variable is_dict : V -> bool.
Variable yaml_safe_load : string -> result V.
Variable json_load : string -> result V.

(** With a TOML library at hand the loader never raises: it returns a
    mapping and leaves the world alone, or prints one line and returns
    [None]. *)
Lemma load_config_file_returns (tomllib_load : string -> result V) (file_path : string)
    (w : world) :
  exists r w',
    load_config_file V is_dict (Some tomllib_load) yaml_safe_load json_load file_path w
    = (Ok r, w')
    /\ match r with
       | Some v => is_dict v = true /\ w' = w
       | None => exists diagnostic, w' = add_console diagnostic w
       end.
Proof.
  unfold load_config_file, try_except, bind, read_file, lift, load_with, read_text,
         tomllib_TOMLDecodeError, ret, raise, console_print.
  repeat match goal with
         | |- context [match faults ?w ?c with _ => _ end] => destruct (faults w c)
         | |- context [if is_dir ?w ?p then _ else _] => destruct (is_dir w p)
         | |- context [match file_find ?p ?f with _ => _ end] =>
             destruct (file_find p f) as [[?|?]|]
         | |- context [if String.eqb ?a ?b then _ else _] => destruct (String.eqb a b)
         | |- context [if ?a || ?b then _ else _] => destruct (a || b)
         | |- context [match tomllib_load ?s with _ => _ end] => destruct (tomllib_load s)
         | |- context [match yaml_safe_load ?s with _ => _ end] => destruct (yaml_safe_load s)
         | |- context [match json_load ?s with _ => _ end] => destruct (json_load s)
         | |- context [if is_dict ?v then _ else _] => destruct (is_dict v) eqn:?
         | |- context [dispatch _ _] => cbn [dispatch]
         | |- context [if isinstance ?e Exception then _ else _] =>
             rewrite (isinstance_Exception e)
         | |- context [if isinstance ?e ?c then _ else _] => destruct (isinstance e c)
         end;
    try (eexists (Some _), _; split; [reflexivity|split; [assumption|reflexivity]]);
    try (eexists None, _; split; [reflexivity|eexists; reflexivity]).
Qed.

(** Without a TOML library, an exception that is not a [FileNotFoundError]
    reaches the clause [except tomllib.TOMLDecodeError], whose class
    expression raises an [AttributeError]; that one leaves the function.
    Here the exception comes from opening the file. *)
Lemma load_config_file_no_tomllib_open (file_path : string) (w : world) (e : exn) :
  faults w (Sys_open file_path
              (if String.eqb (lower (snd (splitext file_path))) ".toml" then "rb" else "r"))
  = Some e ->
  isinstance e FileNotFoundError = false ->
  load_config_file V is_dict None yaml_safe_load json_load file_path w
  = (Raise (mkExn AttributeError "'NoneType' object has no attribute 'TOMLDecodeError'"), w).
Proof.
  intros Hf He. unfold load_config_file, try_except, bind, read_file.
  rewrite Hf. cbn [dispatch]. rewrite He. reflexivity.
Qed.

(** The same when the parser of a JSON file raises. *)
Lemma load_config_file_no_tomllib_json (file_path text : string) (w : world) (e : exn) :
  lower (snd (splitext file_path)) = ".json" ->
  read_file "r" file_path w = (Ok (Text text), w) ->
  json_load text = Raise e ->
  isinstance e FileNotFoundError = false ->
  load_config_file V is_dict None yaml_safe_load json_load file_path w
  = (Raise (mkExn AttributeError "'NoneType' object has no attribute 'TOMLDecodeError'"), w).
Proof.
  intros Hext Hread Hjson He. unfold load_config_file, try_except, bind.
  rewrite Hext. cbn [String.eqb Ascii.eqb Bool.eqb orb]. rewrite Hread.
  unfold lift, load_with, read_text. rewrite Hjson. unfold raise.
  cbn [dispatch]. rewrite He. reflexivity.
Qed.

End ConfigLoaderFacts.


(** C1 holds for the five export functions ([run_export_never_raises]) and
    for the loader when a TOML library is at hand
    ([load_config_file_returns]).  It fails for the loader without one:
    the configuration file exists, its text is not JSON, and instead of a
    diagnostic and [None] the caller gets an [AttributeError]. *)
Theorem C1_load_config_file_raises_without_tomllib :
  load_config_file pyvalue is_PyDict None yaml_load_none json_load_model
                   "config.json" config_world
  = (Raise (mkExn AttributeError "'NoneType' object has no attribute 'TOMLDecodeError'"),
     config_world).
Proof. vm_compute. reflexivity. Qed.

(** With a TOML library the same file gives the diagnostic and [None]. *)
Lemma load_config_file_with_tomllib_example :
  load_config_file pyvalue is_PyDict (Some yaml_load_none) yaml_load_none json_load_model
                   "config.json" config_world
  = (Ok None,
     add_console "[bold red]Error decoding JSON file config.json: Expecting value[/]"
                 config_world).
Proof. vm_compute. reflexivity. Qed.

(* ===================================================================== *)
(** * Local exports into a directory that does not exist yet *)
(* ===================================================================== *)

Lemma isabs_slash (t : string) : isabs (String "/" t) = true.
Proof.
  unfold isabs, startswith. cbn [String.prefix].
  destruct (ascii_dec "/" "/") as [_|H]; [apply prefix_empty|now elim H].
Qed.

Lemma isabs_inv (p : string) : isabs p = true -> exists t, p = String "/" t.
Proof.
  destruct p as [|c t]; [discriminate|]. unfold isabs, startswith. cbn [String.prefix].
  destruct (ascii_dec "/" c) as [<-|]; [|discriminate]. intros _. now exists t.
Qed.

Lemma normpath_absolute (t : string) : isabs (normpath (String "/" t)) = true.
Proof.
  unfold normpath. change (String.eqb (String "/" t) "") with false. cbv iota.
  assert (H : startswith "/" (String "/" t) = true) by apply isabs_slash.
  rewrite H.
  destruct (startswith "//" (String "/" t) && negb (startswith "///" (String "/" t)));
    cbn [repeat_slash append String.eqb]; change (Ascii.eqb "/" ?c) with false || idtac;
    apply isabs_slash.
Qed.

Lemma path_join_absolute (cwd p : string) :
  isabs cwd = true -> isabs (path_join cwd p) = true.
Proof.
  intros H. unfold path_join. destruct (startswith "/" p) eqn:Hp; [exact Hp|].
  apply isabs_inv in H as [t ->].
  destruct (String.eqb (String "/" t) "" || endswith "/" (String "/" t));
    cbn [append]; apply isabs_slash.
Qed.

(** [os.path.abspath] gives an absolute path, the working directory being
    one. *)
Lemma abspath_absolute (cwd p : string) :
  isabs cwd = true -> isabs (abspath cwd p) = true.
Proof.
  intros H. unfold abspath.
  assert (Hq : isabs (if isabs p then p else path_join cwd p) = true).
  { destruct (isabs p) eqn:Hp; [exact Hp|now apply path_join_absolute]. }
  apply isabs_inv in Hq as [t ->]. apply normpath_absolute.
Qed.

Ltac run_cases H :=
  repeat match type of H with
         | context [match faults ?w ?c with _ => _ end] => destruct (faults w c)
         | context [if is_file ?w ?p then _ else _] => destruct (is_file w p)
         | context [if is_dir ?w ?p then _ else _] => destruct (is_dir w p)
         | context [if existsb ?f ?l then _ else _] => destruct (existsb f l)
         | context [if negb ?b then _ else _] => destruct b; cbn [negb] in H
         | context [if String.eqb ?a ?b then _ else _] => destruct (String.eqb a b)
         | context [match ?o with Some _ => _ | None => _ end] =>
             is_var o; destruct o
         | context [dispatch _ _] => cbn [dispatch] in H
         | context [isinstance ?e Exception] => rewrite (isinstance_Exception e) in H
         end.

(** Both PDF exports return the absolute path of the file they wrote. *)
Lemma cost_pdf_location_absolute
    (formatServicesForList : list (string * pyfloat) -> list string)
    (data : list ProfileData) (filename : string) (output_dir : option string)
    (previous current : string) (bucket prefix : option string)
    (session : option Session) (w w' : world) (location : string) :
  s3_destination bucket session = None ->
  isabs (fs_cwd w) = true ->
  export_cost_dashboard_to_pdf formatServicesForList data filename output_dir previous
    current bucket prefix session w = (Ok (Some location), w') ->
  isabs location = true.
Proof.
  intros Hlocal Hcwd H. unfold export_cost_dashboard_to_pdf in H. rewrite !Hlocal in H.
  unfold if_truthy, try_except, bind, datetime_now, ret, raise, doc_build, write_file, os_makedirs,
         console_print, set_fs in H.
  run_cases H; cbn in H; run_cases H; try discriminate;
    injection H as <- <-; now apply abspath_absolute.
Qed.

Lemma audit_pdf_location_absolute (split_to_items : string -> list string)
    (rows : list audit_row) (file_name : string) (path bucket prefix : option string)
    (session : option Session) (w w' : world) (location : string) :
  s3_destination bucket session = None ->
  isabs (fs_cwd w) = true ->
  export_audit_report_to_pdf split_to_items rows file_name path bucket prefix session w
  = (Ok (Some location), w') ->
  isabs location = true.
Proof.
  intros Hlocal Hcwd H. unfold export_audit_report_to_pdf in H. rewrite !Hlocal in H.
  unfold if_truthy, try_except, bind, datetime_now, ret, raise, lift, doc_build, write_file,
         console_print, set_fs in H.
  destruct (audit_report_elements split_to_items rows (clock w)) as [els|e];
    run_cases H; cbn in H; run_cases H; try discriminate;
    injection H as <- <-; now apply abspath_absolute.
Qed.

Lemma is_dir_after_makedirs (w : world) (p : string) (dirs : list string) :
  fs_dirs w = (ancestors (String.length p) p ++ dirs)%list ->
  is_dir w p = true.
Proof.
  intros H. unfold is_dir. rewrite H. destruct (all_char "/" p) eqn:Hroot; [reflexivity|].
  destruct p as [|c p]; [discriminate Hroot|].
  cbn [String.length ancestors]. rewrite Hroot. cbn [app existsb].
  now rewrite String.eqb_refl.
Qed.

(** The cost PDF export creates the directory it is given. *)
Lemma cost_pdf_creates_directory
    (formatServicesForList : list (string * pyfloat) -> list string)
    (data : list ProfileData) (filename dir : string)
    (previous current : string) (bucket prefix : option string)
    (session : option Session) (w w' : world) (location : string) :
  s3_destination bucket session = None ->
  dir <> "" ->
  export_cost_dashboard_to_pdf formatServicesForList data filename (Some dir) previous
    current bucket prefix session w = (Ok (Some location), w') ->
  is_dir w' (abspath (fs_cwd w) dir) = true.
Proof.
  intros Hlocal Hdir H. unfold export_cost_dashboard_to_pdf in H. rewrite !Hlocal in H.
  unfold if_truthy in H. apply String.eqb_neq in Hdir. rewrite Hdir in H.
  unfold try_except, bind, datetime_now, ret, raise, doc_build, write_file, os_makedirs,
         console_print in H.
  run_cases H; cbn [fst snd faults set_fs fs_cwd fs_dirs fs_files] in H; run_cases H;
    try discriminate; injection H as <- <-;
    apply (is_dir_after_makedirs _ _ (fs_dirs w)); reflexivity.
Qed.

(** So does the local branch of the CSV and JSON exports. *)
Lemma write_local_creates_directory (dir base_filename data : string)
    (w w' : world) (r : option string) :
  dir <> "" ->
  write_local (Some dir) base_filename data w = (Ok r, w') ->
  r = Some (path_join dir base_filename)
  /\ is_dir w' (abspath (fs_cwd w) dir) = true
  /\ file_find (abspath (fs_cwd w) (path_join dir base_filename)) (fs_files w')
     = Some (Text data).
Proof.
  intros Hdir H. unfold write_local in H.
  unfold if_truthy in H. apply String.eqb_neq in Hdir. rewrite Hdir in H.
  unfold bind, ret, write_file, os_makedirs in H.
  run_cases H; cbn [fst snd faults set_fs fs_cwd fs_dirs fs_files] in H; run_cases H;
    try discriminate; injection H as <- <-.
  split; [reflexivity|].
  split; [apply (is_dir_after_makedirs _ _ (fs_dirs w)); reflexivity|].
  cbn [fs_files set_fs file_find]. now rewrite String.eqb_refl.
Qed.

(** The CSV export creates the directory, writes the lines there, and
    returns the path as it joined it. *)
Lemma csv_export_creates_directory (rows : list audit_row) (file_name dir : string)
    (bucket prefix : option string) (session : option Session) (w w' : world)
    (location : string) :
  s3_destination bucket session = None ->
  dir <> "" ->
  export_audit_report_to_csv rows file_name (Some dir) bucket prefix session w
  = (Ok (Some location), w') ->
  location = path_join dir (file_name ++ "_" ++ strftime_stamp (clock w) ++ ".csv")
  /\ is_dir w' (abspath (fs_cwd w) dir) = true
  /\ file_find (abspath (fs_cwd w) location) (fs_files w') = Some (Text (csv_serialize rows)).
Proof.
  intros Hlocal Hdir H. unfold export_audit_report_to_csv in H. rewrite Hlocal in H.
  unfold try_except in H.
  match type of H with context [bind datetime_now ?k w] =>
    change (bind datetime_now k w) with (k (clock w) w) in H end.
  cbv beta zeta in H.
  match type of H with context [match ?c w with _ => _ end] =>
    change c with (write_local (Some dir)
                     (file_name ++ "_" ++ strftime_stamp (clock w) ++ ".csv")
                     (csv_serialize rows)) in H;
    destruct (write_local (Some dir)
                     (file_name ++ "_" ++ strftime_stamp (clock w) ++ ".csv")
                     (csv_serialize rows) w) as [[r|e] w1] eqn:E end.
  - injection H as -> <-.
    destruct (write_local_creates_directory _ _ _ _ _ _ Hdir E) as ([= ->] & Hd & Hf).
    auto.
  - cbn [dispatch] in H. rewrite isinstance_Exception in H. discriminate H.
Qed.

(** The audit PDF export, with a local destination, never creates a
    directory: the directories are the same before and after, whatever it
    returns. *)
Lemma audit_pdf_creates_no_directory (split_to_items : string -> list string)
    (rows : list audit_row) (file_name : string) (path bucket prefix : option string)
    (session : option Session) (w w' : world) (r : result (option string)) :
  s3_destination bucket session = None ->
  export_audit_report_to_pdf split_to_items rows file_name path bucket prefix session w
  = (r, w') ->
  fs_dirs w' = fs_dirs w.
Proof.
  intros Hlocal H. unfold export_audit_report_to_pdf in H. rewrite !Hlocal in H.
  unfold if_truthy, try_except, bind, datetime_now, ret, raise, lift, doc_build, write_file,
         console_print, set_fs in H.
  destruct (audit_report_elements split_to_items rows (clock w)) as [els|e];
    run_cases H; cbn in H; run_cases H; injection H as <- <-; reflexivity.
Qed.

(** C2 fails in two ways.  The audit PDF export does not create the
    directory: the build cannot open its file, and the function returns
    [None] behind a diagnostic, the filesystem untouched.  The cost PDF
    export, on the same directory, creates it, writes the file and returns
    its absolute path.  The CSV export creates the directory and writes the
    file, and returns the path as joined, which is relative here. *)
Theorem C2_audit_pdf_skips_makedirs :
  (exists diagnostic,
      export_audit_report_to_pdf split_to_items_model [two_resources_row] "audit_report"
        (Some "reports") None None None example_world
      = (Ok None, add_console diagnostic example_world))
  /\ (exists w',
         export_cost_dashboard_to_pdf formatServicesForList_model [example_cost_row]
           "cost_report" (Some "reports") "N/A" "N/A" None None None example_world
         = (Ok (Some "/home/finops/reports/cost_report_20250131_0930.pdf"), w')
         /\ is_dir w' "/home/finops/reports" = true
         /\ is_file w' "/home/finops/reports/cost_report_20250131_0930.pdf" = true)
  /\ (exists w',
         export_audit_report_to_csv [two_resources_row] "audit_report"
           (Some "reports") None None None example_world
         = (Ok (Some "reports/audit_report_20250131_0930.csv"), w')
         /\ isabs "reports/audit_report_20250131_0930.csv" = false
         /\ is_dir w' "/home/finops/reports" = true
         /\ is_file w' "/home/finops/reports/audit_report_20250131_0930.csv" = true).
Proof.
  split; [|split].
  - eexists. vm_compute. reflexivity.
  - eexists. split; [vm_compute; reflexivity|]. split; reflexivity.
  - eexists. split; [vm_compute; reflexivity|]. repeat split; reflexivity.
Qed.

(* ===================================================================== *)
(** * The document the cost export writes *)
(* ===================================================================== *)

(** A local cost export that succeeds has written the document of the
    report to the file whose location it returns. *)
Lemma cost_pdf_local_document
    (formatServicesForList : list (string * pyfloat) -> list string)
    (data : list ProfileData) (filename : string) (output_dir : option string)
    (previous current : string) (bucket prefix : option string)
    (session : option Session) (w w' : world) (location : string) :
  s3_destination bucket session = None ->
  export_cost_dashboard_to_pdf formatServicesForList data filename output_dir previous
    current bucket prefix session w = (Ok (Some location), w') ->
  file_find location (fs_files w')
  = Some (Pdf (cost_report_elements formatServicesForList data previous current (clock w))).
Proof.
  intros Hlocal H. unfold export_cost_dashboard_to_pdf in H. rewrite !Hlocal in H.
  unfold if_truthy, try_except, bind, datetime_now, ret, raise, doc_build, write_file, os_makedirs,
         console_print in H.
  run_cases H; cbn [fst snd faults set_fs fs_cwd fs_dirs fs_files clock] in H; run_cases H;
    try discriminate; injection H as <- <-;
    cbn [fs_files set_fs file_find fs_cwd]; now rewrite String.eqb_refl.
Qed.

(** A remote cost export that succeeds has put that document. *)
Lemma cost_pdf_remote_document
    (formatServicesForList : list (string * pyfloat) -> list string)
    (data : list ProfileData) (filename : string) (output_dir : option string)
    (previous current bucket : string) (prefix : option string)
    (sess : Session) (w w' : world) (location : string) :
  bucket <> "" ->
  export_cost_dashboard_to_pdf formatServicesForList data filename output_dir previous
    current (Some bucket) prefix (Some sess) w = (Ok (Some location), w') ->
  exists obj rest,
    s3_puts w' = obj :: rest
    /\ Body obj
       = Pdf (cost_report_elements formatServicesForList data previous current (clock w)).
Proof.
  intros Hb H. unfold export_cost_dashboard_to_pdf in H.
  rewrite !(s3_destination_some _ _ Hb) in H.
  unfold try_except, bind, datetime_now, ret, raise, doc_build in H.
  match type of H with context [faults w ?c] => destruct (faults w c) as [e|] end.
  - cbn [dispatch] in H. rewrite isinstance_Exception in H. discriminate H.
  - cbv zeta in H.
    match type of H with context [upload_to_s3 ?b ?bk ?k ?s (Some ?c) w] =>
      destruct (upload_to_s3_cases b bk k s c w ltac:(discriminate)) as [[d E]|E];
      rewrite E in H end.
    + discriminate H.
    + injection H as <- <-. eexists _, _. split; reflexivity.
Qed.

(* ===================================================================== *)
(** * The JSON serialization reads back *)
(* ===================================================================== *)

(** ** Strings *)

Lemma scanstring_escape_char (c : ascii) (t : string) :
  scanstring (escape_char c ++ t) = prepend c (scanstring t).
Proof.
  destruct c as [[] [] [] [] [] [] [] []]; reflexivity.
Qed.

Lemma scanstring_escape_string (s rest : string) :
  scanstring (escape_string s ++ String DQUOTE rest) = Some (s, rest).
Proof.
  induction s as [|c s IH]; [reflexivity|].
  cbn [escape_string]. rewrite append_assoc, scanstring_escape_char, IH. reflexivity.
Qed.

(** ** Integers *)

Lemma follows_value_no_fraction (rest : string) :
  follows_value rest = true -> starts_fraction rest = false.
Proof.
  destruct rest as [|c rest]; [reflexivity|]. cbn.
  destruct (Ascii.eqb_spec c ",") as [->|]; [reflexivity|].
  destruct (Ascii.eqb_spec c LF) as [->|]; [reflexivity|discriminate].
Qed.

Lemma follows_value_span (rest : string) :
  follows_value rest = true -> span_digits rest = (EmptyString, rest).
Proof.
  destruct rest as [|c rest]; [reflexivity|]. cbn.
  destruct (Ascii.eqb_spec c ",") as [->|]; [reflexivity|].
  destruct (Ascii.eqb_spec c LF) as [->|]; [reflexivity|discriminate].
Qed.

Lemma span_digits_app (ds rest : string) :
  digits_only ds = true -> follows_value rest = true ->
  span_digits (ds ++ rest) = (ds, rest).
Proof.
  intros Hd Hr. induction ds as [|c ds IH]; cbn [append].
  - now apply follows_value_span.
  - cbn [digits_only] in Hd. apply andb_prop in Hd as [Hc Hd].
    cbn [span_digits]. rewrite Hc, (IH Hd). reflexivity.
Qed.

(** A numeral that [unorm] leaves alone does not start with a zero, the
    numeral zero apart. *)
Lemma nzhead_head (d : Decimal.uint) :
  match Decimal.nzhead d with Decimal.D0 _ => False | _ => True end.
Proof. induction d; cbn; auto. Qed.

Lemma to_uint_unorm (p : positive) : Pos.to_uint p = Decimal.unorm (Pos.to_uint p).
Proof.
  rewrite <- (DecimalPos.Unsigned.to_of (Pos.to_uint p)).
  now rewrite DecimalPos.Unsigned.of_to.
Qed.

Lemma to_uint_head (p : positive) :
  match Pos.to_uint p with Decimal.D0 _ | Decimal.Nil => False | _ => True end.
Proof.
  pose proof (DecimalPos.Unsigned.to_uint_nonzero p) as Hz.
  pose proof (to_uint_unorm p) as Hu.
  pose proof (nzhead_head (Pos.to_uint p)) as Hh.
  unfold Decimal.unorm in Hu. destruct (Decimal.nzhead (Pos.to_uint p)) eqn:E.
  - exfalso. apply Hz. exact Hu.
  - contradiction.
  - rewrite Hu. exact I.
  - rewrite Hu. exact I.
  - rewrite Hu. exact I.
  - rewrite Hu. exact I.
  - rewrite Hu. exact I.
  - rewrite Hu. exact I.
  - rewrite Hu. exact I.
  - rewrite Hu. exact I.
  - rewrite Hu. exact I.
Qed.

(** The numeral of a positive number: a digit from 1 to 9, then digits. *)
Lemma pos_numeral (p : positive) :
  exists c ds,
    NilZero.string_of_uint (Pos.to_uint p) = String c ds
    /\ is_digit c = true /\ Ascii.eqb c "0" = false /\ digits_only ds = true.
Proof.
  pose proof (to_uint_head p) as H.
  pose proof (digits_only_uint (Pos.to_uint p)) as Hd.
  destruct (Pos.to_uint p) eqn:E; try contradiction;
    cbn [NilZero.string_of_uint NilEmpty.string_of_uint] in *;
    eexists _, _; (split; [reflexivity|]); repeat split; exact Hd.
Qed.

Lemma match_integer_positive (p : positive) (sign rest : string) :
  follows_value rest = true ->
  (let '(sg, body) := (sign, NilZero.string_of_uint (Pos.to_uint p) ++ rest) in
   match body with
   | String c r =>
       if Ascii.eqb c "0" then Some (sg ++ "0", r)
       else if is_digit c then let (d, rest') := span_digits body in Some (sg ++ d, rest')
       else None
   | EmptyString => None
   end) = Some (sign ++ NilZero.string_of_uint (Pos.to_uint p), rest).
Proof.
  intros Hr. destruct (pos_numeral p) as (c & ds & E & Hc & Hz & Hd). rewrite E.
  cbn [append]. rewrite Hz, Hc.
  change (String c (ds ++ rest)) with (String c ds ++ rest).
  rewrite span_digits_app; [reflexivity| |exact Hr].
  cbn [digits_only]. now rewrite Hc, Hd.
Qed.

Lemma match_integer_str_int (z : Z) (rest : string) :
  follows_value rest = true ->
  match_integer (str_int z ++ rest) = Some (str_int z, rest).
Proof.
  intros Hr. unfold str_int. destruct z as [|p|p].
  - reflexivity.
  - cbn [Z.to_int NilZero.string_of_int]. unfold match_integer.
    destruct (pos_numeral p) as (c & ds & E & Hc & Hz & Hd).
    pose proof (match_integer_positive p "" rest Hr) as H. cbn beta iota zeta in H.
    rewrite E in *. cbn [append] in *.
    destruct (Ascii.eqb_spec c "-") as [->|]; [discriminate Hc|]. exact H.
  - cbn [Z.to_int NilZero.string_of_int]. unfold match_integer. cbn [append].
    change (Ascii.eqb "-" "-") with true. cbv iota.
    exact (match_integer_positive p "-" rest Hr).
Qed.

Lemma int_of_str_int (z : Z) :
  option_map Z.of_int (NilZero.int_of_string (str_int z)) = Some z.
Proof.
  unfold str_int. rewrite NilZero.isi.
  - cbn. now rewrite DecimalZ.of_to.
  - destruct z; cbn; try discriminate.
    intros [= H]. now apply (DecimalPos.Unsigned.to_uint_nonnil p).
  - destruct z; cbn; try discriminate.
    intros [= H]. now apply (DecimalPos.Unsigned.to_uint_nonnil p).
Qed.

(** The first character of a numeral: a digit or the minus sign. *)
Lemma str_int_head (z : Z) :
  exists c t, str_int z = String c t /\ (is_digit c || Ascii.eqb c "-") = true.
Proof.
  unfold str_int. destruct z as [|p|p].
  - now exists "0"%char, "".
  - cbn [Z.to_int NilZero.string_of_int].
    destruct (pos_numeral p) as (c & ds & E & Hc & _). rewrite E.
    exists c, ds. now rewrite Hc.
  - cbn [Z.to_int NilZero.string_of_int]. now eexists _, _.
Qed.

Lemma scan_once_number_start (f : nat) (c : ascii) (r : string) :
  (is_digit c || Ascii.eqb c "-") = true ->
  scan_once (S f) (String c r)
  = match match_integer (String c r) with
    | Some (integer, rest) =>
        if starts_fraction rest then None
        else match NilZero.int_of_string integer with
             | Some d => Some (PyInt (Z.of_int d), rest)
             | None => None
             end
    | None => None
    end.
Proof.
  destruct c as [[] [] [] [] [] [] [] []]; try discriminate; intros _; reflexivity.
Qed.

Lemma scan_once_int (f : nat) (z : Z) (rest : string) :
  follows_value rest = true ->
  scan_once (S f) (str_int z ++ rest) = Some (PyInt z, rest).
Proof.
  intros Hr. destruct (str_int_head z) as (c & t & E & Hc).
  pose proof (match_integer_str_int z rest Hr) as Hm.
  pose proof (int_of_str_int z) as Hi.
  rewrite E in *. cbn [append] in *.
  rewrite scan_once_number_start by exact Hc.
  rewrite Hm, (follows_value_no_fraction rest Hr).
  destruct (NilZero.int_of_string (String c t)); [|discriminate Hi].
  cbn in Hi. now injection Hi as ->.
Qed.

(** ** Nested values *)

(** Induction on values, with the hypothesis for every item of a list and
    every value of a dict. *)
Lemma pyvalue_induction (P : pyvalue -> Prop) :
  P PyNone ->
  (forall b, P (PyBool b)) ->
  (forall z, P (PyInt z)) ->
  (forall s, P (PyStr s)) ->
  (forall items, Forall P items -> P (PyList items)) ->
  (forall items, Forall (fun kv => P (snd kv)) items -> P (PyDict items)) ->
  forall o, P o.
Proof.
  intros Hnone Hbool Hint Hstr Hlist Hdict.
  fix IH 1. intros [ |b|z|s|items|items].
  - exact Hnone.
  - apply Hbool.
  - apply Hint.
  - apply Hstr.
  - apply Hlist. induction items as [|v items IHitems]; constructor.
    + apply IH.
    + exact IHitems.
  - apply Hdict. induction items as [|[k v] items IHitems]; constructor.
    + apply IH.
    + exact IHitems.
Qed.

Lemma value_size_list (items : list pyvalue) :
  value_size (PyList items) = S (values_size items).
Proof. reflexivity. Qed.

Lemma value_size_dict (items : list (string * pyvalue)) :
  value_size (PyDict items) = S (pairs_size items).
Proof. reflexivity. Qed.

Lemma well_formed_list (items : list pyvalue) :
  well_formed (PyList items) = all_well_formed items.
Proof. reflexivity. Qed.

Lemma well_formed_dict (items : list (string * pyvalue)) :
  well_formed (PyDict items)
  = keys_distinct (map fst items) && all_values_well_formed items.
Proof. reflexivity. Qed.

Lemma iterencode_list (level : nat) (first : pyvalue) (more : list pyvalue) :
  iterencode level (PyList (first :: more))
  = "[" ++ newline_indent (S level) ++ iterencode (S level) first
    ++ encode_more_values level more ++ newline_indent level ++ "]".
Proof.
  cbn [iterencode]. do 4 f_equal.
  induction more as [|v more IH]; [reflexivity|].
  cbn [encode_more_values]. rewrite <- IH. reflexivity.
Qed.

Lemma iterencode_dict (level : nat) (k : string) (first : pyvalue)
    (more : list (string * pyvalue)) :
  iterencode level (PyDict ((k, first) :: more))
  = "{" ++ newline_indent (S level) ++ encode_basestring_ascii k ++ ": "
    ++ iterencode (S level) first
    ++ encode_more_pairs level more ++ newline_indent level ++ "}".
Proof.
  cbn [iterencode]. do 6 f_equal.
  induction more as [|[k' v] more IH]; [reflexivity|].
  cbn [encode_more_pairs]. rewrite <- IH. reflexivity.
Qed.

Lemma value_start_not_ws (c : ascii) :
  value_start c = true ->
  is_ws c = false /\ Ascii.eqb c "]" = false /\ Ascii.eqb c "}" = false.
Proof.
  destruct c as [[] [] [] [] [] [] [] []]; try discriminate; intros _; repeat split.
Qed.

Lemma iterencode_head (level : nat) (o : pyvalue) :
  exists c t, iterencode level o = String c t /\ value_start c = true.
Proof.
  destruct o as [ |[|]|z|s|[|first more]|[|[k first] more]];
    try (eexists _, _; split; [reflexivity|reflexivity]).
  destruct (str_int_head z) as (c & t & E & Hc). exists c, t. split; [exact E|].
  unfold value_start. apply orb_prop in Hc as [Hc|Hc]; rewrite Hc.
  - reflexivity.
  - now rewrite orb_true_r.
Qed.

Lemma skip_ws_spaces (n : nat) (c : ascii) (t : string) :
  is_ws c = false -> skip_ws (spaces n ++ String c t) = String c t.
Proof.
  intros Hc. induction n as [|n IH]; cbn [spaces append skip_ws].
  - now rewrite Hc.
  - exact IH.
Qed.

Lemma skip_ws_newline_indent (level : nat) (c : ascii) (t : string) :
  is_ws c = false -> skip_ws (newline_indent level ++ String c t) = String c t.
Proof.
  intros Hc. unfold newline_indent. cbn [append skip_ws].
  change (is_ws LF) with true. cbv iota. now apply skip_ws_spaces.
Qed.

Lemma skip_ws_keep (c : ascii) (t : string) :
  is_ws c = false -> skip_ws (String c t) = String c t.
Proof. intros Hc. cbn [skip_ws]. now rewrite Hc. Qed.

Lemma skip_ws_before_value (level : nat) (o : pyvalue) (rest : string) :
  skip_ws (newline_indent level ++ iterencode level o ++ rest)
  = iterencode level o ++ rest.
Proof.
  destruct (iterencode_head level o) as (c & t & E & Hc). rewrite E.
  apply skip_ws_newline_indent. now apply value_start_not_ws.
Qed.

(** ** Dicts *)

Lemma keys_distinct_NoDup (l : list string) : keys_distinct l = true -> NoDup l.
Proof.
  induction l as [|k l IH]; cbn; [constructor|].
  intros H. apply andb_prop in H as [Hk Hl]. constructor; [|now apply IH].
  intros Hin. apply negb_true_iff in Hk.
  assert (existsb (String.eqb k) l = true).
  { apply existsb_exists. exists k. split; [exact Hin|apply String.eqb_refl]. }
  congruence.
Qed.

Lemma dict_set_fresh {V : Type} (k : string) (v : V) (d : list (string * V)) :
  ~ In k (map fst d) -> dict_set k v d = (d ++ [(k, v)])%list.
Proof.
  induction d as [|[k' v'] d IH]; cbn; [reflexivity|].
  intros H. destruct (String.eqb_spec k' k) as [->|Hk].
  - exfalso. apply H. now left.
  - rewrite IH; [reflexivity|]. intros Hin. apply H. now right.
Qed.

Lemma dict_of_pairs_acc {V : Type} (pairs acc : list (string * V)) :
  NoDup (map fst (acc ++ pairs)%list) ->
  fold_left (fun d kv => dict_set (fst kv) (snd kv) d) pairs acc = (acc ++ pairs)%list.
Proof.
  revert acc. induction pairs as [|[k v] pairs IH]; intros acc H; cbn [fold_left].
  - now rewrite List.app_nil_r.
  - cbn [fst snd]. rewrite dict_set_fresh.
    + rewrite IH; rewrite <- List.app_assoc; [reflexivity|exact H].
    + rewrite map_app in H. cbn [map fst] in H. apply NoDup_remove_2 in H.
      intros Hin. apply H. apply in_or_app. now left.
Qed.

Lemma dict_of_pairs_distinct {V : Type} (pairs : list (string * V)) :
  keys_distinct (map fst pairs) = true -> dict_of_pairs pairs = pairs.
Proof.
  intros H. unfold dict_of_pairs. rewrite dict_of_pairs_acc; [reflexivity|].
  cbn [app]. now apply keys_distinct_NoDup.
Qed.

(** ** Fuel *)

Lemma value_size_le_length (o : pyvalue) :
  forall level, (value_size o <= String.length (iterencode level o))%nat.
Proof.
  induction o as [ |b|z|s|items IH|items IH] using pyvalue_induction; intros level.
  - cbn. lia.
  - destruct b; cbn; lia.
  - destruct (str_int_head z) as (c & t & E & _). cbn [iterencode value_size].
    rewrite E. cbn. lia.
  - cbn. lia.
  - destruct items as [|first more]; [cbn; lia|].
    rewrite iterencode_list, value_size_list. cbn [values_size].
    inversion IH as [|? ? Hfirst Hmore]; subst.
    assert (Hm : (values_size more <= String.length (encode_more_values level more))%nat).
    { clear Hfirst IH. induction Hmore as [|v more Hv _ IHm]; [cbn; lia|].
      cbn [values_size encode_more_values]. rewrite !length_app.
      specialize (Hv (S level)). cbn [String.length newline_indent]. cbn. lia. }
    specialize (Hfirst (S level)). rewrite !length_app. cbn [String.length newline_indent].
    cbn. lia.
  - destruct items as [|[k first] more]; [cbn; lia|].
    rewrite iterencode_dict, value_size_dict. cbn [pairs_size].
    inversion IH as [|? ? Hfirst Hmore]; subst. cbn [snd] in Hfirst.
    assert (Hm : (pairs_size more <= String.length (encode_more_pairs level more))%nat).
    { clear Hfirst IH. induction Hmore as [|[k' v] more Hv _ IHm]; [cbn; lia|].
      cbn [pairs_size encode_more_pairs]. rewrite !length_app.
      cbn [snd] in Hv. specialize (Hv (S level)). cbn [String.length newline_indent].
      cbn. lia. }
    specialize (Hfirst (S level)). rewrite !length_app. cbn [String.length newline_indent].
    cbn. lia.
Qed.

Lemma follows_newline (level : nat) (rest : string) :
  follows_value (newline_indent level ++ rest) = true.
Proof. reflexivity. Qed.

Lemma follows_more_values (level : nat) (more : list pyvalue) (rest : string) :
  follows_value (encode_more_values level more ++ newline_indent level ++ rest) = true.
Proof. destruct more; reflexivity. Qed.

Lemma follows_more_pairs (level : nat) (more : list (string * pyvalue)) (rest : string) :
  follows_value (encode_more_pairs level more ++ newline_indent level ++ rest) = true.
Proof. destruct more as [|[k v] more]; reflexivity. Qed.

Lemma skip_ws_close (level : nat) (c : ascii) (rest : string) :
  is_ws c = false ->
  skip_ws (newline_indent level ++ String c rest) = String c rest.
Proof. apply skip_ws_newline_indent. Qed.

Lemma parse_values_encoded (more : list pyvalue) :
  Forall scans_back more ->
  forall (first : pyvalue) (level fuel : nat) (rest : string),
    scans_back first ->
    well_formed first = true ->
    all_well_formed more = true ->
    (values_size (first :: more) <= fuel)%nat ->
    parse_values fuel
      (iterencode (S level) first
       ++ encode_more_values level more ++ newline_indent level ++ String "]" rest)
    = Some (first :: more, rest).
Proof.
  induction 1 as [|second more Hsecond Hmore IH];
    intros first level fuel rest Hfirst Wfirst Wmore Hfuel.
  - destruct fuel as [|f]; [cbn in Hfuel; lia|]. cbn [values_size] in Hfuel.
    cbn [parse_values encode_more_values append].
    rewrite (Hfirst Wfirst (S level) f _ ltac:(lia) (follows_newline _ _)).
    rewrite skip_ws_close by reflexivity. reflexivity.
  - destruct fuel as [|f]; [cbn in Hfuel; lia|]. cbn [values_size] in Hfuel.
    cbn [all_well_formed] in Wmore. apply andb_prop in Wmore as [Wsecond Wmore].
    cbn [parse_values].
    rewrite (Hfirst Wfirst (S level) f _ ltac:(lia) (follows_more_values _ _ _)).
    cbn [encode_more_values]. rewrite !append_assoc.
    change ("," ++ ?t) with (String "," t).
    rewrite skip_ws_keep by reflexivity.
    change (Ascii.eqb "," "]") with false. change (Ascii.eqb "," ",") with true.
    cbv iota. rewrite skip_ws_before_value.
    rewrite (IH second level f rest Hsecond Wsecond Wmore); [reflexivity|].
    cbn [values_size]. lia.
Qed.

Lemma skip_ws_space (t : string) : skip_ws (String " " t) = skip_ws t.
Proof. reflexivity. Qed.

Lemma parse_pairs_encoded (more : list (string * pyvalue)) :
  Forall (fun kv => scans_back (snd kv)) more ->
  forall (k : string) (first : pyvalue) (level fuel : nat) (rest : string),
    scans_back first ->
    well_formed first = true ->
    all_values_well_formed more = true ->
    (pairs_size ((k, first) :: more) <= fuel)%nat ->
    parse_pairs fuel
      (escape_string k
       ++ String DQUOTE (": " ++ iterencode (S level) first
                         ++ encode_more_pairs level more ++ newline_indent level
                         ++ String "}" rest))
    = Some ((k, first) :: more, rest).
Proof.
  induction 1 as [|[k2 second] more Hsecond Hmore IH];
    intros k first level fuel rest Hfirst Wfirst Wmore Hfuel.
  - destruct fuel as [|f]; [cbn in Hfuel; lia|]. cbn [pairs_size] in Hfuel.
    cbn [parse_pairs]. rewrite scanstring_escape_string.
    cbn [append]. rewrite skip_ws_keep by reflexivity.
    change (Ascii.eqb ":" ":") with true. cbv iota.
    rewrite skip_ws_space.
    destruct (iterencode_head (S level) first) as (c & t & E & Hc).
    apply value_start_not_ws in Hc as (Hws & _ & _).
    assert (Hskip : forall tail, skip_ws (iterencode (S level) first ++ tail)
                                 = iterencode (S level) first ++ tail).
    { intros tail. rewrite E. cbn [append]. now apply skip_ws_keep. }
    rewrite Hskip. cbn [encode_more_pairs append].
    rewrite (Hfirst Wfirst (S level) f _ ltac:(lia) (follows_newline _ _)).
    rewrite skip_ws_close by reflexivity. reflexivity.
  - destruct fuel as [|f]; [cbn in Hfuel; lia|]. cbn [pairs_size] in Hfuel.
    cbn [all_values_well_formed] in Wmore. apply andb_prop in Wmore as [Wsecond Wmore].
    cbn [snd] in Hsecond.
    cbn [parse_pairs]. rewrite scanstring_escape_string.
    cbn [append]. rewrite skip_ws_keep by reflexivity.
    change (Ascii.eqb ":" ":") with true. cbv iota.
    rewrite skip_ws_space.
    destruct (iterencode_head (S level) first) as (c & t & E & Hc).
    apply value_start_not_ws in Hc as (Hws & _ & _).
    assert (Hskip : forall tail, skip_ws (iterencode (S level) first ++ tail)
                                 = iterencode (S level) first ++ tail).
    { intros tail. rewrite E. cbn [append]. now apply skip_ws_keep. }
    rewrite Hskip.
    rewrite (Hfirst Wfirst (S level) f _ ltac:(lia) (follows_more_pairs _ _ _)).
    cbn [encode_more_pairs]. rewrite !append_assoc.
    change ("," ++ ?t) with (String "," t).
    rewrite skip_ws_keep by reflexivity.
    change (Ascii.eqb "," "}") with false. change (Ascii.eqb "," ",") with true.
    cbv iota.
    unfold encode_basestring_ascii. cbn [append].
    rewrite skip_ws_close by reflexivity.
    change (Ascii.eqb DQUOTE DQUOTE) with true. cbv iota.
    rewrite !append_assoc. cbn [append].
    pose proof (IH k2 second level f rest Hsecond Wsecond Wmore
                  ltac:(cbn [pairs_size]; lia)) as Hnext.
    cbn [append] in Hnext. rewrite Hnext. reflexivity.
Qed.

Lemma scan_once_encoded (o : pyvalue) : scans_back o.
Proof.
  induction o as [ |b|z|s|items IH|items IH] using pyvalue_induction;
    intros Wf level fuel rest Hfuel Hrest;
    (destruct fuel as [|f]; [cbn in Hfuel; lia|]).
  - destruct rest; reflexivity.
  - destruct b, rest; reflexivity.
  - now apply scan_once_int.
  - cbn [iterencode]. unfold encode_basestring_ascii. cbn [append scan_once].
    change (Ascii.eqb DQUOTE DQUOTE) with true. cbv iota.
    rewrite append_assoc. cbn [append]. now rewrite scanstring_escape_string.
  - destruct items as [|first more]; [reflexivity|].
    rewrite iterencode_list. rewrite value_size_list in Hfuel.
    rewrite well_formed_list in Wf. cbn [all_well_formed] in Wf.
    apply andb_prop in Wf as [Wfirst Wmore].
    inversion IH as [|? ? Hfirst Hmore]; subst.
    cbn [append scan_once]. change (Ascii.eqb "[" DQUOTE) with false.
    change (Ascii.eqb "[" "{") with false. change (Ascii.eqb "[" "[") with true.
    cbv iota. rewrite !append_assoc. rewrite skip_ws_before_value.
    destruct (iterencode_head (S level) first) as (c & t & E & Hc).
    apply value_start_not_ws in Hc as (_ & Hclose & _).
    pose proof (parse_values_encoded more Hmore first level f rest Hfirst Wfirst Wmore
                  ltac:(lia)) as Hparse.
    cbn [append] in Hparse. rewrite E in *. cbn [append] in *.
    rewrite Hclose, Hparse. reflexivity.
  - destruct items as [|[k first] more]; [reflexivity|].
    rewrite iterencode_dict. rewrite value_size_dict in Hfuel.
    rewrite well_formed_dict in Wf. apply andb_prop in Wf as [Wkeys Wf].
    cbn [all_values_well_formed] in Wf. apply andb_prop in Wf as [Wfirst Wmore].
    inversion IH as [|? ? Hfirst Hmore]; subst. cbn [snd] in Hfirst.
    cbn [append scan_once]. change (Ascii.eqb "{" DQUOTE) with false.
    change (Ascii.eqb "{" "{") with true. cbv iota.
    unfold encode_basestring_ascii. rewrite !append_assoc. cbn [append].
    rewrite skip_ws_close by reflexivity.
    change (Ascii.eqb DQUOTE "}") with false.
    change (Ascii.eqb DQUOTE DQUOTE) with true. cbv iota.
    pose proof (parse_pairs_encoded more Hmore k first level f rest Hfirst Wfirst Wmore
                  ltac:(lia)) as Hparse.
    rewrite !append_assoc. cbn [append] in *. rewrite Hparse.
    now rewrite dict_of_pairs_distinct.
Qed.













(* ===================================================================== *)
(** * [upload_to_s3]: outcomes and content types *)
(* ===================================================================== *)

Lemma endswith_suffix (a s : string) :
  endswith a s = true -> exists p, s = p ++ a.
Proof.
  induction s as [|c s IH]; cbn [endswith].
  - destruct (String.eqb_spec a "") as [->|]; [now exists ""|discriminate].
  - destruct (String.eqb_spec a (String c s)) as [->|_]; [now exists ""|].
    intros H. destruct (IH H) as [p ->]. now exists (String c p).
Qed.

Lemma endswith_app (r a : string) : endswith a (r ++ a) = true.
Proof.
  induction r as [|c r IH]; cbn [append].
  - destruct a; cbn [endswith]; now rewrite String.eqb_refl.
  - cbn [endswith]. rewrite IH. now destruct (String.eqb a (String c (r ++ a))).
Qed.

Lemma append_suffix_split (p q a b : string) :
  p ++ a = q ++ b -> (String.length a <= String.length b)%nat -> exists r, b = r ++ a.
Proof.
  revert p. induction q as [|d q IH]; intros p E L.
  - exists p. now rewrite E.
  - destruct p as [|c p].
    + exfalso. cbn [append] in E. rewrite E in L. cbn [String.length] in L.
      rewrite length_app in L. lia.
    + cbn [append] in E. injection E as _ E. now apply (IH p).
Qed.

(** Of two endings of a string the shorter is an ending of the longer. *)
Lemma endswith_both (a b s : string) :
  endswith a s = true -> endswith b s = true ->
  (String.length a <= String.length b)%nat -> endswith a b = true.
Proof.
  intros Ha Hb L.
  apply endswith_suffix in Ha as [p Ep]. apply endswith_suffix in Hb as [q Eq].
  destruct (append_suffix_split p q a b) as [r ->]; [congruence|exact L|].
  apply endswith_app.
Qed.

Lemma endswith_exclusive (a b s : string) :
  (String.length a <= String.length b)%nat -> endswith a b = false ->
  endswith a s = true -> endswith b s = false.
Proof.
  intros L Hab Ha. destruct (endswith b s) eqn:Hb; [|reflexivity].
  rewrite (endswith_both a b s Ha Hb L) in Hab. discriminate Hab.
Qed.


(** X4: the content type of the object a successful [upload_to_s3] has put.
    A non-empty content type given by the caller is stored as it is.  With
    none given ([None] or the empty string) it follows from the end of the
    key: [application/pdf] for [.pdf], [text/csv] for [.csv],
    [application/json] for [.json]. *)
Theorem upload_to_s3_content_type (body : content) (bucket key : string) (sess : Session)
    (content_type : option string) (w w' : world) (location : string) :
  upload_to_s3 body bucket key sess content_type w = (Ok (Some location), w') ->
  exists stored_type,
    s3_puts w' = mkObject bucket key body (Some stored_type) :: s3_puts w
    /\ (forall c, content_type = Some c -> c <> "" -> stored_type = c)
    /\ (content_type = None \/ content_type = Some "" ->
        (endswith ".pdf" key = true -> stored_type = "application/pdf")
        /\ (endswith ".csv" key = true -> stored_type = "text/csv")
        /\ (endswith ".json" key = true -> stored_type = "application/json")).
Proof.
  intros H.
  assert (Hpc : endswith ".pdf" key = true -> endswith ".csv" key = false)
    by (apply endswith_exclusive; [cbn; lia|reflexivity]).
  assert (Hpj : endswith ".pdf" key = true -> endswith ".json" key = false)
    by (apply endswith_exclusive; [cbn; lia|reflexivity]).
  assert (Hcj : endswith ".csv" key = true -> endswith ".json" key = false)
    by (apply endswith_exclusive; [cbn; lia|reflexivity]).
  unfold upload_to_s3, if_truthy, try_except, bind, session_client, put_object, ret,
         console_print in H.
  destruct (faults w (Sys_client sess)) as [e|].
  { cbn [dispatch] in H. unfold bind, console_print, ret in H.
    destruct (isinstance e ClientError); [|rewrite isinstance_Exception in H];
      discriminate H. }
  destruct content_type as [c|]; [destruct (String.eqb_spec c "") as [->|Hc]|];
    destruct (endswith ".pdf" key) eqn:Epdf; destruct (endswith ".csv" key) eqn:Ecsv;
    destruct (endswith ".json" key) eqn:Ejson;
    try (specialize (Hpc eq_refl); discriminate Hpc);
    try (specialize (Hpj eq_refl); discriminate Hpj);
    try (specialize (Hcj eq_refl); discriminate Hcj);
    try (destruct (faults w (Sys_put_object bucket key)) as [e|]);
    cbn [dispatch] in H; unfold bind, console_print, ret in H;
    try (destruct (isinstance e ClientError); [|rewrite isinstance_Exception in H]);
    try discriminate H;
    injection H as <- <-; eexists; (split; [reflexivity|]);
    (split; [intros c' [= <-] Hne; try reflexivity; try now elim Hne
            |intros [Hn|Hn]; try discriminate Hn;
             try (injection Hn as ->; now elim Hc);
             repeat split; intros; try discriminate; reflexivity]).
Qed.

Lemma upload_to_s3_content_type_witness :
  exists stored_type,
    s3_puts (snd (upload_to_s3 (Text "profile,cost") "finops-reports" "audits/report.csv"
                               example_session None example_world))
    = mkObject "finops-reports" "audits/report.csv" (Text "profile,cost") (Some stored_type)
      :: s3_puts example_world
    /\ (forall c, @None string = Some c -> c <> "" -> stored_type = c)
    /\ (@None string = None \/ @None string = Some "" ->
        (endswith ".pdf" "audits/report.csv" = true -> stored_type = "application/pdf")
        /\ (endswith ".csv" "audits/report.csv" = true -> stored_type = "text/csv")
        /\ (endswith ".json" "audits/report.csv" = true -> stored_type = "application/json")).
Proof.
  apply (upload_to_s3_content_type (Text "profile,cost") "finops-reports"
           "audits/report.csv" example_session None example_world _
           "s3://finops-reports/audits/report.csv").
  vm_compute. reflexivity.
Defined.


(* ===================================================================== *)
(** * The export functions: what is stored, written and printed *)
(* ===================================================================== *)

(** The whole of [upload_to_s3], by what the environment lets through. *)
Lemma upload_to_s3_eval (body : content) (bucket key : string) (sess : Session)
    (content_type : string) (w : world) :
  content_type <> "" ->
  upload_to_s3 body bucket key sess (Some content_type) w
  = match faults w (Sys_client sess) with
    | Some e => (Ok None, add_console (upload_error e) w)
    | None =>
        match faults w (Sys_put_object bucket key) with
        | Some e => (Ok None, add_console (upload_error e) w)
        | None => (Ok (Some ("s3://" ++ bucket ++ "/" ++ key)),
                   add_put (mkObject bucket key body (Some content_type)) w)
        end
    end.
Proof.
  intros Hct. unfold upload_to_s3, if_truthy, upload_error.
  apply String.eqb_neq in Hct. rewrite Hct.
  unfold try_except, bind, ret, raise, console_print, session_client, put_object.
  destruct (faults w (Sys_client sess)) as [e|].
  - cbn [dispatch]. unfold bind, console_print, ret.
    destruct (isinstance e ClientError); [reflexivity|].
    now rewrite isinstance_Exception.
  - destruct (faults w (Sys_put_object bucket key)) as [e|]; [|reflexivity].
    cbn [dispatch]. unfold bind, console_print, ret.
    destruct (isinstance e ClientError); [reflexivity|].
    now rewrite isinstance_Exception.
Qed.

Section MoreExports.
Variable split_to_items : string -> list string.
Variable formatServicesForList : list (string * pyfloat) -> list string.

Ltac remote_eval H :=
  cbv zeta in H;
  match type of H with
  | context [upload_to_s3 ?b ?bk ?k ?s (Some ?c) ?w] =>
      rewrite (upload_to_s3_eval b bk k s c w ltac:(discriminate)) in H
  end.

(** The whole of a remote export, by what the environment lets through. *)
Lemma run_export_remote_eval (call : export_call) (path : option string)
    (bucket : string) (prefix : option string) (sess : Session) (w : world) :
  bucket <> "" ->
  let key := s3_key_of prefix (base_filename_of call (clock w)) in
  run_export split_to_items formatServicesForList call path (Some bucket) prefix (Some sess) w
  = match export_body split_to_items formatServicesForList call (clock w) with
    | Raise e => (Ok None, add_console (export_error call e) w)
    | Ok body =>
        match build_fault w BytesIO body with
        | Some e => (Ok None, add_console (export_error call e) w)
        | None =>
            match faults w (Sys_client sess) with
            | Some e => (Ok None, add_console (upload_error e) w)
            | None =>
                match faults w (Sys_put_object bucket key) with
                | Some e => (Ok None, add_console (upload_error e) w)
                | None =>
                    (Ok (Some ("s3://" ++ bucket ++ "/" ++ key)),
                     add_console ("[bright_green]Successfully exported to S3: "
                                  ++ ("s3://" ++ bucket ++ "/" ++ key) ++ "[/]")
                       (add_put (mkObject bucket key body
                                          (Some (export_content_type call))) w))
                end
            end
        end
    end.
Proof.
  intros Hb key. subst key.
  remember (run_export split_to_items formatServicesForList call path (Some bucket) prefix
              (Some sess) w) as outcome eqn:Ho.
  destruct call;
    cbn [run_export base_filename_of export_body export_content_type build_fault] in *;
    unfold export_audit_report_to_pdf, export_audit_report_to_csv,
           export_audit_report_to_json, export_trend_data_to_json,
           export_cost_dashboard_to_pdf in Ho;
    rewrite !(s3_destination_some _ _ Hb) in Ho;
    unfold try_except, bind, datetime_now, lift, ret, raise, doc_build in Ho;
    try (destruct (audit_report_elements split_to_items audit_data_list (clock w))
           as [els|e]);
    cbn [build_fault];
    try match type of Ho with
        | context [faults w (Sys_build ?t ?els)] => destruct (faults w (Sys_build t els))
        end;
    try (cbn [dispatch] in Ho; rewrite isinstance_Exception in Ho;
         unfold bind, console_print, ret in Ho; subst outcome; reflexivity);
    remote_eval Ho; unfold s3_key_of; subst outcome;
    (destruct (faults w (Sys_client sess)); [reflexivity|]);
    destruct (faults w (Sys_put_object _ _)); reflexivity.
Qed.

(** X5: a remote export that returns a location has done two things and
    nothing else: it has put one object, whose body is the serialized
    report (the CSV text, the JSON text or the PDF document of the call) and
    whose content type is the one of the format, under the key computed from
    the prefix and the file name; and it has printed the one line
    "Successfully exported to S3:" with the location it returns. *)
Theorem remote_export_stores_report (call : export_call) (path : option string)
    (bucket : string) (prefix : option string) (sess : Session) (w w' : world)
    (location : string) :
  bucket <> "" ->
  run_export split_to_items formatServicesForList call path (Some bucket) prefix (Some sess) w
  = (Ok (Some location), w') ->
  let f := base_filename_of call (clock w) in
  let key := lstrip_slash (match prefix with
                           | Some p => p ++ "/" ++ f
                           | None => f
                           end) in
  exists body,
    export_body split_to_items formatServicesForList call (clock w) = Ok body
    /\ w' = add_console ("[bright_green]Successfully exported to S3: " ++ location ++ "[/]")
              (add_put (mkObject bucket key body (Some (export_content_type call))) w).
Proof.
  intros Hb H f key. subst f key. rewrite <- s3_key_of_prefix.
  rewrite (run_export_remote_eval call path bucket prefix sess w Hb) in H.
  destruct (export_body split_to_items formatServicesForList call (clock w)) as [body|e];
    [|discriminate H].
  destruct (build_fault w BytesIO body); [discriminate H|].
  destruct (faults w (Sys_client sess)); [discriminate H|].
  destruct (faults w (Sys_put_object _ _)); [discriminate H|].
  injection H as <- <-. now exists body.
Qed.



(** A local export of text, by what [write_local] does. *)
Lemma run_export_local_text_eval (call : export_call) (path bucket prefix : option string)
    (session : option Session) (w : world) (data : string) :
  s3_destination bucket session = None ->
  export_body split_to_items formatServicesForList call (clock w) = Ok (Text data) ->
  run_export split_to_items formatServicesForList call path bucket prefix session w
  = match write_local path (base_filename_of call (clock w)) data w with
    | (Ok r, w1) => (Ok r, w1)
    | (Raise e, w1) => (Ok None, add_console (export_error call e) w1)
    end.
Proof.
  intros Hlocal Hbody.
  destruct call; cbn [run_export base_filename_of export_body] in *;
    [destruct (audit_report_elements split_to_items audit_data_list (clock w));
     discriminate Hbody| | | |discriminate Hbody];
    injection Hbody as <-;
    unfold export_audit_report_to_csv, export_audit_report_to_json,
           export_trend_data_to_json;
    rewrite Hlocal; unfold try_except;
    match goal with
    | |- context [bind datetime_now ?k w] =>
        change (bind datetime_now k w) with (k (clock w) w)
    end;
    cbv beta zeta;
    match goal with
    | |- match ?c w with _ => _ end = match ?d w with _ => _ end => change c with d
    end;
    destruct (write_local _ _ _ w) as [[r|e] w1]; try reflexivity;
    cbn [dispatch]; rewrite isinstance_Exception; reflexivity.
Qed.

(** Without a directory the file goes where the name says, and no
    directory is made. *)
Lemma write_local_no_directory (path : option string) (base_filename data : string)
    (w w' : world) (r : option string) :
  path = None \/ path = Some "" ->
  write_local path base_filename data w = (Ok r, w') ->
  r = Some base_filename
  /\ fs_dirs w' = fs_dirs w
  /\ file_find (abspath (fs_cwd w) base_filename) (fs_files w') = Some (Text data).
Proof.
  intros Hp H. unfold write_local in H.
  assert (E : if_truthy path
                (fun dir => bind (os_makedirs dir) (fun _ => ret (path_join dir base_filename)))
                (ret base_filename) = ret base_filename)
    by (destruct Hp as [->| ->]; reflexivity).
  rewrite E in H. unfold bind, ret, write_file in H.
  run_cases H; try discriminate; injection H as <- <-.
  split; [reflexivity|]. split; [reflexivity|].
  cbn [fs_files set_fs file_find]. now rewrite String.eqb_refl.
Qed.

Lemma write_local_keeps_cwd (path : option string) (base_filename data : string)
    (w w' : world) (r : result (option string)) :
  write_local path base_filename data w = (r, w') -> fs_cwd w' = fs_cwd w.
Proof.
  unfold write_local, if_truthy, bind, ret, write_file, os_makedirs. intros H.
  run_cases H; cbn [fst snd faults set_fs fs_cwd fs_dirs fs_files] in H; run_cases H;
    injection H as <- <-; reflexivity.
Qed.

(** What a successful [write_local] leaves. *)
Lemma write_local_outcome (path : option string) (base_filename data : string)
    (w w' : world) (r : option string) :
  write_local path base_filename data w = (Ok r, w') ->
  let location := if_truthy path (fun dir => path_join dir base_filename) base_filename in
  r = Some location
  /\ file_find (abspath (fs_cwd w) location) (fs_files w') = Some (Text data)
  /\ (forall dir, path = Some dir -> dir <> "" -> is_dir w' (abspath (fs_cwd w) dir) = true)
  /\ (path = None \/ path = Some "" -> fs_dirs w' = fs_dirs w)
  /\ console w' = console w
  /\ s3_puts w' = s3_puts w.
Proof.
  intros E location. subst location.
  destruct (quiet_write_local _ _ _ _ _ _ E) as [[Hc Hs] _].
  assert (Hcases : path = None \/ path = Some "" \/ exists dir, path = Some dir /\ dir <> "").
  { destruct path as [dir|]; [|now left]. right.
    destruct (String.eqb_spec dir "") as [->|Hd]; [now left|right; now exists dir]. }
  destruct Hcases as [Hp|[Hp|(dir & -> & Hd)]].
  - destruct (write_local_no_directory _ _ _ _ _ _ (or_introl Hp) E) as (-> & Hdirs & Hf).
    subst path. repeat split; auto; intros; discriminate.
  - destruct (write_local_no_directory _ _ _ _ _ _ (or_intror Hp) E) as (-> & Hdirs & Hf).
    subst path. repeat split; auto. intros dir [= <-] Hne. now elim Hne.
  - destruct (write_local_creates_directory _ _ _ _ _ _ Hd E) as (-> & Hdir & Hf).
    unfold if_truthy. apply String.eqb_neq in Hd. rewrite Hd.
    repeat split; auto.
    + intros dir' [= <-] _. exact Hdir.
    + intros [Hn|[= ->]]; [discriminate Hn|discriminate Hd].
Qed.

(** X8: a local CSV or JSON export that returns a location has written the
    serialized text, whole, to the file of that location.  The location is
    the file name joined to the directory as given (not made absolute), or
    the bare file name when no directory is given; a directory that is
    given exists afterwards; without one no directory is created; nothing
    is printed and nothing is uploaded. *)
Theorem local_text_export (call : export_call) (path bucket prefix : option string)
    (session : option Session) (w w' : world) (location data : string) :
  s3_destination bucket session = None ->
  export_body split_to_items formatServicesForList call (clock w) = Ok (Text data) ->
  run_export split_to_items formatServicesForList call path bucket prefix session w
  = (Ok (Some location), w') ->
  let f := base_filename_of call (clock w) in
  location = if_truthy path (fun dir => path_join dir f) f
  /\ file_find (abspath (fs_cwd w) location) (fs_files w') = Some (Text data)
  /\ (forall dir, path = Some dir -> dir <> "" -> is_dir w' (abspath (fs_cwd w) dir) = true)
  /\ (path = None \/ path = Some "" -> fs_dirs w' = fs_dirs w)
  /\ console w' = console w
  /\ s3_puts w' = s3_puts w.
Proof.
  intros Hlocal Hbody H f. subst f.
  rewrite (run_export_local_text_eval call path bucket prefix session w data Hlocal Hbody)
    in H.
  destruct (write_local path (base_filename_of call (clock w)) data w) as [[r|e] w1] eqn:E;
    [|discriminate H].
  injection H as -> <-.
  destruct (write_local_outcome _ _ _ _ _ _ E) as ([= <-] & Hrest). exact (conj eq_refl Hrest).
Qed.

(** A file that was written can be read, and holds what was written. *)
Lemma write_file_read_back (mode mode' path : string) (data : content) (w w' : world)
    (u : unit) :
  write_file mode path data w = (Ok u, w') ->
  faults w (Sys_open path mode') = None ->
  read_file mode' path w' = (Ok data, w').
Proof.
  unfold write_file, read_file. intros H Hm.
  destruct (faults w (Sys_open path mode)); [discriminate H|].
  destruct (is_dir w (abspath (fs_cwd w) path)) eqn:Hd; [discriminate H|].
  destruct (is_file w (dirname (abspath (fs_cwd w) path))); [discriminate H|].
  destruct (negb (is_dir w (dirname (abspath (fs_cwd w) path)))); [discriminate H|].
  injection H as _ <-. cbn [faults fs_cwd set_fs]. rewrite Hm.
  unfold is_dir in *. cbn [fs_dirs fs_files set_fs file_find]. rewrite Hd.
  now rewrite String.eqb_refl.
Qed.

Lemma os_makedirs_keeps (dir : string) (w w' : world) (r : result unit) :
  os_makedirs dir w = (r, w') ->
  faults w' = faults w /\ fs_cwd w' = fs_cwd w /\ fs_files w' = fs_files w.
Proof.
  unfold os_makedirs. intros H.
  repeat match type of H with
         | context [match ?x with _ => _ end] => destruct x
         | context [if ?x then _ else _] => destruct x
         end; injection H as <- <-; repeat split.
Qed.

Lemma write_local_read_back (mode' : string) (path : option string)
    (base_filename data location : string) (w w' : world) :
  write_local path base_filename data w = (Ok (Some location), w') ->
  faults w (Sys_open location mode') = None ->
  read_file mode' location w' = (Ok (Text data), w').
Proof.
  unfold write_local. intros H Hm. unfold bind at 1 in H.
  match type of H with
  | context [if_truthy path ?yes ?no w] =>
      destruct (if_truthy path yes no w) as [[out|e] w1] eqn:E; [|discriminate H]
  end.
  assert (Hw1 : faults w1 = faults w).
  { unfold if_truthy in E. destruct path as [dir|]; [destruct (String.eqb dir "")|];
      try (injection E as _ <-; reflexivity).
    unfold bind in E. destruct (os_makedirs dir w) as [[u|e] w2] eqn:Em; [|discriminate E].
    injection E as _ <-. now destruct (os_makedirs_keeps _ _ _ _ Em). }
  unfold bind in H. destruct (write_file "w" out (Text data) w1) as [[u|e] w2] eqn:Ew;
    [|discriminate H].
  injection H as -> <-. apply (write_file_read_back _ _ _ _ _ _ _ Ew). now rewrite Hw1.
Qed.

(** The decoder reads back what the encoder wrote. *)
Lemma json_loads_dumps (x : pyvalue) :
  well_formed x = true -> json_loads (json_dumps x) = Some x.
Proof.
  intros Wf. unfold json_loads, json_dumps.
  destruct (iterencode_head 0 x) as (c & t & E & Hc).
  apply value_start_not_ws in Hc as (Hws & _ & _).
  assert (Hskip : skip_ws (iterencode 0 x) = iterencode 0 x).
  { rewrite E. now apply skip_ws_keep. }
  rewrite Hskip.
  pose proof (scan_once_encoded x Wf 0 (S (String.length (iterencode 0 x))) ""
                ltac:(pose proof (value_size_le_length x 0); lia) eq_refl) as H.
  rewrite append_empty_r in H. rewrite H. reflexivity.
Qed.

(** X9: the file a local JSON export has written reads back: opening the
    returned location for reading, when that does not fail for an outside
    reason, gives a text that [json.loads] decodes to the value that was
    exported (for well-formed values: the keys of every dict distinct). *)
Theorem json_export_reads_back (call : export_call) (raw : pyvalue) (name : string)
    (path bucket prefix : option string) (session : option Session) (w w' : world)
    (location : string) :
  call = AuditJson raw name \/ call = TrendJson raw name ->
  s3_destination bucket session = None ->
  well_formed raw = true ->
  run_export split_to_items formatServicesForList call path bucket prefix session w
  = (Ok (Some location), w') ->
  faults w (Sys_open location "r") = None ->
  exists text,
    read_file "r" location w' = (Ok (Text text), w')
    /\ json_loads text = Some raw.
Proof.
  intros Hcall Hlocal Wf H Hm.
  assert (Hbody : export_body split_to_items formatServicesForList call (clock w)
                  = Ok (Text (json_dumps raw)))
    by (destruct Hcall as [->| ->]; reflexivity).
  rewrite (run_export_local_text_eval call path bucket prefix session w _ Hlocal Hbody) in H.
  destruct (write_local path (base_filename_of call (clock w)) (json_dumps raw) w)
    as [[r|e] w1] eqn:E; [|discriminate H].
  injection H as -> <-.
  exists (json_dumps raw). split; [|now apply json_loads_dumps].
  exact (write_local_read_back "r" _ _ _ _ _ _ E Hm).
Qed.

(** X10: an empty string is taken for an absent argument, in all five
    export functions: an empty directory is no directory, an empty bucket
    name is no bucket (the export is local even with a session), an empty
    prefix is no prefix. *)
Theorem empty_string_is_absent (call : export_call) (path bucket prefix : option string)
    (session : option Session) :
  run_export split_to_items formatServicesForList call (Some "") bucket prefix session
  = run_export split_to_items formatServicesForList call None bucket prefix session
  /\ run_export split_to_items formatServicesForList call path (Some "") prefix session
     = run_export split_to_items formatServicesForList call path None prefix session
  /\ run_export split_to_items formatServicesForList call path bucket (Some "") session
     = run_export split_to_items formatServicesForList call path bucket None session.
Proof.
  repeat split; destruct call, session; reflexivity.
Qed.

Lemma cost_pdf_location (data : list ProfileData) (filename : string)
    (output_dir : option string) (previous current : string) (bucket prefix : option string)
    (session : option Session) (w w' : world) (location : string) :
  s3_destination bucket session = None ->
  export_cost_dashboard_to_pdf formatServicesForList data filename output_dir previous
    current bucket prefix session w = (Ok (Some location), w') ->
  let f := filename ++ "_" ++ strftime_stamp (clock w) ++ ".pdf" in
  location = abspath (fs_cwd w) (if_truthy output_dir (fun dir => path_join dir f) f).
Proof.
  intros Hlocal H. unfold export_cost_dashboard_to_pdf in H. rewrite !Hlocal in H.
  unfold if_truthy, try_except, bind, datetime_now, ret, raise, doc_build, write_file,
         os_makedirs, console_print in H.
  cbv zeta. unfold if_truthy.
  run_cases H; cbn [fst snd faults set_fs fs_cwd fs_dirs fs_files clock] in H; run_cases H;
    try discriminate; injection H as <- <-; reflexivity.
Qed.

(** X11: a local export of the cost report that returns a location returns
    [os.path.abspath] of the file name joined to the directory, an absolute
    path (the working directory being one); the file at that path holds
    the document of the report; a directory that was given exists
    afterwards; nothing is printed and nothing is uploaded. *)
Theorem cost_pdf_local_export (data : list ProfileData) (filename : string)
    (output_dir : option string) (previous current : string) (bucket prefix : option string)
    (session : option Session) (w w' : world) (location : string) :
  s3_destination bucket session = None ->
  isabs (fs_cwd w) = true ->
  export_cost_dashboard_to_pdf formatServicesForList data filename output_dir previous
    current bucket prefix session w = (Ok (Some location), w') ->
  let f := filename ++ "_" ++ strftime_stamp (clock w) ++ ".pdf" in
  location = abspath (fs_cwd w) (if_truthy output_dir (fun dir => path_join dir f) f)
  /\ isabs location = true
  /\ file_find location (fs_files w')
     = Some (Pdf (cost_report_elements formatServicesForList data previous current (clock w)))
  /\ (forall dir, output_dir = Some dir -> dir <> "" ->
                  is_dir w' (abspath (fs_cwd w) dir) = true)
  /\ console w' = console w
  /\ s3_puts w' = s3_puts w.
Proof.
  intros Hlocal Hcwd H f. subst f.
  split; [exact (cost_pdf_location _ _ _ _ _ _ _ _ _ _ _ Hlocal H)|].
  split; [exact (cost_pdf_location_absolute _ _ _ _ _ _ _ _ _ _ _ _ Hlocal Hcwd H)|].
  split; [exact (cost_pdf_local_document _ _ _ _ _ _ _ _ _ _ _ _ Hlocal H)|].
  split.
  - intros dir -> Hdir.
    exact (cost_pdf_creates_directory _ _ _ _ _ _ _ _ _ _ _ _ Hlocal Hdir H).
  - destruct (run_export_local split_to_items formatServicesForList
                (CostPdf data filename previous current) output_dir bucket prefix session w
                Hlocal) as (r & w1 & E & Hs & Hc).
    cbn [run_export] in E. rewrite H in E. injection E as <- <-.
    split; [|exact Hs]. destruct Hc as [[_ Hc]|[Hn _]]; [exact Hc|discriminate Hn].
Qed.

Lemma audit_pdf_location (rows : list audit_row) (file_name : string)
    (path bucket prefix : option string) (session : option Session) (w w' : world)
    (location : string) :
  s3_destination bucket session = None ->
  export_audit_report_to_pdf split_to_items rows file_name path bucket prefix session w
  = (Ok (Some location), w') ->
  let f := file_name ++ "_" ++ strftime_stamp (clock w) ++ ".pdf" in
  location = abspath (fs_cwd w) (if_truthy path (fun dir => path_join dir f) f)
  /\ exists elements,
       audit_report_elements split_to_items rows (clock w) = Ok elements
       /\ file_find location (fs_files w') = Some (Pdf elements).
Proof.
  intros Hlocal H. unfold export_audit_report_to_pdf in H. rewrite !Hlocal in H.
  unfold if_truthy, try_except, bind, datetime_now, ret, raise, lift, doc_build, write_file,
         console_print in H.
  cbv zeta. unfold if_truthy.
  destruct (audit_report_elements split_to_items rows (clock w)) as [els|e];
    unfold ret, raise in H;
    run_cases H; cbn [fst snd faults set_fs fs_cwd fs_dirs fs_files clock] in H; run_cases H;
    try discriminate; injection H as <- <-;
    (split; [reflexivity|]); exists els; (split; [reflexivity|]);
    cbn [fs_files set_fs file_find fs_cwd]; now rewrite String.eqb_refl.
Qed.

(** X12: a local export of the audit report that returns a location
    returns [os.path.abspath] of the file name joined to the directory, an
    absolute path (the working directory being one), and the file at that
    path holds the document of the report; the set of directories is the
    same as before, since this function never creates one; nothing is
    printed and nothing is uploaded. *)
Theorem audit_pdf_local_export (rows : list audit_row) (file_name : string)
    (path bucket prefix : option string) (session : option Session) (w w' : world)
    (location : string) :
  s3_destination bucket session = None ->
  isabs (fs_cwd w) = true ->
  export_audit_report_to_pdf split_to_items rows file_name path bucket prefix session w
  = (Ok (Some location), w') ->
  let f := file_name ++ "_" ++ strftime_stamp (clock w) ++ ".pdf" in
  location = abspath (fs_cwd w) (if_truthy path (fun dir => path_join dir f) f)
  /\ isabs location = true
  /\ (exists elements,
         audit_report_elements split_to_items rows (clock w) = Ok elements
         /\ file_find location (fs_files w') = Some (Pdf elements))
  /\ fs_dirs w' = fs_dirs w
  /\ console w' = console w
  /\ s3_puts w' = s3_puts w.
Proof.
  intros Hlocal Hcwd H f. subst f.
  destruct (audit_pdf_location _ _ _ _ _ _ _ _ _ Hlocal H) as [Hloc Hdoc].
  split; [exact Hloc|].
  split; [exact (audit_pdf_location_absolute _ _ _ _ _ _ _ _ _ _ Hlocal Hcwd H)|].
  split; [exact Hdoc|].
  split; [exact (audit_pdf_creates_no_directory _ _ _ _ _ _ _ _ _ _ Hlocal H)|].
  destruct (run_export_local split_to_items formatServicesForList
              (AuditPdf rows file_name) path bucket prefix session w Hlocal)
    as (r & w1 & E & Hs & Hc).
  cbn [run_export] in E. rewrite H in E. injection E as <- <-.
  split; [|exact Hs]. destruct Hc as [[_ Hc]|[Hn _]]; [exact Hc|discriminate Hn].
Qed.


(** X14: two local CSV or JSON exports into the same directory under the
    same file name (the same base name within the same minute) return the
    same location, and the file holds the text of the second export: the
    first report is replaced without a diagnostic. *)
Theorem text_export_overwrites (first second : export_call)
    (path bucket prefix : option string) (session : option Session) (w w1 w2 : world)
    (location1 location2 data1 data2 : string) :
  s3_destination bucket session = None ->
  export_body split_to_items formatServicesForList first (clock w) = Ok (Text data1) ->
  export_body split_to_items formatServicesForList second (clock w1) = Ok (Text data2) ->
  base_filename_of second (clock w1) = base_filename_of first (clock w) ->
  run_export split_to_items formatServicesForList first path bucket prefix session w
  = (Ok (Some location1), w1) ->
  run_export split_to_items formatServicesForList second path bucket prefix session w1
  = (Ok (Some location2), w2) ->
  location2 = location1
  /\ file_find (abspath (fs_cwd w) location1) (fs_files w2) = Some (Text data2)
  /\ console w2 = console w.
Proof.
  intros Hlocal Hb1 Hb2 Hname H1 H2.
  rewrite (run_export_local_text_eval first path bucket prefix session w data1 Hlocal Hb1)
    in H1.
  rewrite (run_export_local_text_eval second path bucket prefix session w1 data2 Hlocal Hb2)
    in H2.
  destruct (write_local path (base_filename_of first (clock w)) data1 w)
    as [[r1|e1] v1] eqn:E1; [|discriminate H1].
  destruct (write_local path (base_filename_of second (clock w1)) data2 w1)
    as [[r2|e2] v2] eqn:E2; [|discriminate H2].
  injection H1 as -> <-. injection H2 as -> <-.
  pose proof (write_local_keeps_cwd _ _ _ _ _ _ E1) as Hcwd.
  destruct (write_local_outcome _ _ _ _ _ _ E1) as ([= L1] & _ & _ & _ & C1 & _).
  destruct (write_local_outcome _ _ _ _ _ _ E2) as ([= L2] & F2 & _ & _ & C2 & _).
  rewrite Hname in L2, F2. rewrite Hcwd, <- L1 in F2.
  split; [congruence|]. split; [exact F2|congruence].
Qed.

End MoreExports.

Lemma remote_export_stores_report_witness :
  exists body,
    export_body split_to_items_model formatServicesForList_model
                (AuditCsv [two_resources_row] "audit_report") (clock example_world) = Ok body
    /\ snd (export_audit_report_to_csv [two_resources_row] "audit_report" None
              (Some "finops-reports") (Some "audits") (Some example_session) example_world)
       = add_console
           "[bright_green]Successfully exported to S3: s3://finops-reports/audits/audit_report_20250131_0930.csv[/]"
           (add_put (mkObject "finops-reports" "audits/audit_report_20250131_0930.csv" body
                              (Some "text/csv")) example_world).
Proof.
  apply (remote_export_stores_report split_to_items_model formatServicesForList_model
           (AuditCsv [two_resources_row] "audit_report") None "finops-reports"
           (Some "audits") example_session example_world _
           "s3://finops-reports/audits/audit_report_20250131_0930.csv").
  - discriminate.
  - vm_compute. reflexivity.
Defined.



Lemma local_text_export_witness :
  "reports/audit_report_20250131_0930.csv"
  = if_truthy (Some "reports")
      (fun dir => path_join dir "audit_report_20250131_0930.csv")
      "audit_report_20250131_0930.csv"
  /\ file_find "/home/finops/reports/audit_report_20250131_0930.csv"
       (fs_files (snd (export_audit_report_to_csv [two_resources_row] "audit_report"
                         (Some "reports") None None None example_world)))
     = Some (Text (csv_serialize [two_resources_row])).
Proof.
  destruct (local_text_export split_to_items_model formatServicesForList_model
              (AuditCsv [two_resources_row] "audit_report") (Some "reports") None None None
              example_world
              (snd (export_audit_report_to_csv [two_resources_row] "audit_report"
                      (Some "reports") None None None example_world))
              "reports/audit_report_20250131_0930.csv" (csv_serialize [two_resources_row])
              eq_refl eq_refl ltac:(vm_compute; reflexivity))
    as (Hloc & Hfile & _).
  split; [exact Hloc|exact Hfile].
Defined.

Lemma json_export_reads_back_witness :
  exists text,
    read_file "r" "audit_report_20250131_0930.json"
      (snd (export_audit_report_to_json example_audit_data "audit_report" None None None
              None example_world))
    = (Ok (Text text),
       snd (export_audit_report_to_json example_audit_data "audit_report" None None None
              None example_world))
    /\ json_loads text = Some example_audit_data.
Proof.
  apply (json_export_reads_back split_to_items_model formatServicesForList_model
           (AuditJson example_audit_data "audit_report") example_audit_data "audit_report"
           None None None None example_world).
  - left. reflexivity.
  - reflexivity.
  - reflexivity.
  - vm_compute. reflexivity.
  - reflexivity.
Defined.

Lemma cost_pdf_local_export_witness :
  isabs "/home/finops/reports/cost_report_20250131_0930.pdf" = true
  /\ is_dir (snd (export_cost_dashboard_to_pdf formatServicesForList_model [example_cost_row]
                    "cost_report" (Some "reports") "N/A" "N/A" None None None
                    example_world))
            "/home/finops/reports" = true.
Proof.
  destruct (cost_pdf_local_export split_to_items_model formatServicesForList_model
              [example_cost_row] "cost_report" (Some "reports") "N/A" "N/A" None None None
              example_world
              (snd (export_cost_dashboard_to_pdf formatServicesForList_model
                      [example_cost_row] "cost_report" (Some "reports") "N/A" "N/A" None
                      None None example_world))
              "/home/finops/reports/cost_report_20250131_0930.pdf"
              eq_refl eq_refl ltac:(vm_compute; reflexivity))
    as (_ & Habs & _ & Hdir & _).
  split; [exact Habs|]. apply (Hdir "reports"); [reflexivity|discriminate].
Defined.

Lemma audit_pdf_local_export_witness :
  isabs "/home/finops/audit_report_20250131_0930.pdf" = true
  /\ fs_dirs (snd (export_audit_report_to_pdf split_to_items_model [two_resources_row]
                     "audit_report" None None None None example_world))
     = fs_dirs example_world.
Proof.
  destruct (audit_pdf_local_export split_to_items_model formatServicesForList_model
              [two_resources_row] "audit_report" None None None None example_world
              (snd (export_audit_report_to_pdf split_to_items_model [two_resources_row]
                      "audit_report" None None None None example_world))
              "/home/finops/audit_report_20250131_0930.pdf"
              eq_refl eq_refl ltac:(vm_compute; reflexivity))
    as (_ & Habs & _ & Hdirs & _).
  split; [exact Habs|exact Hdirs].
Defined.


Lemma text_export_overwrites_witness :
  file_find "/home/finops/audit_report_20250131_0930.csv"
    (fs_files
       (snd (export_audit_report_to_csv [] "audit_report" None None None None
               (snd (export_audit_report_to_csv [two_resources_row] "audit_report" None
                       None None None example_world)))))
  = Some (Text (csv_serialize [])).
Proof.
  destruct (text_export_overwrites split_to_items_model formatServicesForList_model
              (AuditCsv [two_resources_row] "audit_report") (AuditCsv [] "audit_report")
              None None None None example_world
              (snd (export_audit_report_to_csv [two_resources_row] "audit_report" None
                      None None None example_world))
              (snd (export_audit_report_to_csv [] "audit_report" None None None None
                      (snd (export_audit_report_to_csv [two_resources_row] "audit_report"
                              None None None None example_world))))
              "audit_report_20250131_0930.csv" "audit_report_20250131_0930.csv"
              (csv_serialize [two_resources_row]) (csv_serialize [])
              eq_refl eq_refl eq_refl eq_refl
              ltac:(vm_compute; reflexivity) ltac:(vm_compute; reflexivity))
    as (_ & Hfile & _).
  exact Hfile.
Defined.


(* ===================================================================== *)
(** * The documents of the two PDF reports *)
(* ===================================================================== *)

Section Documents.
Variable split_to_items : string -> list string.
Variable formatServicesForList : list (string * pyfloat) -> list string.




Lemma cost_row_cards (row : ProfileData) (remaining : nat) :
  filter is_card (cost_row_elements formatServicesForList row remaining)
  = [header_card (profile row) (account_id row)].
Proof. destruct remaining; reflexivity. Qed.

Lemma cost_row_bullets (row : ProfileData) (remaining : nat) :
  filter is_bullets (cost_row_elements formatServicesForList row remaining)
  = [bulletList (formatServicesForList (service_costs row));
     bulletList (budget_items row); bulletList (ec2_items row)].
Proof. destruct remaining; reflexivity. Qed.

Lemma cost_row_separators (row : ProfileData) (remaining : nat) :
  List.length (filter (is_spacer 14) (cost_row_elements formatServicesForList row remaining))
  = match remaining with O => 0 | S _ => 1 end.
Proof. destruct remaining; reflexivity. Qed.

Lemma cost_row_length (row : ProfileData) (remaining : nat) :
  List.length (cost_row_elements formatServicesForList row remaining)
  = 12 + match remaining with O => 0 | S _ => 1 end.
Proof. destruct remaining; reflexivity. Qed.

(** X16: the layout of the cost report.  Its document has one header card
    per row, in the order of the rows; three bulleted lists per row
    (services, budgets, instances), in that order; a [Spacer(1, 14)] between
    two rows and none behind the last row; and 12 flowables per row, 6
    for the title, the period line and the footer. *)
Theorem cost_document_structure (data : list ProfileData) (previous current : string)
    (stamp : datetime) :
  let document := cost_report_elements formatServicesForList data previous current stamp in
  filter is_card document = map (fun row => header_card (profile row) (account_id row)) data
  /\ filter is_bullets document
     = flat_map (fun row => [bulletList (formatServicesForList (service_costs row));
                             bulletList (budget_items row); bulletList (ec2_items row)])
                data
  /\ List.length (filter (is_spacer 14) document) = List.length data - 1
  /\ List.length document = 6 + 12 * List.length data + (List.length data - 1).
Proof.
  cbv zeta. unfold cost_report_elements.
  assert (Hrows :
    filter is_card (cost_rows_elements formatServicesForList data)
    = map (fun row => header_card (profile row) (account_id row)) data
    /\ filter is_bullets (cost_rows_elements formatServicesForList data)
       = flat_map (fun row => [bulletList (formatServicesForList (service_costs row));
                               bulletList (budget_items row); bulletList (ec2_items row)])
                  data
    /\ List.length (filter (is_spacer 14) (cost_rows_elements formatServicesForList data))
       = List.length data - 1
    /\ List.length (cost_rows_elements formatServicesForList data)
       = 12 * List.length data + (List.length data - 1)).
  { induction data as [|row data (IH1 & IH2 & IH3 & IH4)]; [repeat split|].
    cbn [cost_rows_elements map flat_map].
    rewrite !filter_app, !List.length_app, cost_row_cards, cost_row_bullets,
            cost_row_separators, cost_row_length, IH1, IH2, IH3, IH4.
    repeat split. all: destruct data; cbn [List.length]; lia. }
  destruct Hrows as (H1 & H2 & H3 & H4).
  cbn [app filter is_card is_bullets is_spacer Z.eqb Pos.eqb andb List.length].
  rewrite !filter_app, !List.length_app, H1, H2, H3, H4.
  cbn [filter is_card is_bullets is_spacer Z.eqb Pos.eqb andb List.length].
  rewrite !List.app_nil_r. repeat split; lia.
Qed.



End Documents.




(* ===================================================================== *)
(** * The CSV serialization reads back *)
(* ===================================================================== *)

Lemma csv_scan_quoted (f rest : string) :
  csv_scan InQuoted (csv_double_quotes f ++ String DQUOTE rest)
  = csv_push_string f (csv_scan QuoteSeen rest).
Proof.
  induction f as [|c f IH]; [reflexivity|].
  cbn [csv_double_quotes]. destruct (Ascii.eqb c DQUOTE) eqn:Ec.
  - apply Ascii.eqb_eq in Ec. subst c. cbn [append csv_scan csv_push_string].
    change (Ascii.eqb DQUOTE DQUOTE) with true. cbv iota. now rewrite IH.
  - cbn [append csv_scan csv_push_string]. rewrite Ec. now rewrite IH.
Qed.

Lemma csv_special_parts (c : ascii) :
  csv_special c = false ->
  Ascii.eqb c "," = false /\ Ascii.eqb c DQUOTE = false
  /\ Ascii.eqb c CR = false /\ Ascii.eqb c LF = false.
Proof.
  unfold csv_special. intros H.
  repeat (apply orb_false_elim in H as [H ?]). auto.
Qed.

Lemma csv_scan_unquoted (f rest : string) :
  csv_needs_quotes f = false ->
  csv_scan InField (f ++ rest) = csv_push_string f (csv_scan InField rest).
Proof.
  induction f as [|c f IH]; [reflexivity|].
  cbn [csv_needs_quotes]. intros H. apply orb_false_elim in H as [Hc Hf].
  apply csv_special_parts in Hc as (Hcomma & _ & Hcr & _).
  cbn [append csv_scan csv_push_string]. rewrite Hcomma, Hcr. now rewrite IH.
Qed.

Lemma csv_scan_start_ends (st : csv_state) (rest : string) :
  st = FieldStart \/ st = QuoteSeen ->
  ends_field rest = true -> csv_scan st rest = csv_scan InField rest.
Proof.
  destruct rest as [|c rest]; [discriminate|]. cbn [ends_field]. intros Hst H.
  assert (Hq : Ascii.eqb c DQUOTE = false).
  { destruct (Ascii.eqb_spec c ",") as [->|]; [reflexivity|].
    destruct (Ascii.eqb_spec c CR) as [->|]; [reflexivity|discriminate H]. }
  destruct Hst as [-> | ->]; cbn [csv_scan]; rewrite Hq; [reflexivity|].
  destruct (Ascii.eqb c ","); [reflexivity|].
  destruct (Ascii.eqb c CR); [reflexivity|discriminate H].
Qed.

Lemma csv_scan_field (f rest : string) :
  ends_field rest = true ->
  csv_scan FieldStart (csv_field f ++ rest) = csv_push_string f (csv_scan InField rest).
Proof.
  intros Hr. unfold csv_field. destruct (csv_needs_quotes f) eqn:Hq.
  - cbn [append csv_scan]. change (Ascii.eqb DQUOTE DQUOTE) with true. cbv iota.
    rewrite append_assoc. cbn [append]. rewrite csv_scan_quoted.
    now rewrite (csv_scan_start_ends QuoteSeen) by auto.
  - destruct f as [|c f].
    + cbn [append csv_push_string]. now apply csv_scan_start_ends; auto.
    + pose proof Hq as Hq'. cbn [csv_needs_quotes] in Hq'.
      apply orb_false_elim in Hq' as [Hc Hf].
      apply csv_special_parts in Hc as (Hcomma & Hdq & Hcr & _).
      rewrite <- (csv_scan_unquoted (String c f) rest Hq).
      cbn [append csv_scan]. now rewrite Hdq.
Qed.

Lemma csv_push_string_some (f g : string) (fields : list string)
    (records : list (list string)) :
  csv_push_string f (Some (g, fields, records)) = Some (f ++ g, fields, records).
Proof. induction f as [|c f IH]; [reflexivity|]. cbn [csv_push_string append]. now rewrite IH. Qed.

Lemma csv_scan_line_end (rest : string) (records : list (list string)) :
  csv_records rest = Some records ->
  csv_scan InField (CRLF ++ rest) = Some (EmptyString, [], records).
Proof.
  intros H. cbn [CRLF append csv_scan]. change (Ascii.eqb CR ",") with false.
  change (Ascii.eqb CR CR) with true. change (Ascii.eqb LF LF) with true. cbv iota.
  unfold csv_records in H. destruct rest as [|c rest].
  - now injection H as <-.
  - destruct (csv_scan FieldStart (String c rest)) as [[[f fs] rs]|]; [|discriminate H].
    now injection H as <-.
Qed.

Lemma csv_line_cons (first second : string) (fields : list string) :
  csv_line (first :: second :: fields)
  = csv_field first ++ "," ++ csv_line (second :: fields).
Proof. reflexivity. Qed.

Lemma csv_scan_line (fields : list string) (first : string) (rest : string)
    (records : list (list string)) :
  csv_records rest = Some records ->
  csv_scan FieldStart (csv_line (first :: fields) ++ CRLF ++ rest)
  = Some (first, fields, records).
Proof.
  intros H. revert first. induction fields as [|g fields IH]; intros first.
  - unfold csv_line. cbn [map String.concat].
    rewrite csv_scan_field by reflexivity.
    rewrite (csv_scan_line_end rest records H), csv_push_string_some.
    now rewrite append_empty_r.
  - rewrite csv_line_cons, !append_assoc. rewrite csv_scan_field by reflexivity.
    cbn [append csv_scan]. change (Ascii.eqb "," ",") with true. cbv iota.
    rewrite (IH g). cbn [csv_end_field]. rewrite csv_push_string_some.
    now rewrite append_empty_r.
Qed.

Lemma csv_records_line (fields : list string) (first rest : string)
    (records : list (list string)) :
  csv_records rest = Some records ->
  csv_records ((csv_line (first :: fields) ++ CRLF) ++ rest)
  = Some ((first :: fields) :: records).
Proof.
  intros H. rewrite append_assoc.
  pose proof (csv_scan_line fields first rest records H) as E.
  unfold csv_records at 1.
  destruct (csv_line (first :: fields) ++ CRLF ++ rest) as [|c t] eqn:Et.
  - discriminate E.
  - now rewrite E.
Qed.

Lemma csv_records_rows (rows : list audit_row) :
  csv_records (String.concat "" (map (fun item => csv_writerow (csv_row_fields item)) rows))
  = Some (map csv_row_fields rows).
Proof.
  induction rows as [|row rows IH]; [reflexivity|].
  cbn [map]. rewrite concat_empty_cons, csv_writerow_row.
  unfold csv_row_fields at 1, csv_data_keys. cbn [map].
  rewrite (csv_records_line _ _ _ _ IH). reflexivity.
Qed.

(** The reader finds the header and the fields of every row in what the
    writer wrote, whatever the fields hold. *)
Lemma csv_records_serialize (rows : list audit_row) :
  csv_records (csv_serialize rows) = Some (csv_headers :: map csv_row_fields rows).
Proof.
  unfold csv_serialize.
  change (csv_writerow csv_headers)
    with (csv_line csv_headers ++ CRLF).
  unfold csv_headers at 1.
  rewrite (csv_records_line _ _ _ _ (csv_records_rows rows)). reflexivity.
Qed.

(** X18: the CSV text determines the table.  Two lists of rows that
    serialize to the same text have the same fields, row by row: the
    quoting never merges two fields or two records, whatever the fields
    hold. *)
Theorem csv_serialize_injective (rows rows' : list audit_row) :
  csv_serialize rows = csv_serialize rows' ->
  map csv_row_fields rows = map csv_row_fields rows'.
Proof.
  intros H. pose proof (csv_records_serialize rows) as E.
  rewrite H, csv_records_serialize in E. now injection E.
Qed.

(** X19: read as RFC 4180 text (records ended by CR LF, fields separated by
    commas, quotes doubled inside quoted fields), the serialization of N
    rows holds exactly N+1 records of seven fields each: the header, then
    the fields of the rows in order, also when fields hold commas, quotes
    or line breaks. *)
Theorem csv_serialize_reads_back (rows : list audit_row) :
  exists records,
    csv_records (csv_serialize rows) = Some (csv_headers :: records)
    /\ records = map csv_row_fields rows
    /\ List.length records = List.length rows
    /\ Forall (fun record => List.length record = 7%nat) (csv_headers :: records).
Proof.
  exists (map csv_row_fields rows). split; [apply csv_records_serialize|].
  split; [reflexivity|]. split; [apply length_map|].
  constructor; [reflexivity|]. apply Forall_forall. intros record Hin.
  apply in_map_iff in Hin as (row & <- & _). reflexivity.
Qed.

Lemma csv_serialize_injective_witness :
  map csv_row_fields [[("profile", "dev")]]
  = map csv_row_fields [[("region", "eu-west-1"); ("profile", "dev")]].
Proof.
  apply (csv_serialize_injective [[("profile", "dev")]]
           [[("region", "eu-west-1"); ("profile", "dev")]]).
  reflexivity.
Defined.


(* ===================================================================== *)
(** * [clean_rich_tags]: what is removed and what is kept *)
(* ===================================================================== *)

Lemma sub_tags_no_tag (s : string) : contains_tag s = false -> sub_tags s = s.
Proof.
  induction s as [|c s IH]; intros H.
  - now rewrite sub_tags_step.
  - rewrite sub_tags_step. cbn [contains_tag] in H.
    destruct (match_tag (String c s)); [discriminate H|]. now rewrite IH.
Qed.

Lemma sub_tags_length (n : nat) :
  forall s, (String.length s <= n)%nat ->
    (String.length (sub_tags s) <= String.length s)%nat
    /\ (contains_tag s = true -> (String.length (sub_tags s) < String.length s)%nat).
Proof.
  induction n as [|n IH]; intros s Hn.
  - destruct s; [|cbn in Hn; lia]. rewrite sub_tags_step. cbn. split; [lia|discriminate].
  - rewrite sub_tags_step. destruct s as [|c s].
    + cbn. split; [lia|discriminate].
    + cbn [contains_tag]. destruct (match_tag (String c s)) as [rest|] eqn:Hm.
      * apply match_tag_shorter in Hm. destruct (IH rest) as [Hle _]; [cbn in *; lia|].
        split; [lia|intros _; lia].
      * destruct (IH s) as [Hle Hlt]; [cbn in Hn; lia|]. cbn [String.length].
        split; [lia|]. intros H. apply Hlt in H. lia.
Qed.

(** X20: [clean_rich_tags] changes a text exactly when a tag (a match of
    its pattern) starts somewhere in it, and it never makes a text
    longer. *)
Theorem clean_rich_tags_changes_tagged (text : string) :
  (clean_rich_tags text = text <-> contains_tag text = false)
  /\ (String.length (clean_rich_tags text) <= String.length text)%nat.
Proof.
  unfold clean_rich_tags.
  destruct (sub_tags_length (String.length text) text (le_n _)) as [Hle Hlt].
  split; [|exact Hle]. split.
  - intros E. destruct (contains_tag text) eqn:Ht; [|reflexivity].
    specialize (Hlt eq_refl). rewrite E in Hlt. lia.
  - apply sub_tags_no_tag.
Qed.

(** X21: on a text whose square brackets are not nested, cleaning twice
    gives the same as cleaning once. *)
Theorem clean_rich_tags_idempotent (text : string) :
  brackets_flat false text = true ->
  clean_rich_tags (clean_rich_tags text) = clean_rich_tags text.
Proof.
  intros H. unfold clean_rich_tags. apply sub_tags_no_tag.
  exact (sub_tags_flat (String.length text) text false (le_n _) H).
Qed.

Lemma sub_tags_prefix (before rest : string) :
  lacks "[" before = true -> sub_tags (before ++ rest) = before ++ sub_tags rest.
Proof.
  induction before as [|c before IH]; [reflexivity|].
  cbn [lacks]. intros H. apply andb_prop in H as [Hc Hb].
  apply negb_true_iff in Hc. cbn [append]. rewrite sub_tags_keep by exact Hc.
  now rewrite IH.
Qed.

Lemma match_tag_body_name (name rest : string) :
  all_tag_chars name = true -> match_tag_body (name ++ String "]" rest) = Some rest.
Proof.
  induction name as [|c name IH]; [reflexivity|].
  cbn [all_tag_chars]. intros H. apply andb_prop in H as [Hc Hn].
  cbn [append match_tag_body]. destruct (tag_char_not_bracket c Hc) as [_ ->].
  rewrite Hc. now apply IH.
Qed.

Lemma match_tag_opening (name rest : string) :
  all_tag_chars name = true ->
  match_tag (String "[" (name ++ String "]" rest)) = Some rest.
Proof.
  intros H. cbn [match_tag]. change (Ascii.eqb "[" "[") with true. cbv iota.
  destruct name as [|d name].
  - reflexivity.
  - cbn [append]. pose proof H as H'. cbn [all_tag_chars] in H'.
    apply andb_prop in H' as [Hd _].
    assert (Hs : Ascii.eqb d "/" = false).
    { destruct (Ascii.eqb_spec d "/") as [->|]; [discriminate Hd|reflexivity]. }
    rewrite Hs. exact (match_tag_body_name (String d name) rest H).
Qed.

Lemma match_tag_closing (name rest : string) :
  all_tag_chars name = true ->
  match_tag (String "[" (String "/" (name ++ String "]" rest))) = Some rest.
Proof.
  intros H. cbn [match_tag]. change (Ascii.eqb "[" "[") with true.
  change (Ascii.eqb "/" "/") with true. cbv iota.
  now rewrite (match_tag_body_name name rest H).
Qed.

(** X22: how a tag is removed.  Behind a stretch of text without an opening
    bracket, a bracket group made of letters, digits, [#] and [_] only, with
    or without a slash in front, is dropped; the text before it is kept as
    it is and the cleaning goes on behind the group. *)
Theorem clean_rich_tags_removes_tag (before name after : string) (closing : bool) :
  lacks "[" before = true ->
  all_tag_chars name = true ->
  clean_rich_tags (before ++ "[" ++ (if closing then "/" else "") ++ name ++ "]" ++ after)
  = before ++ clean_rich_tags after.
Proof.
  intros Hb Hn. unfold clean_rich_tags. rewrite sub_tags_prefix by exact Hb.
  f_equal. rewrite sub_tags_step. destruct closing; cbn [append].
  - now rewrite match_tag_closing.
  - now rewrite match_tag_opening.
Qed.

Lemma match_tag_body_foreign (body rest : string) :
  lacks "]" body = true -> all_tag_chars body = false ->
  match_tag_body (body ++ rest) = None.
Proof.
  induction body as [|c body IH]; [discriminate|].
  cbn [lacks all_tag_chars append match_tag_body]. intros Hl Ht.
  apply andb_prop in Hl as [Hc Hl]. apply negb_true_iff in Hc. rewrite Hc.
  destruct (tag_char c); [|reflexivity]. now apply IH.
Qed.

Lemma match_tag_foreign (body rest : string) :
  lacks "]" body = true -> all_tag_chars (tag_name body) = false ->
  match_tag (String "[" (body ++ rest)) = None.
Proof.
  intros Hl Ht. cbn [match_tag]. change (Ascii.eqb "[" "[") with true. cbv iota.
  destruct body as [|d body]; [discriminate Ht|].
  cbn [append]. cbn [tag_name] in Ht. destruct (Ascii.eqb d "/") eqn:Hd.
  - apply Ascii.eqb_eq in Hd. subst d.
    assert (Hl' : lacks "]" body = true) by (cbn [lacks] in Hl; now apply andb_prop in Hl).
    rewrite (match_tag_body_foreign body rest Hl' Ht).
    change (String "/" (body ++ rest)) with (String "/" body ++ rest).
    apply match_tag_body_foreign; [exact Hl|reflexivity].
  - change (String d (body ++ rest)) with (String d body ++ rest).
    now apply match_tag_body_foreign.
Qed.

(** X23: what is not removed.  A bracket group that holds any other
    character (a space as in the style "bold red", an equals sign, a dot)
    is kept in the text, brackets included. *)
Theorem clean_rich_tags_keeps_other_brackets (before body after : string) :
  lacks "[" before = true ->
  lacks "[" body = true -> lacks "]" body = true ->
  all_tag_chars (tag_name body) = false ->
  clean_rich_tags (before ++ "[" ++ body ++ "]" ++ after)
  = before ++ "[" ++ body ++ "]" ++ clean_rich_tags after.
Proof.
  intros Hb Ho Hc Ht. unfold clean_rich_tags. rewrite sub_tags_prefix by exact Hb.
  f_equal. cbn [append]. rewrite sub_tags_step, (match_tag_foreign body _ Hc Ht).
  f_equal. rewrite sub_tags_prefix by exact Ho. f_equal.
  now rewrite sub_tags_keep.
Qed.

Lemma clean_rich_tags_idempotent_witness :
  clean_rich_tags (clean_rich_tags "[bright_red]i-0a1[/] stopped, [#ff8800]vol-2[/]")
  = clean_rich_tags "[bright_red]i-0a1[/] stopped, [#ff8800]vol-2[/]".
Proof.
  apply (clean_rich_tags_idempotent "[bright_red]i-0a1[/] stopped, [#ff8800]vol-2[/]").
  reflexivity.
Defined.

Lemma clean_rich_tags_removes_tag_witness :
  clean_rich_tags ("stopped: " ++ "[" ++ "" ++ "bright_red" ++ "]" ++ "i-0a1")
  = "stopped: " ++ clean_rich_tags "i-0a1".
Proof.
  apply (clean_rich_tags_removes_tag "stopped: " "bright_red" "i-0a1" false); reflexivity.
Defined.

Lemma clean_rich_tags_keeps_other_brackets_witness :
  clean_rich_tags ("" ++ "[" ++ "bold red" ++ "]" ++ "Error[/]")
  = "" ++ "[" ++ "bold red" ++ "]" ++ clean_rich_tags "Error[/]".
Proof.
  apply (clean_rich_tags_keeps_other_brackets "" "bold red" "Error[/]"); reflexivity.
Defined.


(* ===================================================================== *)
(** * The configuration loader: its diagnostics and its effects *)
(* ===================================================================== *)

Section MoreConfigLoader.
Variable V : Type.
Variable is_dict : V -> bool.
Variable tomllib : option (string -> result V).
Variable yaml_safe_load : string -> result V.
Variable json_load : string -> result V.










End MoreConfigLoader.







(* ===================================================================== *)
(** * The amounts of the cost report *)
(* ===================================================================== *)

(** X29: the amount a finite non-zero cost is shown with is a whole number
    of cents that differs from the float by half a cent at most (by nothing
    when the float is an integer), behind the sign. *)
Theorem format_2f_nearest_cent (s : bool) (m : positive) (e : Z) :
  exists cents : Z,
    format_2f (S754_finite s m e) = sign_str s ++ fixed2 cents
    /\ (0 <= cents)%Z
    /\ (if (0 <=? e)%Z then cents = (Z.pos m * 2 ^ e * 100)%Z
        else (2 * Z.abs (cents * 2 ^ (- e) - Z.pos m * 100) <= 2 ^ (- e))%Z).
Proof.
  exists (round_cents m e). split; [reflexivity|].
  split; [apply round_cents_nonneg|apply round_cents_nearest].
Qed.
